(** * exif_count: a shallow embedding of [exif_count.py] and its properties

    The script walks a directory of photographs, reads seven EXIF fields of
    every file in a pool of worker processes, counts how often each value
    occurs in a table shared by the workers, and plots one bar chart per
    field.

    Layout of the development:
    - [PyStr]: the string methods the script calls ([split], [replace],
      [strip]);
    - [PyDict]: Python's insertion-ordered [dict] as an association list;
    - [PyLib]: the interface of the library functions the script only calls
      ([TAGS], [float], [int], [Fraction], [date.fromisoformat],
      [limit_denominator]);
    - the program: the locked block [increment], the worker
      [make_statistic], the pool as a step relation, [get_statistic_dict],
      [plot_statistic_dict] and [cli];
    - the notions the properties are stated with, a reference
      implementation [Plain] of the library interface, and sample files;
    - the properties: lemmas on each part of the program, and one theorem
      per claim of the specification, marked C1 to C10.

    Strings are Rocq [string]s, that is sequences of bytes; a Python [str]
    is read as its UTF-8 encoding.  The characters the script looks for
    (space, colon, NUL) are single bytes that never occur inside a
    multi-byte sequence, and bytewise order of UTF-8 is code point order,
    so the byte-level reading agrees with Python on every operation used
    here. *)

From Stdlib Require Import QArith Qabs Ascii OrderedTypeEx.
From stdpp Require Import base list strings gmap sorting pretty.

Local Close Scope Q_scope.
Local Open Scope string_scope.
Local Open Scope list_scope.

(** ** Python string methods *)

Module PyStr.

(** The NUL character, written ["\x00"] in the script. *)
Definition NUL : ascii := Ascii.zero.

(** [s.split(sep)] for a separator of one character. *)
Fixpoint split (sep : ascii) (s : string) : list string :=
  match s with
  | EmptyString => [EmptyString]
  | String c s' =>
      if Ascii.eqb c sep then EmptyString :: split sep s'
      else match split sep s' with
           | [] => [String c EmptyString]
           | w :: ws => String c w :: ws
           end
  end.

(** [s.replace(old, new, count)] for [old] and [new] of one character:
    the first [count] occurrences are replaced, from the left. *)
Fixpoint replace (old new : ascii) (count : nat) (s : string) : string :=
  match s with
  | EmptyString => EmptyString
  | String c s' =>
      match count with
      | O => String c s'
      | S n =>
          if Ascii.eqb c old then String new (replace old new n s')
          else String c (replace old new count s')
      end
  end.

(** Membership of a character in the argument of [strip]. *)
Fixpoint char_in (c : ascii) (chars : string) : bool :=
  match chars with
  | EmptyString => false
  | String d chars' => Ascii.eqb c d || char_in c chars'
  end.

(** [s.lstrip(chars)]: drop the longest prefix made of characters of
    [chars]. *)
Fixpoint lstrip (chars : string) (s : string) : string :=
  match s with
  | EmptyString => EmptyString
  | String c s' => if char_in c chars then lstrip chars s' else s
  end.

(** [s.rstrip(chars)]: drop the longest suffix made of characters of
    [chars]. *)
Fixpoint rstrip (chars : string) (s : string) : string :=
  match s with
  | EmptyString => EmptyString
  | String c s' =>
      match rstrip chars s' with
      | EmptyString => if char_in c chars then EmptyString else String c EmptyString
      | r => String c r
      end
  end.

(** [s.strip(chars)]. *)
Definition strip (chars : string) (s : string) : string :=
  rstrip chars (lstrip chars s).


(** Python's [<] on strings, by code point. *)
Definition lt (a b : string) : bool := String.ltb a b.

End PyStr.

(** ** Python dictionaries

    A [dict] keeps its keys in insertion order, and both the order in which
    [plot_statistic_dict] meets the fields and the order in which [sorted]
    leaves equal keys depend on it, so a dictionary is the list of its
    items. *)

Module PyDict.

Definition dict (V : Type) : Type := list (string * V).

(** [dict()] *)
Definition empty {V} : dict V := [].

(** [d.get(k)]; [d[k]] raises [KeyError] where this is [None]. *)
Fixpoint get {V} (k : string) (d : dict V) : option V :=
  match d with
  | [] => None
  | (k', v) :: d' => if String.eqb k k' then Some v else get k d'
  end.

(** [k in d], [k in d.keys()] *)
Definition contains {V} (k : string) (d : dict V) : bool :=
  match get k d with Some _ => true | None => false end.

(** [d[k] = v]: a present key keeps its place, a new key goes last. *)
Fixpoint setitem {V} (k : string) (v : V) (d : dict V) : dict V :=
  match d with
  | [] => [(k, v)]
  | (k', v') :: d' =>
      if String.eqb k k' then (k', v) :: d' else (k', v') :: setitem k v d'
  end.

(** [d.keys()], [d.values()], [d.items()], [len(d)] *)
Definition keys {V} (d : dict V) : list string := map fst d.
Definition values {V} (d : dict V) : list V := map snd d.
Definition items {V} (d : dict V) : list (string * V) := d.
Definition len {V} (d : dict V) : nat := length d.

(** Python's [==] on dictionaries ignores the order of the items. *)
Definition same {V} (d1 d2 : dict V) : Prop := forall k, get k d1 = get k d2.

End PyDict.

Abbreviation dict := PyDict.dict.

(** ** Exceptions and results *)

(** The exceptions that can leave a function of the script. *)
Inductive exn : Type :=
| KeyError (key : string)
  (** [d[key]] on a dictionary without [key] *)
| OpenError (name : string)
  (** what [Image.open] or [_getexif] raises on a file it cannot read,
      named by its class *)
| ConversionError (field value : string)
  (** what [Fraction], [float], [int] or [date.fromisoformat] raises on
      [value], met while the rows of [field] are sorted *)
| UnpackError
  (** [ValueError: not enough values to unpack (expected 2, got 0)] *)
| TypeError.
  (** ['int' object is not subscriptable] *)

#[global] Instance exn_eq_dec : EqDecision exn.
Proof. solve_decision. Defined.

Inductive result (A : Type) : Type :=
| Ok (a : A)
| Raise (e : exn).
Arguments Ok {A} a.
Arguments Raise {A} e.

Definition bind {A B} (r : result A) (f : A -> result B) : result B :=
  match r with
  | Ok a => f a
  | Raise e => Raise e
  end.

Declare Scope py_scope.
Delimit Scope py_scope with py.
Notation "'let*' x ':=' r 'in' k" := (bind r (fun x => k))
  (at level 10, x pattern, r at level 100, k at level 200) : py_scope.
Local Open Scope py_scope.

(** [d[k]] *)
Definition getitem {V} (k : string) (d : dict V) : result V :=
  match PyDict.get k d with
  | Some v => Ok v
  | None => Raise (KeyError k)
  end.

(** ** Library functions

    The script calls these functions of Pillow and of the standard library;
    their code is not part of the repository, so the embedding takes them
    as an interface.  [None] stands for the call raising an exception. *)

(** [datetime.date]: year, month, day, ordered chronologically. *)
Record date : Type := Date { year : Z; month : Z; day : Z }.

Definition date_lt (a b : date) : bool :=
  ((year a <? year b)
   || ((year a =? year b) && ((month a <? month b)
       || ((month a =? month b) && (day a <? day b)))))%Z.

Definition date_le (a b : date) : Prop :=
  (year a < year b
   \/ (year a = year b /\ (month a < month b
       \/ (month a = month b /\ day a <= day b))))%Z.

Class PyLib : Type := {
  (** [PIL.ExifTags.TAGS.get(tag)] *)
  TAGS : Z -> option string;
  (** the values of [float], NaN included, with [<] and [math.isnan] *)
  float : Type;
  float_lt : float -> float -> bool;
  is_nan : float -> bool;
  (** [float(s)] *)
  float_of_str : string -> option float;
  (** [int(s)] *)
  int_of_str : string -> option Z;
  (** [Fraction(s)], a rational number *)
  Fraction : string -> option Q;
  (** [datetime.date.fromisoformat(s)] *)
  date_fromisoformat : string -> option date;
  (** [q.limit_denominator()], with the default bound of 1000000 *)
  limit_denominator : Q -> Q;
  (** [<] on floats, as IEEE 754 has it: nothing is smaller or greater
      than a NaN, and on the other floats [<] is a strict weak order *)
  float_lt_irrefl : forall x, float_lt x x = false;
  float_lt_trans : forall x y z,
    float_lt x y = true -> float_lt y z = true -> float_lt x z = true;
  float_lt_nan : forall x y,
    is_nan x = true \/ is_nan y = true -> float_lt x y = false;
  float_lt_incomparable : forall x y z,
    is_nan y = false ->
    float_lt x y = false -> float_lt y z = false -> float_lt x z = false;
  (** the contract of [limit_denominator]: the result is in lowest terms,
      its denominator is at most 1000000, and a fraction whose reduced
      denominator is already that small is returned as it is *)
  limit_denominator_reduced : forall q,
    Qred (limit_denominator q) = limit_denominator q;
  limit_denominator_bound : forall q,
    (Qden (limit_denominator q) <= 1000000)%positive;
  limit_denominator_small : forall q,
    (Qden (Qred q) <= 1000000)%positive -> limit_denominator q = Qred q
}.

(** [str(q)] for a [Fraction]: the numerator alone when the denominator
    is 1, [numerator/denominator] otherwise, in lowest terms. *)
Definition str_Fraction (q : Q) : string :=
  let r := Qred q in
  if (Qden r =? 1)%positive then pretty (Qnum r)
  else pretty (Qnum r) ++ "/" ++ pretty (Zpos (Qden r)).

(** ** The frequency table and the worker *)

Definition STATISTIC_KEYS : list string :=
  [ "DateTimeOriginal"; "Model"; "LensModel"; "FNumber"; "ExposureTime";
    "ISOSpeedRatings"; "FocalLength" ].

(** [shared_dict], and the [dict_v] that [get_statistic_dict] returns: one
    dictionary per field, from the value to the number of times it was
    seen. *)
Abbreviation table := (dict (dict nat)).

(** [shared_dict[k][v]], when both keys are present. *)
Definition lookup2 (k v : string) (t : table) : option nat :=
  match PyDict.get k t with
  | Some d => PyDict.get v d
  | None => None
  end.

(** The count of a key, 0 when it is absent. *)
Definition count (k v : string) (t : table) : nat :=
  default 0 (lookup2 k v t).

(** The sum of the counts of a field. *)
Definition total (k : string) (t : table) : nat :=
  match PyDict.get k t with
  | Some d => sum_list (PyDict.values d)
  | None => 0
  end.

(** The table as [get_statistic_dict] sets it up: an empty dictionary for
    every key of [STATISTIC_KEYS]. *)
Definition init_table : table :=
  foldl (fun shared_dict k => PyDict.setitem k PyDict.empty shared_dict)
        PyDict.empty STATISTIC_KEYS.

(** The block of [make_statistic] under [with lock]:
    [shared_dict[key][value]] becomes 1 when [value] is new for the field
    and grows by one otherwise. *)
Definition increment (key value : string) (shared_dict : table) : result table :=
  let* d := getitem key shared_dict in
  if negb (PyDict.contains value d) then
    Ok (PyDict.setitem key (PyDict.setitem value 1 d) shared_dict)
  else
    let* n := getitem value d in
    Ok (PyDict.setitem key (PyDict.setitem value (n + 1) d) shared_dict).

(** What the metadata library makes of a file.  The values of the tags are
    kept as their [str()], the only way the script looks at them. *)
Inductive image : Type :=
| Unreadable (e : exn)
  (** [Image.open(in_path)] or [img._getexif()] raises [e] *)
| NoExif
  (** [img._getexif()] is [None] *)
| Exif (exif : list (Z * string)).
  (** [img._getexif().items()]: tag number and [str(value)] *)

(** What is left to do of one call of [make_statistic]: the blocks it runs
    under the lock, in order, and how it ends.  The values a call counts
    depend on its file alone, never on the shared table, so a call is this
    finite sequence. *)
Inductive worker : Type :=
| Return
| Raised (e : exn)
| Locked (key value : string) (rest : worker).

Section Program.

Context `{PyLib}.

(** The first loop of [make_statistic]: [exif_result[TAGS.get(tag, tag)] =
    str(value)].  A key of [exif_result] is a name, or the tag number
    itself when [TAGS] has no name for it. *)
Definition exif_result_of (exif : list (Z * string)) : gmap (string + Z) string :=
  foldl (fun exif_result '(tag, value) =>
           let key := match TAGS tag with
                      | Some name => inl name
                      | None => inr tag
                      end in
           <[key := value]> exif_result)
        ∅ exif.

(** The value [make_statistic] counts for [key].  [split] returns at least
    one string (lemma [split_first]), so that [[0]] never fails and the
    first branch below is never taken. *)
Definition field_value (key raw : string) : string :=
  if String.eqb key "DateTimeOriginal" then
    match PyStr.split " " raw with
    | [] => raw
    | date :: _ => PyStr.replace ":" "-" 2 date
    end
  else
    PyStr.strip (String PyStr.NUL EmptyString) raw.

(** The second loop of [make_statistic], over [STATISTIC_KEYS]: a missing
    key ends the call, a present one is counted at once. *)
Fixpoint statistic_loop (exif_result : gmap (string + Z) string)
    (keys : list string) : worker :=
  match keys with
  | [] => Return
  | key :: keys' =>
      match exif_result !! inl key with
      | None => Return
      | Some raw =>
          Locked key (field_value key raw) (statistic_loop exif_result keys')
      end
  end.

Definition make_statistic (img : image) : worker :=
  match img with
  | Unreadable e => Raised e
  | NoExif => Return
  | Exif exif => statistic_loop (exif_result_of exif) STATISTIC_KEYS
  end.

(** *** The pool of workers

    The calls of [make_statistic] run in parallel processes.  The lock
    makes each block of a call atomic, so a run of the pool is an
    interleaving of the blocks of its calls: a state holds the shared table
    and what is left of every call, and a step runs the next block of one
    of them. *)

Record state : Type := State { shared_dict : table; pool : list worker }.

Inductive step : state -> state -> Prop :=
| step_count i key value rest t t' ws :
    ws !! i = Some (Locked key value rest) ->
    increment key value t = Ok t' ->
    step (State t ws) (State t' (<[i := rest]> ws))
| step_raise i key value rest t e ws :
    ws !! i = Some (Locked key value rest) ->
    increment key value t = Raise e ->
    step (State t ws) (State t (<[i := Raised e]> ws)).

(** The state a run of [files] starts from. *)
Definition start (files : list image) : state :=
  State init_table (map make_statistic files).

(** The step of the call numbered [i], when it has a block left. *)
Definition step_worker (i : nat) (s : state) : state :=
  match pool s !! i with
  | Some (Locked key value rest) =>
      match increment key value (shared_dict s) with
      | Ok t' => State t' (<[i := rest]> (pool s))
      | Raise e => State (shared_dict s) (<[i := Raised e]> (pool s))
      end
  | _ => s
  end.

(** A schedule names the call that runs next, step after step. *)
Definition run (sched : list nat) (s : state) : state :=
  foldl (fun s i => step_worker i s) s sched.

(** One call run to its end. *)
Fixpoint finish (w : worker) (t : table) : worker * table :=
  match w with
  | Locked key value rest =>
      match increment key value t with
      | Ok t' => finish rest t'
      | Raise e => (Raised e, t)
      end
  | _ => (w, t)
  end.

(** [pool.close(); pool.join()]: every call still running is run to its
    end. *)
Fixpoint join (ws : list worker) (t : table) : list worker * table :=
  match ws with
  | [] => ([], t)
  | w :: ws' =>
      let (w', t') := finish w t in
      let (ws'', t'') := join ws' t' in
      (w' :: ws'', t'')
  end.

(** *** get_statistic_dict *)

(** What [task.get(10)] does for a task, as far as the task itself does not
    decide it. *)
Inductive wait : Type :=
| Ready
  (** the call ends within the time limit: [get] returns, or raises what
      the call raised *)
| TimedOut
  (** [multiprocessing.TimeoutError] *)
| Interrupted.
  (** [KeyboardInterrupt] arrives during the wait *)

(** A file of the listing, once filtered by extension and directory. *)
Record file : Type := File { content : image; waited : wait }.

(** What the script writes to standard output. *)
Inductive event : Type :=
| TLE
  (** [print("TLE")] *)
| Header (k : string)
  (** [print(f"\n[{k}]")] *)
| Figure (labels : list string) (values : list nat).
  (** [fig.barh(plot_values, plot_labels, force_ascii=True); fig.show()] *)

Inductive outcome : Type :=
| Returns (dict_v : table)
| Returns1
| Raises (e : exn).

(** The loop [for task in tasks], given for each task its wait and how its
    call ended; [done] is what follows the loop. *)
Fixpoint wait_tasks (tasks : list (wait * worker)) (done : outcome)
    : list event * outcome :=
  match tasks with
  | [] => ([], done)
  | (Interrupted, _) :: _ => ([], Returns1)
  | (TimedOut, _) :: tasks' =>
      let (out, r) := wait_tasks tasks' done in (TLE :: out, r)
  | (Ready, Raised e) :: _ => ([], Raises e)
  | (Ready, _) :: tasks' => wait_tasks tasks' done
  end.

(** [get_statistic_dict], from the list of files on (the listing of the
    directory and its filters are left to the caller): [sched] is the order
    in which the operating system lets the calls take the lock before the
    pool is joined.  Every call is taken to end, a call that timed out too:
    it is not cancelled, and [pool.join()] waits for it.  The table only
    matters when the loop over the tasks ends normally, so the model lets
    the pool finish first and runs the loop after. *)
Definition get_statistic_dict (sched : list nat) (files : list file)
    : list event * outcome :=
  let s := run sched (start (map content files)) in
  let (ws, t) := join (pool s) (shared_dict s) in
  wait_tasks (zip (map waited files) ws) (Returns t).

(** *** plot_statistic_dict *)

(** The values [sort_lambda] returns: a string, a [Fraction], a float, an
    int or a date, according to the field. *)
Inductive sort_key : Type :=
| K_str (s : string)
| K_Fraction (q : Q)
| K_float (x : float)
| K_int (n : Z)
| K_date (d : date).

(** [sort_lambda], chosen by the field [k]; [None] when the conversion
    raises. *)
Definition sort_lambda (k : string) (item : string * nat) : option sort_key :=
  if String.eqb k "ExposureTime" then K_Fraction <$> Fraction (fst item)
  else if String.eqb k "FNumber" || String.eqb k "FocalLength" then
    K_float <$> float_of_str (fst item)
  else if String.eqb k "ISOSpeedRatings" then K_int <$> int_of_str (fst item)
  else if String.eqb k "DateTimeOriginal" then
    K_date <$> date_fromisoformat (fst item)
  else Some (K_str (fst item)).

(** Python's [<] on two keys of the same kind. *)
Definition key_lt (a b : sort_key) : bool :=
  match a, b with
  | K_str s1, K_str s2 => PyStr.lt s1 s2
  | K_Fraction q1, K_Fraction q2 => negb (Qle_bool q2 q1)
  | K_float x1, K_float x2 => float_lt x1 x2
  | K_int n1, K_int n2 => (n1 <? n2)%Z
  | K_date d1, K_date d2 => date_lt d1 d2
  | _, _ => false
  end.

(** [sorted] calls the key function on every item before it compares any
    two of them; the first conversion that raises ends the call. *)
Fixpoint decorate (k : string) (items : list (string * nat))
    : result (list (sort_key * (string * nat))) :=
  match items with
  | [] => Ok []
  | item :: items' =>
      match sort_lambda k item with
      | None => Raise (ConversionError k (fst item))
      | Some key =>
          let* rest := decorate k items' in
          Ok ((key, item) :: rest)
      end
  end.

(** [sorted] is stable and compares with [<] alone.  On keys that [<]
    orders, every stable sort returns the same list; this one inserts
    each item before the first item that is not smaller.  With a NaN among
    the keys [<] is no order and the result depends on the algorithm:
    CPython's first looks for a run, a stretch where no key is smaller
    than the key before it, and leaves a list that is one run as it is,
    and so does this one (lemma [stable_sort_run]). *)
Fixpoint insert_sorted {A} (lt : A -> A -> bool) (x : A) (l : list A) : list A :=
  match l with
  | [] => [x]
  | y :: l' => if lt y x then y :: insert_sorted lt x l' else x :: y :: l'
  end.

Definition stable_sort {A} (lt : A -> A -> bool) (l : list A) : list A :=
  foldr (insert_sorted lt) [] l.

(** [sorted(statistic_result[k].items(), key=sort_lambda)] *)
Definition sorted (k : string) (items : list (string * nat))
    : result (list (string * nat)) :=
  let* decorated := decorate k items in
  Ok (map snd (stable_sort (fun a b => key_lt (fst a) (fst b)) decorated)).

(** [f"{Fraction(v).limit_denominator()}"] *)
Definition exposure_label (v : string) : result string :=
  match Fraction v with
  | Some q => Ok (str_Fraction (limit_denominator q))
  | None => Raise (ConversionError "ExposureTime" v)
  end.

Fixpoint exposure_labels (keys : list string) : result (list string) :=
  match keys with
  | [] => Ok []
  | v :: keys' =>
      let* l := exposure_label v in
      let* ls := exposure_labels keys' in
      Ok (l :: ls)
  end.

(** One turn of the loop of [plot_statistic_dict]: what it prints for the
    field [k], and the exception that ends it, if any. *)
Definition plot_field (statistic_result : table) (k : string)
    : list event * option exn :=
  match getitem k statistic_result with
  | Raise e => ([], Some e)
  | Ok d =>
      match sorted k (PyDict.items d) with
      | Raise e => ([], Some e)
      | Ok [] => ([], Some UnpackError)
      | Ok rows =>
          let keys := map fst rows in
          let values := map snd rows in
          if String.eqb k "ExposureTime" then
            match exposure_labels keys with
            | Raise e => ([Header k], Some e)
            | Ok plot_labels => ([Header k; Figure plot_labels values], None)
            end
          else ([Header k; Figure keys values], None)
      end
  end.

Fixpoint plot_loop (statistic_result : table) (ks : list string)
    : list event * option exn :=
  match ks with
  | [] => ([], None)
  | k :: ks' =>
      match plot_field statistic_result k with
      | (out, Some e) => (out, Some e)
      | (out, None) =>
          let (out', r) := plot_loop statistic_result ks' in
          (out ++ out', r)
      end
  end.

Definition plot_statistic_dict (statistic_result : table)
    : list event * option exn :=
  plot_loop statistic_result (PyDict.keys statistic_result).

(** *** cli

    From the call of [get_statistic_dict] on: the output, and the exception
    the script dies of, if any. *)
Definition cli (sched : list nat) (files : list file)
    : list event * option exn :=
  let (out, r) := get_statistic_dict sched files in
  match r with
  | Raises e => (out, Some e)
  | Returns1 => (out, Some TypeError)
  | Returns statistic_result =>
      match getitem "DateTimeOriginal" statistic_result with
      | Raise e => (out, Some e)
      | Ok d =>
          if (0 <? PyDict.len d)%nat then
            let (out', r') := plot_statistic_dict statistic_result in
            (out ++ out', r')
          else (out, None)
      end
  end.

End Program.

(** ** Notions the properties are stated with *)

(** The value [increment] writes: 1 for a new key, one more otherwise. *)
Definition bumped (value : string) (d : dict nat) : nat :=
  match PyDict.get value d with
  | Some n => n + 1
  | None => 1
  end.

(** The blocks a call has left, as the pairs of field and value they
    count. *)
Fixpoint blocks (w : worker) : list (string * string) :=
  match w with
  | Locked key value rest => (key, value) :: blocks rest
  | _ => []
  end.

(** The blocks the calls of a pool have left. *)
Definition pending (ws : list worker) : list (string * string) :=
  concat (map blocks ws).

(** How many of the blocks [bs] count the value [v] of the field [k], and
    how many count the field [k] at all. *)
Definition issued (k v : string) (bs : list (string * string)) : nat :=
  length (filter (fun b => b = (k, v)) bs).

Definition issued_field (k : string) (bs : list (string * string)) : nat :=
  length (filter (fun b => fst b = k) bs).

(** The invariant of a run whose calls issue the blocks [all] in total:
    the table has the fields of [STATISTIC_KEYS], no count is zero, and
    what is counted and what is pending add up to [all]. *)
Record invariant (all : list (string * string)) (s : state) : Prop := {
  inv_keys : PyDict.keys (shared_dict s) = STATISTIC_KEYS;
  inv_fields : Forall (fun b => fst b ∈ STATISTIC_KEYS) (pending (pool s));
  inv_positive : forall k v n, lookup2 k v (shared_dict s) = Some n -> 1 <= n;
  inv_count : forall k v,
    count k v (shared_dict s) + issued k v (pending (pool s))
    = issued k v all;
  inv_total : forall k,
    total k (shared_dict s) + issued_field k (pending (pool s))
    = issued_field k all
}.

(** How a call ends when none of its blocks raises. *)
Fixpoint ends (w : worker) : option exn :=
  match w with
  | Return => None
  | Raised e => Some e
  | Locked _ _ rest => ends rest
  end.

(** The keys of [keys] up to and including [k], when [k] is among them. *)
Fixpoint upto (k : string) (keys : list string) : option (list string) :=
  match keys with
  | [] => None
  | k' :: keys' =>
      if String.eqb k k' then Some [k'] else cons k' <$> upto k keys'
  end.

(** A call raises only what opening the file raises. *)
Definition raised_by (img : image) : option exn :=
  match img with
  | Unreadable e => Some e
  | _ => None
  end.

(** A list of blocks run one after the other. *)
Fixpoint increments (bs : list (string * string)) (t : table) : result table :=
  match bs with
  | [] => Ok t
  | (key, value) :: bs' =>
      let* t' := increment key value t in
      increments bs' t'
  end.

(** The loop over the tasks, read off the files: a call ends the way its
    file decides. *)
Fixpoint wait_files (files : list file) (done : outcome)
    : list event * outcome :=
  match files with
  | [] => ([], done)
  | f :: files' =>
      match waited f, raised_by (content f) with
      | Interrupted, _ => ([], Returns1)
      | TimedOut, _ =>
          let (out, r) := wait_files files' done in (TLE :: out, r)
      | Ready, Some e => ([], Raises e)
      | Ready, None => wait_files files' done
      end
  end.

(** The tasks waited for before the one that fails: none is interrupted,
    and those that end in time end without an exception. *)
Definition passes (f : file) : Prop :=
  waited f <> Interrupted
  /\ (waited f = Ready -> raised_by (content f) = None).

(** Every character of [s] is one of [chars]. *)
Fixpoint only (chars : string) (s : string) : bool :=
  match s with
  | EmptyString => true
  | String c s' => PyStr.char_in c chars && only chars s'
  end.

(** [s] starts, or ends, with one of [chars]. *)
Definition starts_in (chars : string) (s : string) : bool :=
  match s with
  | EmptyString => false
  | String c _ => PyStr.char_in c chars
  end.

Fixpoint ends_in (chars : string) (s : string) : bool :=
  match s with
  | EmptyString => false
  | String c EmptyString => PyStr.char_in c chars
  | String _ s' => ends_in chars s'
  end.

(** The characters [strip] is called with: NUL alone. *)
Definition NULs : string := String PyStr.NUL EmptyString.

(** The block a field leaves on the output: its header and its figure. *)
Definition chart (k : string) (fig : list string * list nat) : list event :=
  [Header k; Figure (fst fig) (snd fig)].

Fixpoint charts (ks : list string) (figs : list (list string * list nat))
    : list event :=
  match ks, figs with
  | k :: ks', fig :: figs' => chart k fig ++ charts ks' figs'
  | _, _ => []
  end.

Section Notions.

Context `{PyLib}.

(** The metadata block [exif] carries the field [k]. *)
Definition carries (exif : list (Z * string)) (k : string) : bool :=
  bool_decide (is_Some (exif_result_of exif !! inl k)).

(** A file is processed for the field [k] when it has a metadata block
    that carries [k] and every tracked field listed before [k]. *)
Definition processed_for (k : string) (img : image) : bool :=
  match img, upto k STATISTIC_KEYS with
  | Exif exif, Some ks => forallb (carries exif) ks
  | _, _ => false
  end.

(** The kind of a key: one kind per constructor. *)
Definition kind (key : sort_key) : nat :=
  match key with
  | K_str _ => 0
  | K_Fraction _ => 1
  | K_float _ => 2
  | K_int _ => 3
  | K_date _ => 4
  end.

(** A pair of [decorate]: an item of the field [k] with its key. *)
Definition keyed (k : string) (p : sort_key * (string * nat)) : Prop :=
  sort_lambda k (snd p) = Some (fst p).

(** A key that [<] orders: any key but a NaN. *)
Definition ordered_key (key : sort_key) : Prop :=
  match key with
  | K_float x => is_nan x = false
  | _ => True
  end.

(** An item whose key is no NaN, and a value that does not read as one. *)
Definition no_nan_key (k : string) (item : string * nat) : Prop :=
  forall key, sort_lambda k item = Some key -> ordered_key key.

Definition no_nan (v : string) : Prop :=
  forall x, float_of_str v = Some x -> is_nan x = false.

(** The rows [sorted] returns are the items in another order, and no row
    has a key smaller than the key of a row before it. *)
Definition in_order (k : string) (a b : string * nat) : Prop :=
  exists ka kb,
    sort_lambda k a = Some ka /\ sort_lambda k b = Some kb
    /\ key_lt kb ka = false.

(** The label of an exposure time: the fraction the value names, brought
    to a denominator of at most 1000000, in lowest terms. *)
Definition labelled (v label : string) : Prop :=
  exists q,
    Fraction v = Some q
    /\ label = str_Fraction (limit_denominator q)
    /\ Qred (limit_denominator q) = limit_denominator q
    /\ (Qden (limit_denominator q) <= 1000000)%positive
    /\ ((Qden (Qred q) <= 1000000)%positive -> limit_denominator q = Qred q).

(** The orders the rows of a figure are in, by field. *)
Definition by_date (a b : string * nat) : Prop :=
  exists da db,
    date_fromisoformat (fst a) = Some da
    /\ date_fromisoformat (fst b) = Some db /\ date_le da db.

Definition by_float (a b : string * nat) : Prop :=
  exists xa xb,
    float_of_str (fst a) = Some xa /\ float_of_str (fst b) = Some xb
    /\ is_nan xa = false /\ is_nan xb = false /\ float_lt xb xa = false.

Definition by_int (a b : string * nat) : Prop :=
  exists na nb,
    int_of_str (fst a) = Some na
    /\ int_of_str (fst b) = Some nb /\ (na <= nb)%Z.

Definition by_Fraction (a b : string * nat) : Prop :=
  exists qa qb,
    Fraction (fst a) = Some qa
    /\ Fraction (fst b) = Some qb /\ (qa <= qb)%Q.

Definition by_str (a b : string * nat) : Prop :=
  String.leb (fst a) (fst b) = true.

(** A field that can be plotted: it has entries, and the value of every
    entry converts. *)
Definition plottable (t : table) (k : string) : Prop :=
  exists d : dict nat,
    PyDict.get k t = Some d
    /\ d <> []
    /\ Forall (fun item => is_Some (sort_lambda k item)) d.

(** A field with a value that does not convert. *)
Definition unconvertible (t : table) (k : string) : Prop :=
  exists (d : dict nat) item,
    PyDict.get k t = Some d /\ item ∈ d /\ sort_lambda k item = None.

(** The figure [plot_statistic_dict] draws for the field [k] of [t]: its
    rows are what [sorted] makes of the entries of the field, its bars are
    their counts, and its labels are their values, rewritten for the
    exposure times. *)
Definition figure_of (t : table) (k : string)
    (fig : list string * list nat) (rows : list (string * nat)) : Prop :=
  exists d : dict nat,
    PyDict.get k t = Some d
    /\ sorted k (PyDict.items d) = Ok rows
    /\ rows ≡ₚ PyDict.items d
    /\ snd fig = map snd rows
    /\ (k <> "ExposureTime" -> fst fig = map fst rows)
    /\ (k = "ExposureTime" -> Forall2 labelled (map fst rows) (fst fig)).

(** A file is complete when its metadata carries every tracked field. *)
Definition complete (img : image) : bool :=
  match img with
  | Exif exif => forallb (carries exif) STATISTIC_KEYS
  | _ => false
  end.

End Notions.

(** ** A reference implementation of the library interface

    The theorems below hold for every implementation of [PyLib].  To run
    the program on concrete files the interface is implemented here for the
    plain forms the fields take in practice: decimal integers, [n/d]
    fractions, decimals with a point, and [YYYY-MM-DD] dates.  A float is
    a number, read exactly as a rational, or the NaN that [str] writes
    [nan]. *)

Module Plain.

(** Names of the tags the script looks for, with their numbers in the EXIF
    standard, and of two tags it ignores. *)
Definition TAGS (tag : Z) : option string :=
  if (tag =? 36867)%Z then Some "DateTimeOriginal"
  else if (tag =? 272)%Z then Some "Model"
  else if (tag =? 42036)%Z then Some "LensModel"
  else if (tag =? 33437)%Z then Some "FNumber"
  else if (tag =? 33434)%Z then Some "ExposureTime"
  else if (tag =? 34855)%Z then Some "ISOSpeedRatings"
  else if (tag =? 37386)%Z then Some "FocalLength"
  else if (tag =? 271)%Z then Some "Make"
  else if (tag =? 274)%Z then Some "Orientation"
  else None.

Definition digit (c : ascii) : option Z :=
  let n := Z.of_N (N_of_ascii c) in
  if ((48 <=? n) && (n <=? 57))%Z then Some (n - 48)%Z else None.

Fixpoint digits_from (acc : Z) (s : string) : option Z :=
  match s with
  | EmptyString => Some acc
  | String c s' =>
      match digit c with
      | Some d => digits_from (10 * acc + d)%Z s'
      | None => None
      end
  end.

(** A non-empty run of decimal digits. *)
Definition digits (s : string) : option Z :=
  match s with
  | EmptyString => None
  | _ => digits_from 0 s
  end.

(** An optional sign in front of [body]. *)
Definition signed {A} (neg : A -> A) (body : string -> option A)
    (s : string) : option A :=
  match s with
  | String "-" s' => neg <$> body s'
  | String "+" s' => body s'
  | _ => body s
  end.

Definition int_of_str : string -> option Z := signed Z.opp digits.

(** [digits.digits], or digits alone. *)
Definition decimal (s : string) : option Q :=
  match PyStr.split "." s with
  | [i] => inject_Z <$> digits i
  | [i; f] =>
      match digits i, digits f with
      | Some n, Some m =>
          Some (Qmake (n * 10 ^ Z.of_nat (String.length f) + m)
                      (Z.to_pos (10 ^ Z.of_nat (String.length f))))
      | _, _ => None
      end
  | _ => None
  end.

(** A decimal with an optional sign. *)
Definition finite : string -> option Q := signed Qopp decimal.

Inductive float : Type :=
| NaN
| Finite (q : Q).

(** [nan], as [str] writes the NaN that Pillow makes of a rational [0/0],
    or a decimal. *)
Definition float_of_str (s : string) : option float :=
  if String.eqb s "nan" then Some NaN else Finite <$> finite s.

Definition is_nan (x : float) : bool :=
  match x with
  | NaN => true
  | Finite _ => false
  end.

(** A comparison with NaN is false. *)
Definition float_lt (x y : float) : bool :=
  match x, y with
  | Finite p, Finite q => negb (Qle_bool q p)
  | _, _ => false
  end.

(** [numerator/denominator] with a denominator other than zero, or a
    decimal. *)
Definition Fraction (s : string) : option Q :=
  match PyStr.split "/" s with
  | [n; d] =>
      match int_of_str n, digits d with
      | Some n, Some d => if (d =? 0)%Z then None else Some (Qmake n (Z.to_pos d))
      | _, _ => None
      end
  | _ => finite s
  end.

Definition leap (y : Z) : bool :=
  ((y mod 4 =? 0) && (negb (y mod 100 =? 0) || (y mod 400 =? 0)))%Z.

Definition days_in_month (y m : Z) : Z :=
  if (m =? 2)%Z then (if leap y then 29 else 28)%Z
  else if ((m =? 4) || (m =? 6) || (m =? 9) || (m =? 11))%Z then 30%Z
  else 31%Z.

(** [YYYY-MM-DD] naming a day of the calendar. *)
Definition date_fromisoformat (s : string) : option date :=
  match PyStr.split "-" s with
  | [y; m; d] =>
      if ((String.length y =? 4) && (String.length m =? 2)
          && (String.length d =? 2))%nat then
        match digits y, digits m, digits d with
        | Some y, Some m, Some d =>
            if ((1 <=? y) && (1 <=? m) && (m <=? 12) && (1 <=? d)
                && (d <=? days_in_month y m))%Z
            then Some (Date y m d) else None
        | _, _, _ => None
        end
      else None
  | _ => None
  end.

(** [Fraction.limit_denominator] of the standard library: the closest
    fraction with a denominator of at most [max_denominator], found among
    the convergents of the continued fraction. *)
Definition max_denominator : Z := 1000000.

(** The loop [while True], cut after [fuel] turns. *)
Fixpoint convergents (fuel : nat) (p0 q0 p1 q1 n d : Z) : Z * Z * Z * Z :=
  match fuel with
  | O => (p0, q0, p1, q1)
  | S fuel' =>
      let a := (n / d)%Z in
      let q2 := (q0 + a * q1)%Z in
      if (max_denominator <? q2)%Z then (p0, q0, p1, q1)
      else convergents fuel' p1 q1 (p0 + a * p1)%Z q2 d (n - a * d)%Z
  end.

Definition limit_denominator (q : Q) : Q :=
  let r := Qred q in
  if (Qden r <=? 1000000)%positive then r
  else
    let '(p0, q0, p1, q1) :=
      convergents (2 * Pos.size_nat (Qden r) + 2)
                  0 1 1 0 (Qnum r) (Zpos (Qden r)) in
    let k := ((max_denominator - q0) / q1)%Z in
    let bound1 := Qred (Qmake (p0 + k * p1) (Z.to_pos (q0 + k * q1))) in
    let bound2 := Qred (Qmake p1 (Z.to_pos q1)) in
    if Qle_bool (Qabs (bound2 - r)) (Qabs (bound1 - r)) then bound2
    else bound1.

End Plain.

(** ** Files and tables to run the program on *)

Module Sample.

(** A photograph with the seven fields, taken on the first of May 2023. *)
Definition complete (exposure iso : string) : image :=
  Exif [ (271%Z, "FUJIFILM");
         (272%Z, "X100V");
         (36867%Z, "2023:05:01 12:30:00");
         (42036%Z, "23mm F2");
         (33437%Z, "2.8");
         (33434%Z, exposure);
         (34855%Z, iso);
         (37386%Z, "23.0") ].

(** A photograph with a date and a camera model, and no lens model. *)
Definition no_lens : image :=
  Exif [ (36867%Z, "2023:05:01 12:30:00"); (272%Z, "X100V") ].

(** A file that is not an image. *)
Definition broken : image := Unreadable (OpenError "UnidentifiedImageError").

(** Two files, and a schedule that lets their calls take turns. *)
Definition two_files : list image := [complete "1/200" "100"; no_lens].
Definition turns : list nat := [1; 0; 0; 1].

(** Three blocks, and the same blocks in another order. *)
Definition three_blocks : list (string * string) :=
  [("Model", "X100V"); ("FNumber", "2.8"); ("Model", "X100V")].
Definition three_blocks' : list (string * string) :=
  [("FNumber", "2.8"); ("Model", "X100V"); ("Model", "X100V")].

End Sample.

Module SampleTable.

(** The sensitivities of four photographs. *)
Definition iso : table :=
  [("ISOSpeedRatings", [("200", 1); ("100", 2); ("1600", 1)])].

(** The exposure times of three photographs. *)
Definition exposure : table :=
  [("ExposureTime", [("1/200", 1); ("1/60", 1); ("1/1000", 1)])].

(** A photograph whose sensitivity is a pair of numbers, and the table of
    a run on it. *)
Definition two_isos : image := Sample.complete "1/200" "(100, 100)".

Definition two_isos_table : table :=
  [ ("DateTimeOriginal", [("2023-05-01", 1)]);
    ("Model", [("X100V", 1)]);
    ("LensModel", [("23mm F2", 1)]);
    ("FNumber", [("2.8", 1)]);
    ("ExposureTime", [("1/200", 1)]);
    ("ISOSpeedRatings", [("(100, 100)", 1)]);
    ("FocalLength", [("23.0", 1)]) ].

(** The table of a run on a photograph with the seven fields. *)
Definition complete_table : table :=
  [ ("DateTimeOriginal", [("2023-05-01", 1)]);
    ("Model", [("X100V", 1)]);
    ("LensModel", [("23mm F2", 1)]);
    ("FNumber", [("2.8", 1)]);
    ("ExposureTime", [("1/200", 1)]);
    ("ISOSpeedRatings", [("100", 1)]);
    ("FocalLength", [("23.0", 1)]) ].

End SampleTable.

(** ** The listing of the directory

    The first lines of [get_statistic_dict] list the directory and keep
    the files with an allowed extension whose parent directory contains
    [dir_filter].  The script looks at the [suffix] and the [parent] of a
    path and hands the path to [make_statistic]; a path of the listing is
    these three.  [str.lower] follows the Unicode tables, so it is a
    parameter of the listing. *)

(** [s.startswith(prefix)] *)
Fixpoint startswith (prefix s : string) : bool :=
  match prefix, s with
  | EmptyString, _ => true
  | String _ _, EmptyString => false
  | String c prefix', String d s' => Ascii.eqb c d && startswith prefix' s'
  end.

(** [sub in s] for two strings: [sub] starts at some position of [s]. *)
Fixpoint contains_str (sub s : string) : bool :=
  match s with
  | EmptyString => startswith sub EmptyString
  | String _ s' => startswith sub s || contains_str sub s'
  end.

(** A path of the listing: [str(file.suffix)], [str(file.parent)], and what
    [make_statistic] and [task.get] make of [file.absolute()]. *)
Record entry : Type := Entry { suffix : string; parent : string; task : file }.

(** A directory: what [Path(in_dir).glob("*")] and
    [Path(in_dir).rglob("*")] list. *)
Record directory : Type := Directory { glob : list entry; rglob : list entry }.

(** The defaults of [get_args]. *)
Definition default_img_exts : string := "jpg,jpeg,png,tiff".
Definition default_dir_filter : string := "".

(** The progress bar [pbar]: its total and its counter. *)
Record tqdm : Type := Tqdm { pbar_total : nat; pbar_n : nat }.

(** [pbar_update]: [pbar.update(1)]. *)
Definition pbar_update (pbar : tqdm) : tqdm :=
  Tqdm (pbar_total pbar) (pbar_n pbar + 1).

Section Listing.

(** [str.lower] *)
Variable lower : string -> string.

(** [allowed_exts = ["." + str(i).lower() for i in img_exts.split(",")]] *)
Definition allowed_exts (img_exts : string) : list string :=
  map (fun i => String "." (lower i)) (PyStr.split "," img_exts).

(** The list [files] that [get_statistic_dict] hands to the pool. *)
Definition list_files (in_dir : directory) (recursive : bool)
    (img_exts dir_filter : string) : list entry :=
  let files := if recursive then rglob in_dir else glob in_dir in
  let allowed_exts := allowed_exts img_exts in
  let files :=
    List.filter
      (fun file => existsb (String.eqb (lower (suffix file))) allowed_exts)
      files in
  List.filter (fun file => contains_str dir_filter (parent file)) files.

Context `{PyLib}.

(** [get_statistic_dict(in_dir, recursive, img_exts, dir_filter)], whole. *)
Definition get_statistic_dict_in_dir (sched : list nat) (in_dir : directory)
    (recursive : bool) (img_exts dir_filter : string)
    : list event * outcome :=
  get_statistic_dict sched
    (map task (list_files in_dir recursive img_exts dir_filter)).

End Listing.

(** The pool calls the callback of a task, [pbar_update], when its call
    has returned; a call that raised has no callback. *)
Definition callbacks (ws : list worker) (pbar : tqdm) : tqdm :=
  foldl (fun pbar w => match w with Return => pbar_update pbar | _ => pbar end)
        pbar ws.

Section Progress.

Context `{PyLib}.

(** The progress bar at [pbar.close()]: [tqdm(total=len(files))],
    advanced by the callbacks of the joined pool.  The line is reached
    when the loop over the tasks ends without an exception and without an
    interrupt; otherwise the pool is terminated or left running, the bar
    is never closed, and there is [None]. *)
Definition progress (sched : list nat) (files : list file) : option tqdm :=
  let s := run sched (start (map content files)) in
  let (ws, t) := join (pool s) (shared_dict s) in
  match snd (wait_tasks (zip (map waited files) ws) (Returns t)) with
  | Returns _ => Some (callbacks ws (Tqdm (length files) 0))
  | _ => None
  end.

End Progress.

(** [str.lower] on ASCII text: the letters [A] to [Z] become [a] to [z]. *)
Module PlainText.

Definition lower_char (c : ascii) : ascii :=
  let n := N_of_ascii c in
  if ((65 <=? n) && (n <=? 90))%N then ascii_of_N (n + 32) else c.

Fixpoint lower (s : string) : string :=
  match s with
  | EmptyString => EmptyString
  | String c s' => String (lower_char c) (lower s')
  end.

(** A directory with four files, one of them in a subdirectory. *)
Definition photos : directory :=
  let a := Entry ".JPG" "/photos" (File (Sample.complete "1/200" "100") Ready) in
  let b := Entry ".txt" "/photos" (File Sample.broken Ready) in
  let c := Entry "" "/photos" (File Sample.broken Ready) in
  let d := Entry ".png" "/photos/2023" (File Sample.no_lens Ready) in
  Directory [a; b; c] [a; b; c; d].

End PlainText.

(** Photographs with the seven fields that differ in one of them, and
    the tables of the runs that take their calls one after the other. *)
Module SampleFigures.

(** Three exposure times. *)
Definition exposures : list file :=
  [ File (Sample.complete "1/200" "100") Ready;
    File (Sample.complete "1/60" "100") Ready;
    File (Sample.complete "1/1000" "100") Ready ].

Definition exposures_table : table :=
  [ ("DateTimeOriginal", [("2023-05-01", 3)]);
    ("Model", [("X100V", 3)]);
    ("LensModel", [("23mm F2", 3)]);
    ("FNumber", [("2.8", 3)]);
    ("ExposureTime", [("1/200", 1); ("1/60", 1); ("1/1000", 1)]);
    ("ISOSpeedRatings", [("100", 3)]);
    ("FocalLength", [("23.0", 3)]) ].

(** A photograph with the aperture [fnumber]. *)
Definition photo (fnumber : string) : image :=
  Exif [ (271%Z, "FUJIFILM");
         (272%Z, "X100V");
         (36867%Z, "2023:05:01 12:30:00");
         (42036%Z, "23mm F2");
         (33437%Z, fnumber);
         (33434%Z, "1/200");
         (34855%Z, "100");
         (37386%Z, "23.0") ].

(** Three apertures; the second is the rational [0/0] of a lens that
    reports none, which Pillow reads as a NaN and [str] writes [nan]. *)
Definition apertures : list file :=
  [ File (photo "35.0") Ready; File (photo "nan") Ready;
    File (photo "24.0") Ready ].

Definition apertures_table : table :=
  [ ("DateTimeOriginal", [("2023-05-01", 3)]);
    ("Model", [("X100V", 3)]);
    ("LensModel", [("23mm F2", 3)]);
    ("FNumber", [("35.0", 1); ("nan", 1); ("24.0", 1)]);
    ("ExposureTime", [("1/200", 3)]);
    ("ISOSpeedRatings", [("100", 3)]);
    ("FocalLength", [("23.0", 3)]) ].

End SampleFigures.

(** Two photographs without lens model, the second of another camera,
    and the tables of two runs on them: one call after the other, and the
    call of the second file first. *)
Module SampleRun.

Definition other : image :=
  Exif [ (36867%Z, "2022:11:20 08:00:00"); (272%Z, "GR III") ].

Definition files : list file :=
  [File Sample.no_lens Ready; File other TimedOut].

Definition in_order : table :=
  [ ("DateTimeOriginal", [("2023-05-01", 1); ("2022-11-20", 1)]);
    ("Model", [("X100V", 1); ("GR III", 1)]);
    ("LensModel", []);
    ("FNumber", []);
    ("ExposureTime", []);
    ("ISOSpeedRatings", []);
    ("FocalLength", []) ].

Definition in_turns : table :=
  [ ("DateTimeOriginal", [("2022-11-20", 1); ("2023-05-01", 1)]);
    ("Model", [("GR III", 1); ("X100V", 1)]);
    ("LensModel", []);
    ("FNumber", []);
    ("ExposureTime", []);
    ("ISOSpeedRatings", []);
    ("FocalLength", []) ].

End SampleRun.

(** ** Notions of the further properties *)

#[global] Instance wait_eq_dec : EqDecision wait.
Proof. solve_decision. Defined.

#[global] Instance worker_eq_dec : EqDecision worker.
Proof. solve_decision. Defined.

(** The number of tasks that time out. *)
Definition timed_out (files : list file) : nat :=
  length (filter (fun f => waited f = TimedOut) files).

(** The number of files that cannot be opened. *)
Definition unreadable (files : list file) : nat :=
  length (filter (fun f => is_Some (raised_by (content f))) files).

(** Every field of the table is a dictionary: no key occurs twice. *)
Definition well_keyed (t : table) : Prop :=
  forall k (d : dict nat), PyDict.get k t = Some d -> NoDup (PyDict.keys d).

Section Counting.

Context `{PyLib}.

(** The call of [make_statistic] on [img] counts the value [v] for the
    field [k]. *)
Definition counts (k v : string) (img : image) : Prop :=
  (k, v) ∈ blocks (make_statistic img).

#[global] Instance counts_dec k v img : Decision (counts k v img).
Proof. unfold counts. apply _. Defined.

End Counting.

(** * Properties *)

(** ** The reference implementation meets the interface *)

Module PlainFacts.

Lemma float_lt_irrefl x : Plain.float_lt x x = false.
Proof.
  destruct x as [|q]; [reflexivity|].
  apply negb_false_iff, Qle_bool_iff, Qle_refl.
Qed.

Lemma float_lt_spec p q :
  Plain.float_lt (Plain.Finite p) (Plain.Finite q) = true <-> (p < q)%Q.
Proof.
  simpl. rewrite negb_true_iff, <- not_true_iff_false, Qle_bool_iff.
  split; [apply Qnot_le_lt | apply Qlt_not_le].
Qed.

Lemma float_lt_trans x y z :
  Plain.float_lt x y = true -> Plain.float_lt y z = true ->
  Plain.float_lt x z = true.
Proof.
  destruct x as [|p], y as [|q], z as [|r]; try discriminate.
  rewrite !float_lt_spec. apply Qlt_trans.
Qed.

Lemma float_lt_nan x y :
  Plain.is_nan x = true \/ Plain.is_nan y = true -> Plain.float_lt x y = false.
Proof.
  destruct x as [|p], y as [|q]; try reflexivity.
  intros [|]; discriminate.
Qed.

Lemma float_lt_incomparable x y z :
  Plain.is_nan y = false ->
  Plain.float_lt x y = false -> Plain.float_lt y z = false ->
  Plain.float_lt x z = false.
Proof.
  destruct y as [|q]; [discriminate|]. intros _.
  destruct x as [|p], z as [|r]; try reflexivity. simpl.
  rewrite !negb_false_iff, !Qle_bool_iff.
  intros Hyx Hzy. exact (Qle_trans _ _ _ Hzy Hyx).
Qed.

Lemma Qden_Qred_le (n : Z) (d : positive) :
  (Qden (Qred (Qmake n d)) <= d)%positive.
Proof.
  unfold Qred.
  pose proof (Z.ggcd_correct_divisors n (Zpos d)) as Hd.
  pose proof (Z.ggcd_gcd n (Zpos d)) as Hg.
  pose proof (Z.gcd_nonneg n (Zpos d)) as Hnn.
  destruct (Z.ggcd n (Zpos d)) as [g [aa bb]]; simpl in *.
  destruct Hd as [_ Hd]. subst g.
  assert (0 < Z.gcd n (Z.pos d))%Z as Hpos.
  { destruct (Z.eq_dec (Z.gcd n (Z.pos d)) 0%Z) as [E|E]; [|lia].
    rewrite E in Hd. lia. }
  assert (0 < bb)%Z by nia.
  assert (bb <= Z.pos d)%Z by nia.
  lia.
Qed.

Lemma convergents_inv fuel : forall p0 q0 p1 q1 n d p0' q0' p1' q1',
  Plain.convergents fuel p0 q0 p1 q1 n d = (p0', q0', p1', q1') ->
  (0 <= q0 <= Plain.max_denominator -> 0 <= q1 <= Plain.max_denominator ->
   0 <= d -> (0 <= n \/ (q1 = 0 /\ 0 < d)) ->
   0 <= q0' <= Plain.max_denominator /\ 0 <= q1' <= Plain.max_denominator)%Z.
Proof.
  induction fuel as [|fuel IH]; simpl;
    intros p0 q0 p1 q1 n d p0' q0' p1' q1' E H0 H1 Hd Hn.
  - injection E as <- <- <- <-. auto.
  - destruct (Z.ltb_spec Plain.max_denominator (q0 + n / d * q1)) as [Hlt|Hle].
    + injection E as <- <- <- <-. auto.
    + apply IH in E; auto.
      * split; [|exact Hle].
        destruct Hn as [Hn|[-> _]]; [|lia].
        assert (0 <= n / d)%Z.
        { destruct (Z.eq_dec d 0%Z) as [->|]; [rewrite Z.div_0_r; lia|].
          apply Z.div_pos; lia. }
        nia.
      * destruct (Z.eq_dec d 0%Z) as [->|Hd0].
        -- rewrite Z.div_0_r. lia.
        -- rewrite Z.mul_comm, <- Z.mod_eq by lia.
           apply Z.mod_pos_bound. lia.
Qed.

Lemma limit_denominator_bound q :
  (Qden (Plain.limit_denominator q) <= 1000000)%positive.
Proof.
  unfold Plain.limit_denominator.
  destruct (Pos.leb_spec (Qden (Qred q)) 1000000) as [Hs|Hb]; [exact Hs|].
  destruct (Plain.convergents _ _ _ _ _ _ _) as [[[p0 q0] p1] q1] eqn:E.
  apply convergents_inv in E; unfold Plain.max_denominator in *; try lia.
  destruct E as [H0 H1].
  assert (Z.to_pos q1 <= 1000000)%positive as B2 by lia.
  assert (Z.to_pos (q0 + (1000000 - q0) / q1 * q1) <= 1000000)%positive as B1.
  { destruct (Z.eq_dec q1 0%Z) as [->|].
    - rewrite Z.div_0_r, Z.mul_0_l, Z.add_0_r. lia.
    - pose proof (Z.mul_div_le (1000000 - q0)%Z q1 ltac:(lia)).
      assert (0 <= (1000000 - q0) / q1)%Z by (apply Z.div_pos; lia).
      assert (q0 + (1000000 - q0) / q1 * q1 <= 1000000)%Z by nia.
      lia. }
  destruct (Qle_bool _ _).
  - etransitivity; [apply Qden_Qred_le|exact B2].
  - etransitivity; [apply Qden_Qred_le|exact B1].
Qed.

Lemma limit_denominator_reduced q :
  Qred (Plain.limit_denominator q) = Plain.limit_denominator q.
Proof.
  unfold Plain.limit_denominator.
  destruct (Qden (Qred q) <=? 1000000)%positive;
    [apply Qcanon.Qred_involutive|].
  destruct (Plain.convergents _ _ _ _ _ _ _) as [[[p0 q0] p1] q1].
  destruct (Qle_bool _ _); apply Qcanon.Qred_involutive.
Qed.

Lemma limit_denominator_small q :
  (Qden (Qred q) <= 1000000)%positive -> Plain.limit_denominator q = Qred q.
Proof.
  intros Hs. unfold Plain.limit_denominator.
  destruct (Pos.leb_spec (Qden (Qred q)) 1000000) as [_|Hb]; [done|lia].
Qed.

End PlainFacts.

(** The reference implementation. *)
Definition plain : PyLib := {|
  TAGS := Plain.TAGS;
  float := Plain.float;
  float_lt := Plain.float_lt;
  is_nan := Plain.is_nan;
  float_of_str := Plain.float_of_str;
  int_of_str := Plain.int_of_str;
  Fraction := Plain.Fraction;
  date_fromisoformat := Plain.date_fromisoformat;
  limit_denominator := Plain.limit_denominator;
  float_lt_irrefl := PlainFacts.float_lt_irrefl;
  float_lt_trans := PlainFacts.float_lt_trans;
  float_lt_nan := PlainFacts.float_lt_nan;
  float_lt_incomparable := PlainFacts.float_lt_incomparable;
  limit_denominator_reduced := PlainFacts.limit_denominator_reduced;
  limit_denominator_bound := PlainFacts.limit_denominator_bound;
  limit_denominator_small := PlainFacts.limit_denominator_small
|}.

(** ** Dictionaries *)

Section DictFacts.

Context {V : Type}.
Implicit Types (d : dict V) (k : string) (v : V).

Lemma get_setitem k k' v d :
  PyDict.get k (PyDict.setitem k' v d)
  = if String.eqb k k' then Some v else PyDict.get k d.
Proof.
  induction d as [|[k0 v0] d IH]; simpl.
  - destruct (String.eqb_spec k k'); reflexivity.
  - destruct (String.eqb_spec k' k0) as [->|Hne]; simpl.
    + destruct (String.eqb_spec k k0); reflexivity.
    + rewrite IH. destruct (String.eqb_spec k k0) as [->|]; [|reflexivity].
      destruct (String.eqb_spec k0 k'); congruence.
Qed.

Lemma get_setitem_eq k v d : PyDict.get k (PyDict.setitem k v d) = Some v.
Proof. rewrite get_setitem, String.eqb_refl. reflexivity. Qed.

Lemma get_setitem_ne k k' v d :
  k <> k' -> PyDict.get k (PyDict.setitem k' v d) = PyDict.get k d.
Proof.
  intros Hne. rewrite get_setitem.
  destruct (String.eqb_spec k k'); congruence.
Qed.

Lemma get_Some_elem k v d : PyDict.get k d = Some v -> (k, v) ∈ d.
Proof.
  induction d as [|[k0 v0] d IH]; simpl; [discriminate|].
  destruct (String.eqb_spec k k0) as [->|_].
  - intros [= ->]. left.
  - intros Hg. right. auto.
Qed.

Lemma get_None_keys k d : PyDict.get k d = None <-> k ∉ PyDict.keys d.
Proof.
  unfold PyDict.keys. induction d as [|[k0 v0] d IH]; simpl.
  - split; [intros _; apply not_elem_of_nil | reflexivity].
  - rewrite not_elem_of_cons.
    destruct (String.eqb_spec k k0) as [->|Hne]; split.
    + discriminate.
    + intros [Hk _]. congruence.
    + intros Hg. split; [exact Hne | apply IH, Hg].
    + intros [_ Hk]. apply IH, Hk.
Qed.

Lemma elem_keys_get k d : k ∈ PyDict.keys d -> is_Some (PyDict.get k d).
Proof.
  intros Hin. destruct (PyDict.get k d) eqn:E; [eauto|].
  apply get_None_keys in E. contradiction.
Qed.

(** Writing to a present key leaves the keys and their order alone; a new
    key goes last. *)
Lemma keys_setitem_present k v d :
  is_Some (PyDict.get k d) ->
  PyDict.keys (PyDict.setitem k v d) = PyDict.keys d.
Proof.
  unfold PyDict.keys. induction d as [|[k0 v0] d IH]; simpl.
  - intros [? [=]].
  - destruct (String.eqb_spec k k0) as [->|Hne]; [reflexivity|].
    intros Hs. simpl. f_equal. auto.
Qed.

Lemma keys_setitem_absent k v d :
  PyDict.get k d = None ->
  PyDict.keys (PyDict.setitem k v d) = PyDict.keys d ++ [k].
Proof.
  unfold PyDict.keys. induction d as [|[k0 v0] d IH]; simpl; [reflexivity|].
  destruct (String.eqb_spec k k0) as [->|Hne]; [discriminate|].
  intros Hn. simpl. f_equal. auto.
Qed.

Lemma elem_setitem k0 v0 k v d :
  (k0, v0) ∈ PyDict.setitem k v d -> (k0, v0) ∈ d \/ (k0 = k /\ v0 = v).
Proof.
  induction d as [|[k1 v1] d IH]; simpl.
  - intros [[= -> ->]|[]%elem_of_nil]%elem_of_cons. auto.
  - destruct (String.eqb_spec k k1) as [->|Hne].
    + intros [[= -> ->]|Hin]%elem_of_cons; [auto|].
      left. right. exact Hin.
    + intros [[= -> ->]|Hin]%elem_of_cons; [left; left|].
      destruct (IH Hin) as [?|?]; [left; right|]; auto.
Qed.

End DictFacts.

(** The sum of the values after a write. *)
Lemma sum_values_setitem (v : string) (n : nat) (d : dict nat) :
  sum_list (PyDict.values (PyDict.setitem v n d)) + default 0 (PyDict.get v d)
  = sum_list (PyDict.values d) + n.
Proof.
  unfold PyDict.values. induction d as [|[k0 n0] d IH]; simpl; [lia|].
  destruct (String.eqb_spec v k0) as [->|Hne]; simpl; lia.
Qed.

(** ** The locked block *)

Lemma increment_Ok key value t d :
  PyDict.get key t = Some d ->
  increment key value t
  = Ok (PyDict.setitem key (PyDict.setitem value (bumped value d) d) t).
Proof.
  intros Hd. unfold increment, getitem, bumped, PyDict.contains.
  rewrite Hd. simpl. destruct (PyDict.get value d); reflexivity.
Qed.

Lemma increment_Raise key value t :
  PyDict.get key t = None -> increment key value t = Raise (KeyError key).
Proof. intros Hd. unfold increment, getitem. rewrite Hd. reflexivity. Qed.

Lemma increment_inv key value t t' :
  increment key value t = Ok t' ->
  exists d, PyDict.get key t = Some d
    /\ t' = PyDict.setitem key (PyDict.setitem value (bumped value d) d) t.
Proof.
  destruct (PyDict.get key t) as [d|] eqn:Hd.
  - rewrite (increment_Ok _ _ _ _ Hd). intros [= <-]. eauto.
  - rewrite (increment_Raise _ _ _ Hd). discriminate.
Qed.

Lemma increment_keys key value t t' :
  increment key value t = Ok t' -> PyDict.keys t' = PyDict.keys t.
Proof.
  intros (d & Hd & ->)%increment_inv. apply keys_setitem_present. eauto.
Qed.

Lemma increment_lookup2 key value t t' k v :
  increment key value t = Ok t' ->
  lookup2 k v t'
  = if decide (k = key /\ v = value) then Some (S (count key value t))
    else lookup2 k v t.
Proof.
  intros (d & Hd & ->)%increment_inv. unfold lookup2, count, lookup2.
  rewrite get_setitem. destruct (String.eqb_spec k key) as [->|Hk].
  - rewrite Hd, get_setitem. destruct (String.eqb_spec v value) as [->|Hv].
    + rewrite decide_True by done. unfold bumped.
      destruct (PyDict.get value d); simpl; f_equal; lia.
    + rewrite decide_False by (intros [_ ?]; done). reflexivity.
  - rewrite decide_False by (intros [? _]; done). reflexivity.
Qed.

Lemma increment_count key value t t' k v :
  increment key value t = Ok t' ->
  count k v t'
  = count k v t + (if decide (k = key /\ v = value) then 1 else 0).
Proof.
  intros Hi. unfold count at 1. rewrite (increment_lookup2 _ _ _ _ _ _ Hi).
  destruct (decide _) as [[-> ->]|_]; simpl; [lia|].
  unfold count. lia.
Qed.

Lemma increment_total key value t t' k :
  increment key value t = Ok t' ->
  total k t' = total k t + (if decide (k = key) then 1 else 0).
Proof.
  intros (d & Hd & ->)%increment_inv. unfold total.
  rewrite get_setitem. destruct (String.eqb_spec k key) as [->|Hk].
  - rewrite Hd, decide_True by done.
    pose proof (sum_values_setitem value (bumped value d) d) as Hs.
    unfold bumped in *. destruct (PyDict.get value d); simpl in *; lia.
  - rewrite decide_False by done. lia.
Qed.

Lemma increment_positive key value t t' :
  increment key value t = Ok t' ->
  (forall k v n, lookup2 k v t = Some n -> 1 <= n) ->
  forall k v n, lookup2 k v t' = Some n -> 1 <= n.
Proof.
  intros Hi Hpos k v n. rewrite (increment_lookup2 _ _ _ _ _ _ Hi).
  destruct (decide _); [intros [= <-]; lia | apply Hpos].
Qed.

(** ** The pool *)

Lemma pending_insert (ws : list worker) i w w' :
  ws !! i = Some w ->
  exists before after,
    pending ws = before ++ blocks w ++ after
    /\ pending (<[i := w']> ws) = before ++ blocks w' ++ after.
Proof.
  intros Hi. exists (pending (take i ws)), (pending (drop (S i) ws)).
  unfold pending. split.
  - rewrite <- (take_drop_middle ws i w Hi) at 1.
    rewrite map_app, concat_app. reflexivity.
  - rewrite insert_take_drop by (eapply lookup_lt_Some; eauto).
    rewrite map_app, concat_app. reflexivity.
Qed.

Lemma issued_app k v bs1 bs2 :
  issued k v (bs1 ++ bs2) = issued k v bs1 + issued k v bs2.
Proof. unfold issued. rewrite filter_app, length_app. reflexivity. Qed.

Lemma issued_field_app k bs1 bs2 :
  issued_field k (bs1 ++ bs2) = issued_field k bs1 + issued_field k bs2.
Proof. unfold issued_field. rewrite filter_app, length_app. reflexivity. Qed.

Lemma issued_cons k v key value bs :
  issued k v ((key, value) :: bs)
  = (if decide (k = key /\ v = value) then 1 else 0) + issued k v bs.
Proof.
  unfold issued. rewrite filter_cons.
  destruct (decide ((key, value) = (k, v))) as [[= -> ->]|Hne].
  - rewrite decide_True by done. reflexivity.
  - rewrite decide_False by (intros [-> ->]; done). reflexivity.
Qed.

Lemma issued_field_cons k key value bs :
  issued_field k ((key, value) :: bs)
  = (if decide (k = key) then 1 else 0) + issued_field k bs.
Proof.
  unfold issued_field. rewrite filter_cons. simpl.
  destruct (decide (key = k)) as [->|Hne].
  - rewrite decide_True by done. reflexivity.
  - rewrite decide_False by done. reflexivity.
Qed.

(** Permuted lists of blocks issue the same counts. *)
Lemma issued_Permutation k v bs bs' :
  bs ≡ₚ bs' -> issued k v bs = issued k v bs'.
Proof. intros Hp. unfold issued. rewrite Hp. reflexivity. Qed.

Lemma init_table_keys : PyDict.keys init_table = STATISTIC_KEYS.
Proof. reflexivity. Qed.

Lemma init_table_lookup2 k v : lookup2 k v init_table = None.
Proof.
  unfold lookup2, init_table, STATISTIC_KEYS. simpl.
  repeat case_match; simplify_eq; reflexivity.
Qed.

Lemma init_table_total k : total k init_table = 0.
Proof.
  unfold total, init_table, STATISTIC_KEYS. simpl.
  repeat case_match; simplify_eq; reflexivity.
Qed.

Lemma invariant_init ws :
  Forall (fun b => fst b ∈ STATISTIC_KEYS) (pending ws) ->
  invariant (pending ws) (State init_table ws).
Proof.
  intros Hf. split; simpl.
  - apply init_table_keys.
  - exact Hf.
  - intros k v n. rewrite init_table_lookup2. discriminate.
  - intros k v. unfold count. rewrite init_table_lookup2. reflexivity.
  - intros k. rewrite init_table_total. reflexivity.
Qed.

(** A block of a tracked field never raises. *)
Lemma increment_tracked key value t :
  PyDict.keys t = STATISTIC_KEYS -> key ∈ STATISTIC_KEYS ->
  exists t', increment key value t = Ok t'.
Proof.
  intros Hk Hin. rewrite <- Hk in Hin.
  destruct (elem_keys_get _ _ Hin) as [d Hd].
  rewrite (increment_Ok _ _ _ _ Hd). eauto.
Qed.

Lemma invariant_step all s s' :
  invariant all s -> step s s' -> invariant all s'.
Proof.
  intros [Hk Hf Hp Hc Ht] Hstep.
  destruct Hstep as [i key value rest t t' ws Hi Hinc
                    |i key value rest t e ws Hi Hinc]; simpl in *.
  - destruct (pending_insert ws i _ rest Hi) as (b & a & E & E').
    simpl in E. rewrite E in *. split; simpl; rewrite ?E'.
    + rewrite (increment_keys _ _ _ _ Hinc). exact Hk.
    + rewrite Forall_app, Forall_cons, Forall_app in Hf.
      rewrite !Forall_app. tauto.
    + eapply increment_positive; eauto.
    + intros k v. rewrite <- (Hc k v), (increment_count _ _ _ _ _ _ Hinc).
      repeat (rewrite issued_app || rewrite issued_cons). lia.
    + intros k. rewrite <- (Ht k), (increment_total _ _ _ _ _ Hinc).
      repeat (rewrite issued_field_app || rewrite issued_field_cons). lia.
  - exfalso.
    destruct (pending_insert ws i _ rest Hi) as (b & a & E & _).
    simpl in E. rewrite E in Hf.
    rewrite Forall_app, Forall_cons in Hf. simpl in Hf.
    destruct (increment_tracked key value t Hk) as [t' Ht']; [tauto|].
    congruence.
Qed.

Lemma invariant_rtc all s s' :
  invariant all s -> rtc step s s' -> invariant all s'.
Proof.
  intros Hinv Hsteps. induction Hsteps; eauto using invariant_step.
Qed.

Lemma step_worker_rtc i s : rtc step s (step_worker i s).
Proof.
  unfold step_worker. destruct s as [t ws]; simpl.
  destruct (ws !! i) as [[| |key value rest]|] eqn:Hi; try reflexivity.
  destruct (increment key value t) as [t'|e] eqn:Hinc; apply rtc_once.
  - eapply step_count; eauto.
  - eapply step_raise; eauto.
Qed.

Lemma run_rtc sched s : rtc step s (run sched s).
Proof.
  revert s. induction sched as [|i sched IH]; intros s; simpl; [reflexivity|].
  etransitivity; [apply step_worker_rtc | apply IH].
Qed.

Lemma insert_middle {A} (done : list A) (w w' : A) (rest : list A) :
  <[length done := w']> (done ++ w :: rest) = done ++ w' :: rest.
Proof.
  induction done as [|x done IH]; simpl; [reflexivity|]. f_equal. exact IH.
Qed.

Lemma lookup_middle {A} (done : list A) (w : A) (rest : list A) :
  (done ++ w :: rest) !! length done = Some w.
Proof.
  induction done as [|x done IH]; simpl; [reflexivity|]. exact IH.
Qed.

Lemma finish_rtc w : forall t w' t' done rest,
  finish w t = (w', t') ->
  rtc step (State t (done ++ w :: rest)) (State t' (done ++ w' :: rest)).
Proof.
  induction w as [|e|key value w IH]; simpl; intros t w' t' done rest E.
  - injection E as <- <-. reflexivity.
  - injection E as <- <-. reflexivity.
  - destruct (increment key value t) as [t1|e] eqn:Hinc.
    + eapply rtc_l; [|eapply IH, E].
      rewrite <- (insert_middle done (Locked key value w) w rest).
      eapply step_count; [apply lookup_middle | exact Hinc].
    + injection E as <- <-. apply rtc_once.
      rewrite <- (insert_middle done (Locked key value w) (Raised e) rest).
      eapply step_raise; [apply lookup_middle | exact Hinc].
Qed.

Lemma join_rtc ws : forall t ws' t' done,
  join ws t = (ws', t') ->
  rtc step (State t (done ++ ws)) (State t' (done ++ ws')).
Proof.
  induction ws as [|w ws IH]; simpl; intros t ws' t' done E.
  - injection E as <- <-. reflexivity.
  - destruct (finish w t) as [w1 t1] eqn:Ef.
    destruct (join ws t1) as [ws2 t2] eqn:Ej.
    injection E as <- <-.
    etransitivity; [eapply finish_rtc, Ef|].
    specialize (IH t1 ws2 t2 (done ++ [w1]) Ej).
    rewrite <- !app_assoc in IH. exact IH.
Qed.

Lemma finish_blocks w : forall t w' t', finish w t = (w', t') -> blocks w' = [].
Proof.
  induction w as [|e|key value w IH]; simpl; intros t w' t' E.
  - injection E as <- _. reflexivity.
  - injection E as <- _. reflexivity.
  - destruct (increment key value t); [eauto|].
    injection E as <- _. reflexivity.
Qed.

Lemma join_pending ws : forall t ws' t',
  join ws t = (ws', t') -> Forall (fun w => blocks w = []) ws'.
Proof.
  induction ws as [|w ws IH]; simpl; intros t ws' t' E.
  - injection E as <- _. constructor.
  - destruct (finish w t) as [w1 t1] eqn:Ef.
    destruct (join ws t1) as [ws2 t2] eqn:Ej.
    injection E as <- _. constructor; eauto using finish_blocks.
Qed.

Lemma pending_finished ws :
  Forall (fun w => blocks w = []) ws -> pending ws = [].
Proof.
  unfold pending. induction 1 as [|w ws Hw _ IH]; simpl; [reflexivity|].
  rewrite Hw, IH. reflexivity.
Qed.

(** Under the invariant a step leaves the end of every call as it was. *)
Lemma step_ends all s s' :
  invariant all s -> step s s' -> map ends (pool s') = map ends (pool s).
Proof.
  intros Hinv Hstep. pose proof (invariant_step _ _ _ Hinv Hstep) as Hinv'.
  destruct Hinv as [Hk Hf _ _ _].
  destruct Hstep as [i key value rest t t' ws Hi Hinc
                    |i key value rest t e ws Hi Hinc]; simpl in *.
  - rewrite list_fmap_insert. apply list_insert_id.
    rewrite list_lookup_fmap, Hi. reflexivity.
  - exfalso.
    destruct (pending_insert ws i _ rest Hi) as (b & a & E & _).
    simpl in E. rewrite E in Hf.
    rewrite Forall_app, Forall_cons in Hf. simpl in Hf.
    destruct (increment_tracked key value t Hk) as [t' Ht']; [tauto|].
    congruence.
Qed.

Lemma rtc_ends all s s' :
  invariant all s -> rtc step s s' -> map ends (pool s') = map ends (pool s).
Proof.
  intros Hinv Hsteps. induction Hsteps as [|s1 s2 s3 H12 _ IH]; [reflexivity|].
  rewrite IH by eauto using invariant_step. eauto using step_ends.
Qed.

(** ** The worker *)

Section Worker.

Context `{PyLib}.

Lemma statistic_loop_fields er keys :
  Forall (fun b => fst b ∈ keys) (blocks (statistic_loop er keys)).
Proof.
  induction keys as [|k keys IH]; simpl; [constructor|].
  destruct (er !! inl k); simpl; [|constructor].
  constructor; simpl; [left|].
  eapply Forall_impl; [exact IH|]. intros b Hb. right. exact Hb.
Qed.

Lemma statistic_loop_ends er keys : ends (statistic_loop er keys) = None.
Proof.
  induction keys as [|k keys IH]; simpl; [reflexivity|].
  destruct (er !! inl k); simpl; auto.
Qed.

Lemma issued_field_absent k bs :
  Forall (fun b => fst b <> k) bs -> issued_field k bs = 0.
Proof.
  unfold issued_field. induction 1 as [|b bs Hb _ IH]; [reflexivity|].
  rewrite filter_cons, decide_False by exact Hb. exact IH.
Qed.

Lemma statistic_loop_issued exif k keys :
  NoDup keys ->
  issued_field k (blocks (statistic_loop (exif_result_of exif) keys))
  = if match upto k keys with
       | Some ks => forallb (carries exif) ks
       | None => false
       end then 1 else 0.
Proof.
  induction 1 as [|k' keys Hnin Hnd IH]; simpl; [reflexivity|].
  assert (carries exif k'
          = match exif_result_of exif !! inl k' with
            | Some _ => true
            | None => false
            end) as Hc.
  { unfold carries. destruct (exif_result_of exif !! inl k').
    - apply bool_decide_true. eauto.
    - apply bool_decide_false. intros [? [=]]. }
  destruct (exif_result_of exif !! inl k') as [raw|] eqn:Hraw; simpl.
  - rewrite issued_field_cons.
    destruct (String.eqb_spec k k') as [->|Hne].
    + rewrite decide_True by done. simpl. rewrite Hc. simpl.
      rewrite issued_field_absent; [reflexivity|].
      eapply Forall_impl; [apply statistic_loop_fields|].
      intros b Hb E. simpl in Hb, E. rewrite E in Hb. contradiction.
    + rewrite decide_False by done. rewrite IH. simpl.
      destruct (upto k keys) as [ks|]; simpl; [|reflexivity].
      rewrite Hc. reflexivity.
  - destruct (String.eqb_spec k k') as [->|Hne]; simpl.
    + rewrite Hc. reflexivity.
    + destruct (upto k keys) as [ks|]; simpl; [|reflexivity].
      rewrite Hc. reflexivity.
Qed.

Lemma STATISTIC_KEYS_NoDup : NoDup STATISTIC_KEYS.
Proof. apply (bool_decide_unpack _). vm_compute. exact I. Qed.

Lemma make_statistic_issued k img :
  issued_field k (blocks (make_statistic img))
  = if processed_for k img then 1 else 0.
Proof.
  destruct img as [e| |exif]; [reflexivity | reflexivity |].
  unfold make_statistic, processed_for.
  apply statistic_loop_issued, STATISTIC_KEYS_NoDup.
Qed.

Lemma make_statistic_fields img :
  Forall (fun b => fst b ∈ STATISTIC_KEYS) (blocks (make_statistic img)).
Proof.
  destruct img; [constructor | constructor |].
  apply statistic_loop_fields.
Qed.

Lemma make_statistic_ends img : ends (make_statistic img) = raised_by img.
Proof.
  destruct img; [reflexivity | reflexivity |]. apply statistic_loop_ends.
Qed.

Lemma pending_cons w ws : pending (w :: ws) = blocks w ++ pending ws.
Proof. reflexivity. Qed.

Lemma pool_fields imgs :
  Forall (fun b => fst b ∈ STATISTIC_KEYS) (pending (map make_statistic imgs)).
Proof.
  induction imgs as [|img imgs IH]; simpl; [constructor|].
  rewrite pending_cons, Forall_app. split; [apply make_statistic_fields|exact IH].
Qed.

Lemma pool_issued_field k imgs :
  issued_field k (pending (map make_statistic imgs))
  = length (filter (fun img => processed_for k img = true) imgs).
Proof.
  induction imgs as [|img imgs IH]; simpl; [reflexivity|].
  rewrite pending_cons, issued_field_app, make_statistic_issued, IH.
  rewrite filter_cons.
  destruct (decide (processed_for k img = true)) as [E|E].
  - rewrite E. reflexivity.
  - apply not_true_is_false in E. rewrite E. reflexivity.
Qed.

Lemma invariant_start imgs :
  invariant (pending (map make_statistic imgs)) (start imgs).
Proof. apply invariant_init, pool_fields. Qed.

End Worker.

(** ** get_statistic_dict *)

Lemma lookup2_count k v t :
  (forall n, lookup2 k v t = Some n -> 1 <= n) ->
  lookup2 k v t = if decide (count k v t = 0) then None else Some (count k v t).
Proof.
  intros Hpos. unfold count. destruct (lookup2 k v t) as [n|]; simpl.
  - specialize (Hpos n eq_refl). rewrite decide_False by lia. reflexivity.
  - reflexivity.
Qed.

Lemma increments_counts bs : forall t,
  PyDict.keys t = STATISTIC_KEYS ->
  Forall (fun b => fst b ∈ STATISTIC_KEYS) bs ->
  (forall k v n, lookup2 k v t = Some n -> 1 <= n) ->
  exists t', increments bs t = Ok t'
    /\ PyDict.keys t' = STATISTIC_KEYS
    /\ (forall k v n, lookup2 k v t' = Some n -> 1 <= n)
    /\ (forall k v, count k v t' = count k v t + issued k v bs).
Proof.
  induction bs as [|[key value] bs IH]; intros t Hk Hf Hpos; simpl.
  - exists t. split; [reflexivity|]. split; [exact Hk|]. split; [exact Hpos|].
    intros k v. unfold issued. simpl. lia.
  - apply Forall_cons in Hf as [Hkey Hf]. simpl in Hkey.
    destruct (increment_tracked key value t Hk Hkey) as [t1 H1].
    rewrite H1. simpl.
    destruct (IH t1) as (t' & E & Hk' & Hpos' & Hc).
    + rewrite (increment_keys _ _ _ _ H1). exact Hk.
    + exact Hf.
    + eapply increment_positive; eauto.
    + exists t'. split; [exact E|]. split; [exact Hk'|].
      split; [exact Hpos'|]. intros k v.
      rewrite Hc, (increment_count _ _ _ _ _ _ H1), issued_cons. lia.
Qed.

Section Run.

Context `{PyLib}.

Lemma wait_tasks_files files : forall ws done,
  Forall (fun w => blocks w = []) ws ->
  map ends ws = map raised_by (map content files) ->
  wait_tasks (zip (map waited files) ws) done = wait_files files done.
Proof.
  induction files as [|[img wt] files IH]; intros ws done Hfin Hends.
  - reflexivity.
  - destruct ws as [|w ws]; [discriminate|].
    apply Forall_cons in Hfin as [Hw Hfin]. simpl in Hends.
    injection Hends as Hend Hends. simpl.
    rewrite (IH ws done Hfin Hends).
    destruct wt; [|reflexivity|reflexivity].
    rewrite <- Hend.
    destruct w as [|e|key value rest]; [reflexivity|reflexivity|].
    discriminate.
Qed.

(** What [get_statistic_dict] computes, whatever the schedule: the loop
    over the tasks ends as the files decide, and the table it would return
    holds exactly the blocks the calls issue. *)
Lemma get_statistic_dict_spec sched files :
  exists t,
    get_statistic_dict sched files = wait_files files (Returns t)
    /\ PyDict.keys t = STATISTIC_KEYS
    /\ (forall k v n, lookup2 k v t = Some n -> 1 <= n)
    /\ (forall k v,
         count k v t
         = issued k v (pending (map make_statistic (map content files))))
    /\ (forall k,
         total k t
         = length (filter (fun img => processed_for k img = true)
                          (map content files))).
Proof.
  unfold get_statistic_dict.
  pose proof (run_rtc sched (start (map content files))) as Hrun.
  destruct (run sched (start (map content files))) as [t0 ws0]; simpl.
  destruct (join ws0 t0) as [ws t] eqn:Ej.
  pose proof (join_rtc ws0 t0 ws t [] Ej) as Hjoin. simpl in Hjoin.
  pose proof (join_pending _ _ _ _ Ej) as Hfin.
  assert (rtc step (start (map content files)) (State t ws)) as Hsteps
    by (etransitivity; eauto).
  pose proof (invariant_rtc _ _ _ (invariant_start _) Hsteps) as Hinv.
  pose proof (rtc_ends _ _ _ (invariant_start _) Hsteps) as Hends.
  simpl in Hends. rewrite map_map in Hends.
  destruct Hinv as [Hk _ Hpos Hc Ht]. simpl in *.
  rewrite (pending_finished _ Hfin) in Hc, Ht.
  exists t. repeat split.
  - apply wait_tasks_files; [exact Hfin|].
    rewrite Hends. apply map_ext. intros img.
    apply make_statistic_ends.
  - exact Hk.
  - exact Hpos.
  - intros k v. rewrite <- (Hc k v). unfold issued at 1. simpl. lia.
  - intros k. rewrite <- pool_issued_field, <- (Ht k).
    unfold issued_field at 1. simpl. lia.
Qed.

End Run.

(** * The claims *)

Lemma wait_files_Returns files : forall done out t,
  wait_files files done = (out, Returns t) -> done = Returns t.
Proof.
  induction files as [|[img wt] files IH]; simpl; intros done out t E.
  - congruence.
  - destruct wt.
    + destruct (raised_by img); [discriminate|]. eauto.
    + destruct (wait_files files done) as [out' r] eqn:E'.
      injection E as _ ->. eauto.
    + discriminate.
Qed.

(** C3. [increment] creates the entry of a value with count 1 when the
    value is new for the field and adds 1 to its count otherwise, leaving
    every other entry alone.  Hence a list of increments run in any order
    leaves in the table, for every field and value, the number of
    increments issued for them, and two runs of [get_statistic_dict] on the
    same files under different schedules return tables with the same
    entries. *)
Theorem counting_is_order_independent `{PyLib} :
  (forall key value t d,
      PyDict.get key t = Some d ->
      exists t',
        increment key value t = Ok t'
        /\ lookup2 key value t'
           = Some (match PyDict.get value d with Some n => n + 1 | None => 1 end)
        /\ forall k v, (k, v) <> (key, value) -> lookup2 k v t' = lookup2 k v t)
  /\ (forall bs bs',
         Forall (fun b => fst b ∈ STATISTIC_KEYS) bs ->
         bs ≡ₚ bs' ->
         exists t t',
           increments bs init_table = Ok t
           /\ increments bs' init_table = Ok t'
           /\ (forall k v, count k v t = issued k v bs)
           /\ (forall k v, lookup2 k v t' = lookup2 k v t))
  /\ (forall files sched sched' out out' t t',
         get_statistic_dict sched files = (out, Returns t) ->
         get_statistic_dict sched' files = (out', Returns t') ->
         PyDict.keys t' = PyDict.keys t
         /\ forall k v,
             lookup2 k v t' = lookup2 k v t
             /\ count k v t
                = issued k v (pending (map make_statistic (map content files)))).
Proof.
  split; [|split].
  - intros key value t d Hd. eexists. split; [apply increment_Ok, Hd|].
    split.
    + unfold lookup2. rewrite get_setitem_eq, get_setitem_eq. reflexivity.
    + intros k v Hne. unfold lookup2. rewrite get_setitem.
      destruct (String.eqb_spec k key) as [->|Hk]; [|reflexivity].
      rewrite Hd, get_setitem_ne; [reflexivity|]. congruence.
  - intros bs bs' Hf Hp.
    assert (Forall (fun b => fst b ∈ STATISTIC_KEYS) bs') as Hf'
      by (rewrite <- Hp; exact Hf).
    destruct (increments_counts bs init_table init_table_keys Hf)
      as (t & E & _ & Hpos & Hc).
    { intros k v n. rewrite init_table_lookup2. discriminate. }
    destruct (increments_counts bs' init_table init_table_keys Hf')
      as (t' & E' & _ & Hpos' & Hc').
    { intros k v n. rewrite init_table_lookup2. discriminate. }
    assert (forall k v, count k v init_table = 0) as H0
      by (intros k v; unfold count; rewrite init_table_lookup2; reflexivity).
    exists t, t'. split; [exact E|]. split; [exact E'|]. split.
    + intros k v. rewrite Hc, H0. reflexivity.
    + intros k v. rewrite (lookup2_count k v t'), (lookup2_count k v t) by eauto.
      rewrite Hc, Hc', (issued_Permutation k v bs bs' Hp). reflexivity.
  - intros files sched sched' out out' t t' E E'.
    destruct (get_statistic_dict_spec sched files) as (t0 & E0 & Hk & Hpos & Hc & _).
    destruct (get_statistic_dict_spec sched' files)
      as (t0' & E0' & Hk' & Hpos' & Hc' & _).
    rewrite E0 in E. apply wait_files_Returns in E. injection E as ->.
    rewrite E0' in E'. apply wait_files_Returns in E'. injection E' as ->.
    split; [congruence|]. intros k v. split; [|apply Hc].
    rewrite (lookup2_count k v t'), (lookup2_count k v t) by eauto.
    rewrite Hc, Hc'. reflexivity.
Qed.

(** In every state a run of the pool can reach, every entry of the table
    has a count of at least 1, and the counts of a field add up to at most
    the number of files whose call counts the field. *)
Lemma table_invariant `{PyLib} (files : list image) (s : state) :
  rtc step (start files) s ->
  (forall k v n, lookup2 k v (shared_dict s) = Some n -> 1 <= n)
  /\ (forall k,
         total k (shared_dict s)
         <= length (filter (fun img => processed_for k img = true) files)).
Proof.
  intros Hsteps.
  destruct (invariant_rtc _ _ _ (invariant_start files) Hsteps)
    as [_ _ Hpos _ Ht].
  split; [exact Hpos|].
  intros k. rewrite <- pool_issued_field, <- (Ht k). lia.
Qed.

(** ** Sample runs of the pool *)

Section SampleRuns.

#[local] Existing Instance plain.

Lemma counting_is_order_independent_witness :
  exists t t',
    increments Sample.three_blocks init_table = Ok t
    /\ increments Sample.three_blocks' init_table = Ok t'
    /\ (forall k v, count k v t = issued k v Sample.three_blocks)
    /\ (forall k v, lookup2 k v t' = lookup2 k v t).
Proof.
  apply (proj1 (proj2 (counting_is_order_independent (H := plain)))
           Sample.three_blocks Sample.three_blocks').
  - unfold Sample.three_blocks, STATISTIC_KEYS.
    repeat (constructor; [simpl; set_solver|]). constructor.
  - unfold Sample.three_blocks, Sample.three_blocks'. apply Permutation_swap.
Defined.

(** C1 (the code does otherwise).  A file that carries the date and the
    camera model but no lens model is not skipped as a whole: the call
    counts its date and its model before it meets the missing field, and
    under every schedule the table [get_statistic_dict] returns holds
    both; the fields from the missing one on are not counted.  [cli] then
    finds an entry for the date, plots two figures, and dies on the empty
    field of the lens model. *)
Theorem incomplete_file_is_counted :
  make_statistic Sample.no_lens
  = Locked "DateTimeOriginal" "2023-05-01" (Locked "Model" "X100V" Return)
  /\ (forall sched, exists t,
        get_statistic_dict sched [File Sample.no_lens Ready] = ([], Returns t)
        /\ lookup2 "DateTimeOriginal" "2023-05-01" t = Some 1
        /\ lookup2 "Model" "X100V" t = Some 1
        /\ total "LensModel" t = 0)
  /\ cli [] [File Sample.no_lens Ready]
     = ([Header "DateTimeOriginal"; Figure ["2023-05-01"] [1];
         Header "Model"; Figure ["X100V"] [1]],
        Some UnpackError).
Proof.
  split; [vm_compute; reflexivity|]. split; [|vm_compute; reflexivity].
  intros sched.
  destruct (get_statistic_dict_spec sched [File Sample.no_lens Ready])
    as (t & E & _ & Hpos & Hc & Ht).
  exists t. split; [exact E|].
  rewrite !lookup2_count by eauto. rewrite !Hc, Ht.
  vm_compute. auto.
Qed.

(** C8 (the code does otherwise).  At every point of a run every entry
    of the table has a count of at least 1, but the counts of a field can
    add up to more than the number of files that carry every tracked
    field: through the early return of C1 the date and the model of a file
    without lens model are counted, at a point of the run and in the table
    returned under every schedule, while no file is complete. *)
Theorem incomplete_file_breaks_the_bound :
  (forall files s,
      rtc step (start files) s ->
      forall k v n, lookup2 k v (shared_dict s) = Some n -> 1 <= n)
  /\ complete Sample.no_lens = false
  /\ (exists s,
        rtc step (start [Sample.no_lens]) s
        /\ total "DateTimeOriginal" (shared_dict s) = 1
        /\ length (filter (fun img => complete img = true) [Sample.no_lens])
           = 0)
  /\ (forall sched, exists t,
        get_statistic_dict sched [File Sample.no_lens Ready] = ([], Returns t)
        /\ total "DateTimeOriginal" t = 1
        /\ total "Model" t = 1
        /\ length (filter (fun img => complete img = true)
                          (map content [File Sample.no_lens Ready]))
           = 0).
Proof.
  split; [|split; [reflexivity|split]].
  - intros files s Hsteps. exact (proj1 (table_invariant files s Hsteps)).
  - exists (run [0] (start [Sample.no_lens])).
    split; [apply run_rtc|]. split; reflexivity.
  - intros sched.
    destruct (get_statistic_dict_spec sched [File Sample.no_lens Ready])
      as (t & E & _ & _ & _ & Ht).
    exists t. split; [exact E|]. rewrite !Ht. repeat split.
Qed.

End SampleRuns.

(** ** Extraction errors *)

(** How the loop can end: with what follows it, with the value 1 after an
    interrupt, or with the exception of a call that ended in time. *)
Lemma wait_files_cases files : forall done out r,
  wait_files files done = (out, r) ->
  (r = done /\ Forall passes files)
  \/ (r = Returns1 /\ exists f, f ∈ files /\ waited f = Interrupted)
  \/ (exists e f,
        r = Raises e /\ f ∈ files /\ waited f = Ready
        /\ content f = Unreadable e).
Proof.
  induction files as [|[img wt] files IH]; simpl; intros done out r E.
  - injection E as _ <-. left. split; [reflexivity|constructor].
  - assert (forall out', wait_files files done = (out', r) ->
              passes (File img wt) ->
              (r = done /\ Forall passes (File img wt :: files))
              \/ (r = Returns1
                  /\ exists f, f ∈ File img wt :: files
                               /\ waited f = Interrupted)
              \/ (exists e f,
                    r = Raises e /\ f ∈ File img wt :: files
                    /\ waited f = Ready /\ content f = Unreadable e)) as Hrec.
    { intros out' E' Hp.
      destruct (IH _ _ _ E') as [[-> Hall]|[[-> (f & Hf & Hw)]|Hraise]].
      - left. split; [reflexivity|constructor; assumption].
      - right. left. split; [reflexivity|]. exists f. split; [right|]; assumption.
      - right. right. destruct Hraise as (e & f & -> & Hf & Hw & Hc).
        exists e, f. split; [reflexivity|]. split; [right; exact Hf|]. auto. }
    destruct wt.
    + destruct img as [e| |exif]; simpl in E.
      * injection E as _ <-. right. right.
        exists e, (File (Unreadable e) Ready).
        split; [reflexivity|]. split; [left|]. split; reflexivity.
      * apply (Hrec out E). split; [discriminate|reflexivity].
      * apply (Hrec out E). split; [discriminate|reflexivity].
    + destruct (wait_files files done) as [out' r'] eqn:E'.
      injection E as _ <-. apply (Hrec out' eq_refl).
      split; [discriminate|discriminate].
    + injection E as _ <-. right. left. split; [reflexivity|].
      exists (File img Interrupted). split; [left|reflexivity].
Qed.

Section Errors.

Context `{PyLib}.

Lemma wait_files_raises before : forall e after done,
  Forall passes before ->
  exists out,
    wait_files (before ++ File (Unreadable e) Ready :: after) done
    = (out, Raises e).
Proof.
  induction before as [|[img wt] before IH]; intros e after done Hb; simpl.
  - eauto.
  - apply Forall_cons in Hb as [[Hni Hr] Hb]. simpl in Hni, Hr.
    destruct (IH e after done Hb) as [out E].
    destruct wt.
    + rewrite Hr by reflexivity. eauto.
    + rewrite E. eauto.
    + congruence.
Qed.

Lemma wait_files_passes files : forall done,
  Forall passes files -> exists out, wait_files files done = (out, done).
Proof.
  induction files as [|[img wt] files IH]; intros done Hb; simpl.
  - eauto.
  - apply Forall_cons in Hb as [[Hni Hr] Hb]. simpl in Hni, Hr.
    destruct (IH done Hb) as [out E].
    destruct wt.
    + rewrite Hr by reflexivity. eauto.
    + rewrite E. eauto.
    + congruence.
Qed.

(** C2, as the code has it.  A file whose extraction raises contributes
    nothing to any count, but the failure is not treated like missing
    metadata: once the loop of [get_statistic_dict] reaches the task, the
    tasks before it having passed, [task.get] raises the exception again,
    nothing handles it, and the run ends with it instead of a table.
    [get_statistic_dict] returns a table when, and only when, no task is
    interrupted and no task that ends in time has raised. *)
Theorem extraction_error_aborts (sched : list nat) (before after : list file)
    (e : exn) :
  Forall passes before ->
  blocks (make_statistic (Unreadable e)) = []
  /\ (forall k, processed_for k (Unreadable e) = false)
  /\ (exists out,
        get_statistic_dict sched (before ++ File (Unreadable e) Ready :: after)
        = (out, Raises e)
        /\ cli sched (before ++ File (Unreadable e) Ready :: after)
           = (out, Some e))
  /\ (forall files,
        (exists out t, get_statistic_dict sched files = (out, Returns t))
        <-> Forall (fun f =>
                      waited f <> Interrupted
                      /\ (waited f = Ready -> raised_by (content f) = None))
                   files).
Proof.
  intros Hb. split; [reflexivity|]. split; [reflexivity|]. split.
  - destruct (get_statistic_dict_spec sched
                (before ++ File (Unreadable e) Ready :: after))
      as (t & E & _).
    destruct (wait_files_raises before e after (Returns t) Hb) as [out Eo].
    exists out. unfold cli. rewrite E, Eo. split; reflexivity.
  - intros files.
    destruct (get_statistic_dict_spec sched files) as (t & E & _).
    rewrite E. split.
    + intros (out & t' & E').
      destruct (wait_files_cases _ _ _ _ E')
        as [[_ Hall]|[[[=] _]|(e' & f & [=] & _)]].
      exact Hall.
    + intros Hall.
      destruct (wait_files_passes files (Returns t) Hall) as [out Eo].
      exists out, t. exact Eo.
Qed.

End Errors.

Section SampleErrors.

#[local] Existing Instance plain.

Lemma extraction_error_aborts_witness :
  Forall passes [File (Sample.complete "1/200" "100") Ready;
                 File Sample.broken TimedOut]
  /\ exists out,
       get_statistic_dict [1; 0]
         ([File (Sample.complete "1/200" "100") Ready;
           File Sample.broken TimedOut]
          ++ File Sample.broken Ready :: [File Sample.no_lens Ready])
       = (out, Raises (OpenError "UnidentifiedImageError")).
Proof.
  assert (Forall passes [File (Sample.complete "1/200" "100") Ready;
                         File Sample.broken TimedOut]) as Hb.
  { repeat constructor; simpl; congruence. }
  split; [exact Hb|].
  destruct (extraction_error_aborts [1; 0] _ [File Sample.no_lens Ready]
              (OpenError "UnidentifiedImageError") Hb)
    as (_ & _ & (out & E & _) & _).
  exists out. exact E.
Defined.

(** The run of a broken file and a complete one ends with the exception of
    the first; no table is returned. *)
Lemma extraction_error_counterexample :
  get_statistic_dict []
    [File Sample.broken Ready; File (Sample.complete "1/200" "100") Ready]
  = ([], Raises (OpenError "UnidentifiedImageError"))
  /\ ~ (exists out t,
          get_statistic_dict []
            [File Sample.broken Ready;
             File (Sample.complete "1/200" "100") Ready]
          = (out, Returns t)).
Proof.
  split; [vm_compute; reflexivity|].
  intros (out & t & E). vm_compute in E. discriminate.
Qed.

End SampleErrors.

(** ** The values that are counted *)






Lemma lstrip_spec chars s :
  exists pre,
    s = (pre ++ PyStr.lstrip chars s)%string
    /\ only chars pre = true
    /\ starts_in chars (PyStr.lstrip chars s) = false.
Proof.
  induction s as [|c s (pre & E & Hpre & Hst)]; simpl.
  - exists EmptyString. auto.
  - destruct (PyStr.char_in c chars) eqn:Hc.
    + exists (String c pre). split; [|split].
      * change (String c s = String c (pre ++ PyStr.lstrip chars s)%string).
        f_equal. exact E.
      * simpl. rewrite Hc. exact Hpre.
      * exact Hst.
    + exists EmptyString. split; [reflexivity|]. split; [reflexivity|].
      simpl. exact Hc.
Qed.

Lemma rstrip_only chars s :
  only chars s = true -> PyStr.rstrip chars s = EmptyString.
Proof.
  induction s as [|c s IH]; simpl; [reflexivity|].
  intros [Hc Hs]%andb_true_iff. rewrite (IH Hs), Hc. reflexivity.
Qed.

Lemma rstrip_spec chars s :
  exists post,
    s = (PyStr.rstrip chars s ++ post)%string
    /\ only chars post = true
    /\ ends_in chars (PyStr.rstrip chars s) = false
    /\ starts_in chars (PyStr.rstrip chars s)
       = starts_in chars s && negb (only chars s).
Proof.
  induction s as [|c s (post & E & Hpost & Hend & Hst)]; simpl.
  - exists EmptyString. auto.
  - destruct (PyStr.rstrip chars s) as [|d r] eqn:Hr.
    + assert (post = s) as Es by (symmetry; exact E).
      rewrite Es in Hpost.
      destruct (PyStr.char_in c chars) eqn:Hc.
      * exists (String c s). split; [reflexivity|]. split; [|split].
        -- simpl. rewrite Hc. exact Hpost.
        -- reflexivity.
        -- rewrite Hpost. reflexivity.
      * exists s. split; [reflexivity|]. split; [exact Hpost|]. split.
        -- simpl. exact Hc.
        -- simpl. rewrite Hc. reflexivity.
    + assert (only chars s = false) as Hs.
      { destruct (only chars s) eqn:Hs; [|reflexivity].
        rewrite (rstrip_only _ _ Hs) in Hr. discriminate. }
      exists post. split; [|split; [exact Hpost|split]].
      * change (String c s = String c (String d r ++ post)%string).
        f_equal. exact E.
      * exact Hend.
      * simpl. rewrite Hs, andb_false_r. simpl. rewrite andb_true_r.
        reflexivity.
Qed.






(** ** Sorting *)

Section StableSort.

Context {A : Type} (lt : A -> A -> bool) (P : A -> Prop).

(** [lt] is a strict weak order on the elements that satisfy [P]. *)
Hypothesis lt_asym : forall x y, P x -> P y -> lt x y = true -> lt y x = false.
Hypothesis lt_incomparable : forall x y z,
  P x -> P y -> P z -> lt x y = false -> lt y z = false -> lt x z = false.

Lemma insert_sorted_Permutation x l : insert_sorted lt x l ≡ₚ x :: l.
Proof.
  induction l as [|y l IH]; simpl; [reflexivity|].
  destruct (lt y x); [|reflexivity].
  rewrite IH. apply Permutation_swap.
Qed.

Lemma stable_sort_Permutation l : stable_sort lt l ≡ₚ l.
Proof.
  induction l as [|x l IH]; simpl; [reflexivity|].
  rewrite insert_sorted_Permutation, IH. reflexivity.
Qed.

Lemma insert_sorted_StronglySorted x l :
  P x -> Forall P l ->
  StronglySorted (fun a b => lt b a = false) l ->
  StronglySorted (fun a b => lt b a = false) (insert_sorted lt x l).
Proof.
  intros Hx HP Hs. induction Hs as [|y l Hs IH Hy]; simpl.
  - repeat constructor.
  - apply Forall_cons in HP as [Py HP].
    destruct (lt y x) eqn:Hyx.
    + constructor; [apply IH, HP|].
      rewrite insert_sorted_Permutation. constructor; [|exact Hy].
      apply lt_asym; assumption.
    + constructor; [constructor; assumption|].
      constructor; [exact Hyx|].
      rewrite Forall_forall in *. intros z Hz.
      apply (lt_incomparable z y x); auto.
Qed.

Lemma stable_sort_StronglySorted l :
  Forall P l -> StronglySorted (fun a b => lt b a = false) (stable_sort lt l).
Proof.
  induction 1 as [|x l Hx HP IH]; simpl; [constructor|].
  apply insert_sorted_StronglySorted; [exact Hx| |exact IH].
  rewrite stable_sort_Permutation. exact HP.
Qed.

(** A list that is one run, no item smaller than the item before it, is
    left as it is, whether [lt] is an order or not. *)
Lemma stable_sort_run l :
  (forall i x y, l !! i = Some x -> l !! S i = Some y -> lt y x = false) ->
  stable_sort lt l = l.
Proof.
  induction l as [|x l IH]; intros Hrun; [reflexivity|]. simpl.
  rewrite IH by (intros i a b Ha Hb; exact (Hrun (S i) a b Ha Hb)).
  destruct l as [|y l]; [reflexivity|]. simpl.
  rewrite (Hrun 0 x y eq_refl eq_refl). reflexivity.
Qed.

End StableSort.

Lemma StronglySorted_Forall {A} (R : relation A) (P : A -> Prop) l :
  Forall P l -> StronglySorted R l ->
  StronglySorted (fun a b => P a /\ P b /\ R a b) l.
Proof.
  intros HP Hs. induction Hs as [|x l Hs IH Hx]; [constructor|].
  apply Forall_cons in HP as [Px HP]. constructor; [apply IH, HP|].
  rewrite Forall_forall in *. intros y Hy. auto.
Qed.

(** ** The order of each kind of key *)

Lemma string_lt_asym a b : PyStr.lt a b = true -> PyStr.lt b a = false.
Proof.
  unfold PyStr.lt, String.ltb. rewrite (String.compare_antisym b a).
  destruct (a ?= b)%string; simpl; congruence.
Qed.

Lemma string_compare_trans a b c :
  (a ?= b)%string = Lt -> (b ?= c)%string = Lt -> (a ?= c)%string = Lt.
Proof.
  intros Hab Hbc. apply (proj2 (String_as_OT.cmp_lt a c)).
  apply String_as_OT.lt_trans with b; apply String_as_OT.cmp_lt; assumption.
Qed.

Lemma string_lt_incomparable a b c :
  PyStr.lt a b = false -> PyStr.lt b c = false -> PyStr.lt a c = false.
Proof.
  unfold PyStr.lt, String.ltb. intros Hab Hbc.
  destruct (a ?= b)%string eqn:Eab; [|discriminate|].
  - apply String.compare_eq_iff in Eab as ->. exact Hbc.
  - destruct (b ?= c)%string eqn:Ebc; [|discriminate|].
    + apply String.compare_eq_iff in Ebc as <-. rewrite Eab. reflexivity.
    + assert ((c ?= a)%string = Lt) as Hca.
      { apply string_compare_trans with b.
        - rewrite String.compare_antisym, Ebc. reflexivity.
        - rewrite String.compare_antisym, Eab. reflexivity. }
      rewrite String.compare_antisym, Hca. reflexivity.
Qed.

Lemma string_lt_false a b : PyStr.lt b a = false <-> String.leb a b = true.
Proof.
  unfold PyStr.lt, String.ltb, String.leb.
  rewrite (String.compare_antisym b a).
  destruct (a ?= b)%string; simpl; split; congruence.
Qed.

Lemma Fraction_lt_false (p q : Q) : negb (Qle_bool p q) = false <-> (p <= q)%Q.
Proof. rewrite negb_false_iff. apply Qle_bool_iff. Qed.

Lemma Fraction_lt_true (p q : Q) : negb (Qle_bool q p) = true <-> (p < q)%Q.
Proof.
  rewrite negb_true_iff, <- not_true_iff_false, Qle_bool_iff.
  split; [apply Qnot_le_lt | apply Qlt_not_le].
Qed.

Lemma date_lt_spec a b :
  date_lt a b = true
  <-> (year a < year b
       \/ (year a = year b /\ (month a < month b
           \/ (month a = month b /\ day a < day b))))%Z.
Proof.
  unfold date_lt.
  rewrite !orb_true_iff, !andb_true_iff, !orb_true_iff, !andb_true_iff,
    !Z.ltb_lt, !Z.eqb_eq.
  reflexivity.
Qed.

Lemma date_lt_false a b : date_lt b a = false <-> date_le a b.
Proof.
  rewrite <- not_true_iff_false, date_lt_spec. unfold date_le. lia.
Qed.

Lemma date_lt_asym a b : date_lt a b = true -> date_lt b a = false.
Proof. rewrite <- not_true_iff_false, !date_lt_spec. lia. Qed.

Lemma date_lt_incomparable a b c :
  date_lt a b = false -> date_lt b c = false -> date_lt a c = false.
Proof. rewrite <- !not_true_iff_false, !date_lt_spec. lia. Qed.

(** ** sorted *)

Section Sorted.

Context `{PyLib}.

Lemma sort_lambda_kind k i1 i2 k1 k2 :
  sort_lambda k i1 = Some k1 -> sort_lambda k i2 = Some k2 ->
  kind k1 = kind k2.
Proof.
  unfold sort_lambda. intros H1 H2.
  repeat case_match; simplify_option_eq; reflexivity.
Qed.

Lemma float_lt_asym x y : float_lt x y = true -> float_lt y x = false.
Proof.
  intros Hxy. destruct (float_lt y x) eqn:Hyx; [|reflexivity].
  rewrite <- (float_lt_irrefl x). symmetry.
  eapply float_lt_trans; eauto.
Qed.

Lemma key_lt_asym a b : key_lt a b = true -> key_lt b a = false.
Proof.
  destruct a, b; simpl; try reflexivity.
  - apply string_lt_asym.
  - rewrite Fraction_lt_true, negb_false_iff, Qle_bool_iff.
    apply Qlt_le_weak.
  - apply float_lt_asym.
  - lia.
  - apply date_lt_asym.
Qed.

Lemma key_lt_incomparable a b c :
  kind a = kind b -> kind b = kind c -> ordered_key b ->
  key_lt a b = false -> key_lt b c = false -> key_lt a c = false.
Proof.
  destruct a, b; simpl; try discriminate; intros _;
    destruct c; simpl; try discriminate; intros _ Hb.
  - apply string_lt_incomparable.
  - rewrite !negb_false_iff, !Qle_bool_iff. intros Hba Hcb.
    exact (Qle_trans _ _ _ Hcb Hba).
  - apply float_lt_incomparable, Hb.
  - lia.
  - apply date_lt_incomparable.
Qed.

(** Only the fields sorted as floats can have a NaN for a key. *)
Lemma no_nan_key_other k item :
  k <> "FNumber" -> k <> "FocalLength" -> no_nan_key k item.
Proof.
  intros H1 H2 key. unfold sort_lambda.
  destruct (String.eqb_spec k "FNumber"); [contradiction|].
  destruct (String.eqb_spec k "FocalLength"); [contradiction|]. simpl.
  repeat case_match; intros Hkey; simplify_option_eq; exact I.
Qed.

Lemma no_nan_key_float k item :
  k = "FNumber" \/ k = "FocalLength" ->
  no_nan (fst item) -> no_nan_key k item.
Proof.
  intros Hk Hno key.
  assert (sort_lambda k = fun item => K_float <$> float_of_str (fst item)) as ->
    by (destruct Hk as [-> | ->]; reflexivity).
  destruct (float_of_str (fst item)) as [x|] eqn:Hx; [|discriminate].
  intros [= <-]. exact (Hno x Hx).
Qed.

Lemma decorate_Ok k items : forall dec,
  decorate k items = Ok dec ->
  map snd dec = items /\ Forall (keyed k) dec.
Proof.
  induction items as [|item items IH]; simpl; intros dec E.
  - injection E as <-. split; [reflexivity|constructor].
  - destruct (sort_lambda k item) as [key|] eqn:Hkey; [|discriminate].
    destruct (decorate k items) as [rest|e]; [|discriminate].
    injection E as <-. destruct (IH rest eq_refl) as [Hm Hf].
    split; [simpl; f_equal; exact Hm|].
    constructor; [exact Hkey|exact Hf].
Qed.

Lemma decorate_Raise k items : forall e,
  decorate k items = Raise e ->
  exists item,
    e = ConversionError k (fst item)
    /\ item ∈ items /\ sort_lambda k item = None.
Proof.
  induction items as [|item items IH]; simpl; intros e E; [discriminate|].
  destruct (sort_lambda k item) as [key|] eqn:Hkey.
  - destruct (decorate k items) as [rest|e']; [discriminate|].
    injection E as <-. destruct (IH e' eq_refl) as (item' & -> & Hin & Hno).
    exists item'. split; [reflexivity|]. split; [right; exact Hin|exact Hno].
  - injection E as <-. exists item.
    split; [reflexivity|]. split; [left|exact Hkey].
Qed.

Lemma decorate_total k items :
  Forall (fun item => is_Some (sort_lambda k item)) items ->
  exists dec, decorate k items = Ok dec.
Proof.
  induction 1 as [|item items [key Hkey] _ [rest IH]]; simpl; [eauto|].
  rewrite Hkey, IH. simpl. eauto.
Qed.

Lemma decorate_fails k items item :
  item ∈ items -> sort_lambda k item = None ->
  exists e, decorate k items = Raise e.
Proof.
  intros Hin Hno. destruct (decorate k items) as [dec|e] eqn:E; [|eauto].
  apply decorate_Ok in E as [<- Hf]. exfalso.
  apply list_elem_of_fmap in Hin as (p & -> & Hp).
  rewrite Forall_forall in Hf. specialize (Hf p Hp). unfold keyed in Hf.
  congruence.
Qed.

Lemma sorted_Ok k items rows :
  sorted k items = Ok rows ->
  rows ≡ₚ items
  /\ Forall (fun item => is_Some (sort_lambda k item)) items
  /\ (Forall (no_nan_key k) items -> StronglySorted (in_order k) rows).
Proof.
  unfold sorted. destruct (decorate k items) as [dec|e] eqn:E; [|discriminate].
  simpl. intros [= <-]. apply decorate_Ok in E as [<- Hf].
  set (ltp := fun a b : sort_key * (string * nat) => key_lt (fst a) (fst b)).
  split; [|split].
  - apply Permutation_map, stable_sort_Permutation.
  - apply Forall_forall. intros item Hin.
    apply list_elem_of_fmap in Hin as (p & -> & Hp).
    pose proof (proj1 (Forall_forall _ _) Hf p Hp) as Hk.
    unfold keyed in Hk. rewrite Hk. eauto.
  - intros Hno.
    assert (Forall (fun p => keyed k p /\ ordered_key (fst p)) dec) as Hf2.
    { apply Forall_forall. intros p Hp.
      pose proof (proj1 (Forall_forall _ _) Hf p Hp) as Hk.
      split; [exact Hk|].
      apply (proj1 (Forall_forall _ _) Hno (snd p)); [|exact Hk].
      apply list_elem_of_fmap. eauto. }
    assert (StronglySorted (fun a b => ltp b a = false) (stable_sort ltp dec))
      as Hs.
    { apply (stable_sort_StronglySorted ltp
               (fun p => keyed k p /\ ordered_key (fst p))); [| |exact Hf2].
      - intros x y _ _. apply key_lt_asym.
      - intros x y z [Hx _] [Hy Hoy] [Hz _]. apply key_lt_incomparable.
        + exact (sort_lambda_kind _ _ _ _ _ Hx Hy).
        + exact (sort_lambda_kind _ _ _ _ _ Hy Hz).
        + exact Hoy. }
    assert (Forall (keyed k) (stable_sort ltp dec)) as Hf'
      by (rewrite stable_sort_Permutation; exact Hf).
    pose proof (StronglySorted_Forall _ _ _ Hf' Hs) as Hs'.
    clear -Hs'. induction Hs' as [|p l _ IH Hp]; simpl; [constructor|].
    constructor; [exact IH|].
    apply Forall_forall. intros b Hb.
    apply list_elem_of_fmap in Hb as (q & -> & Hq).
    destruct (proj1 (Forall_forall _ _) Hp q Hq) as (Kp & Kq & Hlt).
    exists (fst p), (fst q). auto.
Qed.

Lemma sorted_Raise k items e :
  sorted k items = Raise e ->
  exists item,
    e = ConversionError k (fst item)
    /\ item ∈ items /\ sort_lambda k item = None.
Proof.
  unfold sorted. destruct (decorate k items) as [dec|e'] eqn:E; [discriminate|].
  simpl. intros [= <-]. eapply decorate_Raise, E.
Qed.

End Sorted.

(** ** plot_statistic_dict *)

Lemma StronglySorted_weaken {A} (R1 R2 : relation A) l :
  (forall a b, R1 a b -> R2 a b) -> StronglySorted R1 l -> StronglySorted R2 l.
Proof.
  intros HR. induction 1 as [|x l _ IH Hx]; constructor; [exact IH|].
  eapply Forall_impl; [exact Hx|]. auto.
Qed.

Section Plot.

Context `{PyLib}.

Lemma exposure_labels_Ok keys : forall labels,
  exposure_labels keys = Ok labels -> Forall2 labelled keys labels.
Proof.
  induction keys as [|v keys IH]; simpl; intros labels E.
  - injection E as <-. constructor.
  - unfold exposure_label in E.
    destruct (Fraction v) as [q|] eqn:Hq; [|discriminate]. simpl in E.
    destruct (exposure_labels keys) as [ls|e]; [|discriminate].
    injection E as <-. constructor; [|apply IH; reflexivity].
    exists q. split; [exact Hq|]. split; [reflexivity|].
    split; [apply limit_denominator_reduced|].
    split; [apply limit_denominator_bound|apply limit_denominator_small].
Qed.

Lemma exposure_labels_total keys :
  Forall (fun v => is_Some (Fraction v)) keys ->
  exists labels, exposure_labels keys = Ok labels.
Proof.
  induction 1 as [|v keys [q Hq] _ [ls IH]]; simpl; [eauto|].
  unfold exposure_label. rewrite Hq. simpl. rewrite IH. simpl. eauto.
Qed.

Lemma sort_lambda_exposure item :
  is_Some (sort_lambda "ExposureTime" item) -> is_Some (Fraction (fst item)).
Proof.
  unfold sort_lambda. simpl. destruct (Fraction (fst item)); [eauto|].
  intros [? [=]].
Qed.

(** The three ways a turn of the loop can go. *)
Lemma plot_field_empty (t : table) k :
  PyDict.get k t = Some (PyDict.empty : dict nat) ->
  plot_field t k = ([], Some UnpackError).
Proof.
  intros Hd. unfold plot_field, getitem. rewrite Hd. reflexivity.
Qed.

Lemma plot_field_raises (t : table) k (d : dict nat) item :
  PyDict.get k t = Some d -> item ∈ d -> sort_lambda k item = None ->
  exists bad,
    plot_field t k = ([], Some (ConversionError k (fst bad)))
    /\ bad ∈ d /\ sort_lambda k bad = None.
Proof.
  intros Hd Hin Hno. unfold plot_field, getitem, sorted, PyDict.items.
  rewrite Hd.
  destruct (decorate_fails k d item Hin Hno) as [e E]. rewrite E. simpl.
  apply decorate_Raise in E as (bad & -> & Hbad & Hnone). eauto.
Qed.

Lemma plot_field_plots (t : table) k (d : dict nat) :
  PyDict.get k t = Some d -> d <> [] ->
  Forall (fun item => is_Some (sort_lambda k item)) d ->
  exists rows labels,
    sorted k d = Ok rows
    /\ plot_field t k = ([Header k; Figure labels (map snd rows)], None)
    /\ (k <> "ExposureTime" -> labels = map fst rows)
    /\ (k = "ExposureTime" -> Forall2 labelled (map fst rows) labels).
Proof.
  intros Hd Hne Hok. unfold plot_field, getitem, PyDict.items. rewrite Hd.
  destruct (decorate_total k d Hok) as [dec Hdec].
  assert (exists rows, sorted k d = Ok rows) as [rows Hrows]
    by (unfold sorted; rewrite Hdec; simpl; eauto).
  rewrite Hrows. destruct (sorted_Ok _ _ _ Hrows) as (Hp & _ & _).
  destruct rows as [|row rows].
  { apply Permutation_nil_l in Hp. congruence. }
  destruct (String.eqb_spec k "ExposureTime") as [->|Hk].
  - destruct (exposure_labels_total (map fst (row :: rows))) as [labels Hl].
    { apply Forall_forall. intros v Hv.
      apply list_elem_of_fmap in Hv as (item & -> & Hitem).
      apply sort_lambda_exposure.
      rewrite Hp in Hitem. exact (proj1 (Forall_forall _ _) Hok item Hitem). }
    rewrite Hl. exists (row :: rows), labels.
    split; [reflexivity|]. split; [reflexivity|].
    split; [congruence|]. intros _. apply exposure_labels_Ok, Hl.
  - exists (row :: rows), (map fst (row :: rows)).
    split; [reflexivity|]. split; [reflexivity|].
    split; [reflexivity|]. contradiction.
Qed.

Lemma plot_field_None (t : table) k out :
  plot_field t k = (out, None) ->
  exists d rows labels,
    PyDict.get k t = Some d
    /\ d <> []
    /\ sorted k d = Ok rows
    /\ out = [Header k; Figure labels (map snd rows)]
    /\ (k <> "ExposureTime" -> labels = map fst rows)
    /\ (k = "ExposureTime" -> Forall2 labelled (map fst rows) labels).
Proof.
  intros E. destruct (PyDict.get k t) as [d|] eqn:Hd.
  - destruct d as [|item d].
    { rewrite (plot_field_empty _ _ Hd) in E. discriminate. }
    destruct (decide (Forall (fun item => is_Some (sort_lambda k item))
                             (item :: d))) as [Hok|Hbad].
    + destruct (plot_field_plots t k _ Hd ltac:(discriminate) Hok)
        as (rows & labels & Hrows & Hplot & Hl & Hl').
      rewrite Hplot in E. injection E as <-.
      exists (item :: d), rows, labels. repeat split; auto.
    + apply not_Forall_Exists in Hbad; [|intros x; apply _].
      apply Exists_exists in Hbad as (bad & Hin & Hno).
      destruct (plot_field_raises t k _ bad Hd Hin) as (b & Hplot & _).
      { destruct (sort_lambda k bad) as [key|] eqn:Eb; [|reflexivity].
        exfalso. apply Hno. exists key. exact Eb. }
      rewrite Hplot in E. discriminate.
  - unfold plot_field, getitem in E. rewrite Hd in E. discriminate.
Qed.

(** A turn of the loop that raises has printed nothing, and raises for
    one of three reasons. *)
Lemma plot_field_Some (t : table) k out e :
  plot_field t k = (out, Some e) ->
  out = []
  /\ ((e = KeyError k /\ PyDict.get k t = None)
      \/ (e = UnpackError /\ PyDict.get k t = Some (PyDict.empty : dict nat))
      \/ (exists (d : dict nat) bad,
            e = ConversionError k (fst bad)
            /\ PyDict.get k t = Some d /\ bad ∈ d
            /\ sort_lambda k bad = None)).
Proof.
  intros E. destruct (PyDict.get k t) as [d|] eqn:Hd.
  - destruct d as [|item d].
    { rewrite (plot_field_empty _ _ Hd) in E. injection E as <- <-. auto. }
    destruct (decide (Forall (fun item => is_Some (sort_lambda k item))
                             (item :: d))) as [Hok|Hbad].
    + destruct (plot_field_plots t k _ Hd ltac:(discriminate) Hok)
        as (rows & labels & _ & Hplot & _).
      rewrite Hplot in E. discriminate.
    + apply not_Forall_Exists in Hbad; [|intros x; apply _].
      apply Exists_exists in Hbad as (bad & Hin & Hno).
      destruct (plot_field_raises t k _ bad Hd Hin)
        as (b & Hplot & Hb & Hnone).
      { destruct (sort_lambda k bad) as [key|] eqn:Eb; [|reflexivity].
        exfalso. apply Hno. exists key. exact Eb. }
      rewrite Hplot in E. injection E as <- <-.
      split; [reflexivity|]. right. right. exists (item :: d), b. auto.
  - unfold plot_field, getitem in E. rewrite Hd in E.
    injection E as <- <-. auto.
Qed.

End Plot.

(** ** The order of the rows *)

Section Order.

Context `{PyLib}.

Lemma in_order_date a b : in_order "DateTimeOriginal" a b -> by_date a b.
Proof.
  intros (ka & kb & Ha & Hb & Hlt). unfold sort_lambda in Ha, Hb.
  simpl in Ha, Hb. unfold by_date.
  destruct (date_fromisoformat (fst a)) as [da|]; [|discriminate].
  destruct (date_fromisoformat (fst b)) as [db|]; [|discriminate].
  simpl in Ha, Hb. injection Ha as <-. injection Hb as <-.
  exists da, db. split; [reflexivity|]. split; [reflexivity|].
  apply date_lt_false, Hlt.
Qed.

Lemma in_order_float k a b :
  k = "FNumber" \/ k = "FocalLength" ->
  no_nan (fst a) -> no_nan (fst b) -> in_order k a b -> by_float a b.
Proof.
  intros Hk Hna Hnb (ka & kb & Ha & Hb & Hlt).
  assert (sort_lambda k = fun item => K_float <$> float_of_str (fst item)) as E
    by (destruct Hk as [-> | ->]; reflexivity).
  rewrite E in Ha, Hb. unfold by_float.
  destruct (float_of_str (fst a)) as [xa|] eqn:Ea; [|discriminate].
  destruct (float_of_str (fst b)) as [xb|] eqn:Eb; [|discriminate].
  simpl in Ha, Hb. injection Ha as <-. injection Hb as <-.
  exists xa, xb. split; [reflexivity|]. split; [reflexivity|].
  split; [exact (Hna xa Ea)|]. split; [exact (Hnb xb Eb)|exact Hlt].
Qed.

Lemma in_order_int a b : in_order "ISOSpeedRatings" a b -> by_int a b.
Proof.
  intros (ka & kb & Ha & Hb & Hlt). unfold sort_lambda in Ha, Hb.
  simpl in Ha, Hb. unfold by_int.
  destruct (int_of_str (fst a)) as [na|]; [|discriminate].
  destruct (int_of_str (fst b)) as [nb|]; [|discriminate].
  simpl in Ha, Hb. injection Ha as <-. injection Hb as <-.
  exists na, nb. split; [reflexivity|]. split; [reflexivity|].
  simpl in Hlt. lia.
Qed.

Lemma in_order_Fraction a b : in_order "ExposureTime" a b -> by_Fraction a b.
Proof.
  intros (ka & kb & Ha & Hb & Hlt). unfold sort_lambda in Ha, Hb.
  simpl in Ha, Hb. unfold by_Fraction.
  destruct (Fraction (fst a)) as [qa|]; [|discriminate].
  destruct (Fraction (fst b)) as [qb|]; [|discriminate].
  simpl in Ha, Hb. injection Ha as <-. injection Hb as <-.
  exists qa, qb. split; [reflexivity|]. split; [reflexivity|].
  apply Fraction_lt_false, Hlt.
Qed.

Lemma in_order_str k a b :
  k = "Model" \/ k = "LensModel" -> in_order k a b -> by_str a b.
Proof.
  intros Hk (ka & kb & Ha & Hb & Hlt).
  assert (sort_lambda k = fun item => Some (K_str (fst item))) as E
    by (destruct Hk as [-> | ->]; reflexivity).
  rewrite E in Ha, Hb. injection Ha as <-. injection Hb as <-.
  apply string_lt_false, Hlt.
Qed.

(** The rows of a field whose keys are no NaN are in the order of their
    keys. *)
Lemma sorted_in_order k items rows :
  sorted k items = Ok rows -> Forall (no_nan_key k) items ->
  StronglySorted (in_order k) rows.
Proof. intros E Hno. exact (proj2 (proj2 (sorted_Ok _ _ _ E)) Hno). Qed.

Lemma sorted_in_order_other k items rows :
  k <> "FNumber" -> k <> "FocalLength" ->
  sorted k items = Ok rows -> StronglySorted (in_order k) rows.
Proof.
  intros H1 H2 E. apply (sorted_in_order _ _ _ E).
  apply Forall_forall. intros item _. apply no_nan_key_other; assumption.
Qed.

Lemma sorted_by_float k items rows :
  k = "FNumber" \/ k = "FocalLength" ->
  sorted k items = Ok rows ->
  Forall (fun item => no_nan (fst item)) items ->
  StronglySorted by_float rows.
Proof.
  intros Hk E Hno. destruct (sorted_Ok _ _ _ E) as (Hp & _ & Hs).
  assert (Forall (fun item => no_nan (fst item)) rows) as Hno'
    by (rewrite Hp; exact Hno).
  assert (StronglySorted (in_order k) rows) as Hs'.
  { apply Hs. eapply Forall_impl; [exact Hno|].
    intros item. apply no_nan_key_float, Hk. }
  pose proof (StronglySorted_Forall _ _ _ Hno' Hs') as Hs2.
  eapply StronglySorted_weaken; [|exact Hs2].
  intros a b (Ha & Hb & Hab). exact (in_order_float k a b Hk Ha Hb Hab).
Qed.

(** What a turn of the loop that ends normally has printed. *)
Lemma plot_field_figure (t : table) k out :
  plot_field t k = (out, None) ->
  exists fig rows, out = chart k fig /\ figure_of t k fig rows.
Proof.
  intros E.
  destruct (plot_field_None t k out E)
    as (d & rows & labels & Hd & _ & Hrows & -> & Hl & Hl').
  destruct (sorted_Ok _ _ _ Hrows) as (Hp & _ & _).
  exists (labels, map snd rows), rows. split; [reflexivity|].
  exists d. unfold PyDict.items. simpl. auto 7.
Qed.

(** What [plot_statistic_dict] prints: the blocks of the fields it meets
    before the one that raises, if any, each with the figure of its
    field. *)
Lemma plot_loop_figures (t : table) ks :
  exists pre post figs,
    ks = pre ++ post
    /\ Forall2 (fun k fig => exists rows, figure_of t k fig rows) pre figs
    /\ fst (plot_loop t ks) = charts pre figs
    /\ (snd (plot_loop t ks) = None -> post = []).
Proof.
  induction ks as [|k ks (pre & post & figs & -> & Hfigs & Hout & Hend)].
  - exists [], [], []. simpl. split; [reflexivity|]. split; [constructor|].
    auto.
  - simpl. destruct (plot_field t k) as [out [e|]] eqn:Hplot.
    + destruct (plot_field_Some t k out e Hplot) as [-> _].
      exists [], (k :: pre ++ post), []. simpl.
      split; [reflexivity|]. split; [constructor|].
      split; [reflexivity|discriminate].
    + destruct (plot_field_figure t k out Hplot) as (fig & rows & -> & Hfig).
      destruct (plot_loop t (pre ++ post)) as [out' r]. simpl in Hout, Hend.
      exists (k :: pre), post, (fig :: figs). simpl.
      split; [reflexivity|]. split; [constructor; eauto|].
      split; [rewrite Hout; reflexivity|exact Hend].
Qed.

(** The fields that can be plotted are plotted, and the loop goes on. *)
Lemma plot_loop_app (t : table) pre :
  Forall (plottable t) pre ->
  exists figs,
    length figs = length pre
    /\ forall ks,
         plot_loop t (pre ++ ks)
         = (charts pre figs ++ fst (plot_loop t ks), snd (plot_loop t ks)).
Proof.
  induction 1 as [|k pre (d & Hd & Hne & Hok) _ (figs & Hlen & IH)].
  - exists []. split; [reflexivity|]. intros ks. simpl.
    destruct (plot_loop t ks). reflexivity.
  - destruct (plot_field_plots t k d Hd Hne Hok)
      as (rows & labels & _ & Hplot & _).
    exists ((labels, map snd rows) :: figs). split; [simpl; lia|].
    intros ks. simpl. rewrite Hplot, IH. reflexivity.
Qed.

(** C6, as the code has it.  Every block [plot_statistic_dict] prints
    shows the entries of its field, each label with its count, and the
    blocks are those of the fields of the table in their order, up to the
    field that raises, if one does.  The rows of a block are in the order
    of the field: dates by the calendar, [ISOSpeedRatings] by their value
    as integers, [Model] and [LensModel] as strings, and [FNumber] and
    [FocalLength] by their value as floats when none of the values of the
    field reads as a NaN. *)
Theorem fields_are_plotted_in_order (t : table) :
  exists pre post figs,
    PyDict.keys t = pre ++ post
    /\ (snd (plot_statistic_dict t) = None -> post = [])
    /\ fst (plot_statistic_dict t) = charts pre figs
    /\ Forall2
         (fun k fig =>
            exists (d : dict nat) rows,
              PyDict.get k t = Some d
              /\ rows ≡ₚ PyDict.items d
              /\ snd fig = map snd rows
              /\ (k <> "ExposureTime" -> fst fig = map fst rows)
              /\ (k = "DateTimeOriginal" -> StronglySorted by_date rows)
              /\ (k = "FNumber" \/ k = "FocalLength" ->
                  Forall (fun item => no_nan (fst item)) d ->
                  StronglySorted by_float rows)
              /\ (k = "ISOSpeedRatings" -> StronglySorted by_int rows)
              /\ (k = "Model" \/ k = "LensModel" ->
                  StronglySorted by_str rows))
         pre figs.
Proof.
  unfold plot_statistic_dict.
  destruct (plot_loop_figures t (PyDict.keys t))
    as (pre & post & figs & Hkeys & Hfigs & Hout & Hend).
  exists pre, post, figs. split; [exact Hkeys|]. split; [exact Hend|].
  split; [exact Hout|].
  eapply Forall2_impl; [exact Hfigs|].
  intros k fig (rows & d & Hd & Hrows & Hp & Hv & Hl & _).
  unfold PyDict.items in *.
  exists d, rows. split; [exact Hd|]. split; [exact Hp|].
  split; [exact Hv|]. split; [exact Hl|].
  split; [|split; [|split]].
  - intros ->. eapply StronglySorted_weaken; [apply in_order_date|].
    apply (sorted_in_order_other _ d rows); [discriminate|discriminate|].
    exact Hrows.
  - intros Hk Hno. exact (sorted_by_float k d rows Hk Hrows Hno).
  - intros ->. eapply StronglySorted_weaken; [apply in_order_int|].
    apply (sorted_in_order_other _ d rows); [discriminate|discriminate|].
    exact Hrows.
  - intros Hk. eapply StronglySorted_weaken;
      [intros a b; exact (in_order_str k a b Hk)|].
    apply (sorted_in_order_other k d rows); [| |exact Hrows];
      destruct Hk as [-> | ->]; discriminate.
Qed.

(** C4. The block [plot_statistic_dict] prints for [ExposureTime] shows
    the entries in ascending order of the fractions their values name,
    under labels that are these fractions in lowest terms with a
    denominator of at most 1000000.  With the values [1/200], [1/60] and
    [1/1000] the block has the rows [1/1000], [1/200], [1/60]. *)
Theorem exposure_times_are_plotted_by_value :
  (forall t : table,
      exists pre post figs,
        PyDict.keys t = pre ++ post
        /\ (snd (plot_statistic_dict t) = None -> post = [])
        /\ fst (plot_statistic_dict t) = charts pre figs
        /\ Forall2
             (fun k fig =>
                k = "ExposureTime" ->
                exists (d : dict nat) rows,
                  PyDict.get k t = Some d
                  /\ rows ≡ₚ PyDict.items d
                  /\ snd fig = map snd rows
                  /\ StronglySorted by_Fraction rows
                  /\ Forall2 labelled (map fst rows) (fst fig))
             pre figs)
  /\ (forall (t : table) pre post a b c,
         Fraction "1/200" = Some (1 # 200)%Q ->
         Fraction "1/60" = Some (1 # 60)%Q ->
         Fraction "1/1000" = Some (1 # 1000)%Q ->
         PyDict.keys t = pre ++ "ExposureTime" :: post ->
         Forall (plottable t) pre ->
         PyDict.get "ExposureTime" t
         = Some [("1/200", a); ("1/60", b); ("1/1000", c)] ->
         exists figs rest,
           length figs = length pre
           /\ fst (plot_statistic_dict t)
              = charts pre figs
                ++ [Header "ExposureTime";
                    Figure ["1/1000"; "1/200"; "1/60"] [c; a; b]]
                ++ rest).
Proof.
  split.
  - intros t. unfold plot_statistic_dict.
    destruct (plot_loop_figures t (PyDict.keys t))
      as (pre & post & figs & Hkeys & Hfigs & Hout & Hend).
    exists pre, post, figs. split; [exact Hkeys|]. split; [exact Hend|].
    split; [exact Hout|].
    eapply Forall2_impl; [exact Hfigs|].
    intros k fig (rows & d & Hd & Hrows & Hp & Hv & _ & Hl) ->.
    unfold PyDict.items in *.
    exists d, rows. split; [exact Hd|]. split; [exact Hp|].
    split; [exact Hv|]. split; [|apply Hl; reflexivity].
    eapply StronglySorted_weaken; [apply in_order_Fraction|].
    apply (sorted_in_order_other _ d rows); [discriminate|discriminate|].
    exact Hrows.
  - intros t pre post a b c H200 H60 H1000 Hkeys Hpre Hd.
    destruct (plot_loop_app t pre Hpre) as (figs & Hlen & Happ).
    exists figs, (fst (plot_loop t post)). split; [exact Hlen|].
    unfold plot_statistic_dict. rewrite Hkeys, Happ. simpl. f_equal.
    assert (plot_field t "ExposureTime"
            = ([Header "ExposureTime";
                Figure ["1/1000"; "1/200"; "1/60"] [c; a; b]], None)) as ->.
    { unfold plot_field, getitem. rewrite Hd.
      unfold sorted, PyDict.items, decorate, sort_lambda. simpl.
      rewrite H200, H60, H1000. simpl.
      unfold exposure_label. rewrite H200, H60, H1000. simpl.
      rewrite !limit_denominator_small by (vm_compute; discriminate).
      reflexivity. }
    destruct (plot_loop t post). reflexivity.
Qed.

End Order.

(** ** The loop over the fields *)

Lemma wait_files_notices files : forall done out r,
  wait_files files done = (out, r) -> Forall (fun ev => ev = TLE) out.
Proof.
  induction files as [|[img wt] files IH]; simpl; intros done out r E.
  - injection E as <- _. constructor.
  - destruct wt.
    + destruct (raised_by img); [injection E as <- _; constructor|eauto].
    + destruct (wait_files files done) as [out' r'] eqn:E'.
      injection E as <- _. constructor; [reflexivity|eauto].
    + injection E as <- _. constructor.
Qed.

Section Loop.

Context `{PyLib}.

Lemma plot_loop_plots (t : table) ks :
  Forall (plottable t) ks ->
  exists figs,
    length figs = length ks /\ plot_loop t ks = (charts ks figs, None).
Proof.
  induction 1 as [|k ks (d & Hd & Hne & Hok) _ (figs & Hlen & IH)].
  - exists []. split; reflexivity.
  - destruct (plot_field_plots t k d Hd Hne Hok)
      as (rows & labels & _ & Hplot & _).
    exists ((labels, map snd rows) :: figs). split; [simpl; lia|].
    simpl. rewrite Hplot, IH. reflexivity.
Qed.

Lemma plot_loop_raises (t : table) pre k post e :
  Forall (plottable t) pre ->
  plot_field t k = ([], Some e) ->
  exists figs,
    length figs = length pre
    /\ plot_loop t (pre ++ k :: post) = (charts pre figs, Some e).
Proof.
  intros Hpre Hk.
  induction Hpre as [|k0 pre (d & Hd & Hne & Hok) _ (figs & Hlen & IH)].
  - exists []. split; [reflexivity|]. simpl. rewrite Hk. reflexivity.
  - destruct (plot_field_plots t k0 d Hd Hne Hok)
      as (rows & labels & _ & Hplot & _).
    exists ((labels, map snd rows) :: figs). split; [simpl; lia|].
    simpl. rewrite Hplot, IH. reflexivity.
Qed.

Lemma charts_headers pre figs k :
  Header k ∈ charts pre figs -> k ∈ pre.
Proof.
  revert figs. induction pre as [|k0 pre IH]; intros [|fig figs]; simpl;
    try (intros []%elem_of_nil).
  intros [[= ->]|[[=]|Hin]%elem_of_cons]%elem_of_cons; [left|].
  right. eauto.
Qed.

(** C7, as the code has it.  When the table that [get_statistic_dict]
    returns has no entry for [DateTimeOriginal], [cli] plots nothing: its
    output holds the timeout notices alone.  When the field has an entry
    [cli] calls [plot_statistic_dict], and the call draws the figure of
    every field of [STATISTIC_KEYS], in that order, when every field has
    an entry and every value converts. *)
Theorem rendering_is_gated_on_dates (sched : list nat) (files : list file)
    (out0 : list event) (t : table) :
  get_statistic_dict sched files = (out0, Returns t) ->
  exists d : dict nat,
    PyDict.get "DateTimeOriginal" t = Some d
    /\ (d = [] ->
        cli sched files = (out0, None) /\ Forall (fun ev => ev = TLE) out0)
    /\ (d <> [] ->
        cli sched files
        = (out0 ++ fst (plot_statistic_dict t), snd (plot_statistic_dict t)))
    /\ (d <> [] -> Forall (plottable t) STATISTIC_KEYS ->
        exists figs,
          length figs = length STATISTIC_KEYS
          /\ cli sched files = (out0 ++ charts STATISTIC_KEYS figs, None)).
Proof.
  intros E.
  destruct (get_statistic_dict_spec sched files) as (t0 & E0 & Hk & _).
  rewrite E0 in E. pose proof (wait_files_notices _ _ _ _ E) as Hout.
  pose proof (wait_files_Returns _ _ _ _ E) as [= ->].
  rewrite <- E0 in E.
  assert ("DateTimeOriginal" ∈ PyDict.keys t) as Hin
    by (rewrite Hk; unfold STATISTIC_KEYS; left).
  destruct (elem_keys_get _ _ Hin) as [d Hd].
  exists d. split; [exact Hd|].
  assert (forall d', d = d' ->
            cli sched files
            = if (0 <? PyDict.len d')%nat
              then (out0 ++ fst (plot_statistic_dict t),
                    snd (plot_statistic_dict t))
              else (out0, None)) as Hcli.
  { intros d' <-. unfold cli. rewrite E. unfold getitem. rewrite Hd.
    destruct (plot_statistic_dict t). reflexivity. }
  split; [|split].
  - intros ->. split; [apply (Hcli [] eq_refl)|exact Hout].
  - intros Hne. rewrite (Hcli d eq_refl).
    destruct d; [contradiction|reflexivity].
  - intros Hne Hall. destruct (plot_loop_plots t _ Hall) as (figs & Hlen & Hp).
    exists figs. split; [exact Hlen|].
    rewrite (Hcli d eq_refl). destruct d; [contradiction|]. simpl.
    unfold plot_statistic_dict. rewrite Hk, Hp. reflexivity.
Qed.

End Loop.

(** ** The fields of a returned table *)

Lemma upto_app k pre post :
  k ∉ pre -> upto k (pre ++ k :: post) = Some (pre ++ [k]).
Proof.
  induction pre as [|k0 pre IH]; simpl; intros Hnin.
  - rewrite String.eqb_refl. reflexivity.
  - apply not_elem_of_cons in Hnin as [Hne Hnin].
    destruct (String.eqb_spec k k0); [contradiction|].
    rewrite (IH Hnin). reflexivity.
Qed.

Section Filled.

Context `{PyLib}.

(** A file processed for a field is processed for every field listed
    before it. *)
Lemma processed_for_before pre k2 post k1 img :
  STATISTIC_KEYS = pre ++ k2 :: post -> k1 ∈ pre ->
  processed_for k2 img = true -> processed_for k1 img = true.
Proof.
  intros Hkeys Hin. pose proof STATISTIC_KEYS_NoDup as Hnd.
  unfold processed_for. rewrite Hkeys in *.
  destruct img as [e| |exif]; try discriminate.
  apply NoDup_app in Hnd as (Hpre & Hdisj & _).
  rewrite upto_app by (intros Hk; apply (Hdisj k2 Hk); left).
  apply list_elem_of_split_l in Hin as (p1 & p2 & -> & Hnin).
  rewrite <- !app_assoc. simpl.
  rewrite (upto_app k1 p1 _ Hnin).
  rewrite !forallb_app. simpl.
  intros [Hp1 [Hk1 _]%andb_true_iff]%andb_true_iff.
  rewrite Hp1, Hk1. reflexivity.
Qed.

Lemma nonempty_total (t : table) k (d : dict nat) :
  (forall v n, lookup2 k v t = Some n -> 1 <= n) ->
  PyDict.get k t = Some d ->
  d <> [] <-> 0 < total k t.
Proof.
  intros Hpos Hd. unfold total. rewrite Hd. split.
  - destruct d as [|[v n] d]; [contradiction|]. intros _.
    assert (lookup2 k v t = Some n) as Hl.
    { unfold lookup2. rewrite Hd. simpl. rewrite String.eqb_refl. reflexivity. }
    apply Hpos in Hl. unfold PyDict.values. simpl. lia.
  - intros Hs ->. simpl in Hs. lia.
Qed.

(** In a table that [get_statistic_dict] returns, a field with an entry
    comes after fields with entries only. *)
Lemma returned_table_filled sched files out (t : table) pre k2 post k1
    (d2 : dict nat) :
  get_statistic_dict sched files = (out, Returns t) ->
  STATISTIC_KEYS = pre ++ k2 :: post -> k1 ∈ pre ->
  PyDict.get k2 t = Some d2 -> d2 <> [] ->
  exists d1 : dict nat, PyDict.get k1 t = Some d1 /\ d1 <> [].
Proof.
  intros E Hkeys Hin Hd2 Hne2.
  destruct (get_statistic_dict_spec sched files)
    as (t0 & E0 & Hk & Hpos & _ & Ht).
  rewrite E0 in E. apply wait_files_Returns in E as [= ->].
  assert (k1 ∈ PyDict.keys t) as Hin1.
  { rewrite Hk, Hkeys. apply elem_of_app. left. exact Hin. }
  destruct (elem_keys_get _ _ Hin1) as [d1 Hd1].
  exists d1. split; [exact Hd1|].
  apply (nonempty_total t k1 d1 (Hpos k1) Hd1).
  apply (nonempty_total t k2 d2 (Hpos k2) Hd2) in Hne2.
  rewrite Ht in *.
  destruct (filter (fun img => processed_for k2 img = true) (map content files))
    as [|img l] eqn:Hf; [simpl in Hne2; lia|].
  assert (img ∈ filter (fun img => processed_for k2 img = true)
                       (map content files)) as Himg
    by (rewrite Hf; left).
  apply list_elem_of_filter in Himg as [Hp2 Himg].
  assert (img ∈ filter (fun img => processed_for k1 img = true)
                       (map content files)) as Himg1.
  { apply list_elem_of_filter. split; [|exact Himg].
    eapply processed_for_before; eauto. }
  destruct (filter (fun img => processed_for k1 img = true) (map content files));
    [apply elem_of_nil in Himg1; contradiction|simpl; lia].
Qed.

Lemma unconvertible_dec (t : table) k :
  unconvertible t k
  \/ forall d : dict nat,
       PyDict.get k t = Some d ->
       Forall (fun item => is_Some (sort_lambda k item)) d.
Proof.
  unfold unconvertible. destruct (PyDict.get k t) as [d|]; [|right; discriminate].
  destruct (decide (Forall (fun item => is_Some (sort_lambda k item)) d))
    as [Hok|Hbad].
  - right. intros d' [= <-]. exact Hok.
  - left. apply not_Forall_Exists in Hbad; [|intros x; apply _].
    apply Exists_exists in Hbad as (bad & Hin & Hno).
    exists d, bad. split; [reflexivity|]. split; [exact Hin|].
    destruct (sort_lambda k bad) as [key|] eqn:Eb; [|reflexivity].
    exfalso. apply Hno. exists key. exact Eb.
Qed.

Lemma first_unconvertible (t : table) ks k :
  k ∈ ks -> unconvertible t k ->
  exists pre k' post,
    ks = pre ++ k' :: post
    /\ k ∈ k' :: post
    /\ unconvertible t k'
    /\ Forall (fun k0 => forall d : dict nat,
                 PyDict.get k0 t = Some d ->
                 Forall (fun item => is_Some (sort_lambda k0 item)) d) pre.
Proof.
  induction ks as [|k0 ks IH]; [intros []%elem_of_nil|].
  intros Hin Hbad.
  destruct (unconvertible_dec t k0) as [Hbad0|Hok0].
  - exists [], k0, ks. split; [reflexivity|]. split; [exact Hin|].
    split; [exact Hbad0|constructor].
  - apply elem_of_cons in Hin as [->|Hin].
    + exfalso. destruct Hbad as (d & item & Hd & Hitem & Hno).
      pose proof (proj1 (Forall_forall _ _) (Hok0 d Hd) item Hitem) as [? Hs].
      congruence.
    + destruct (IH Hin Hbad) as (pre & k' & post & -> & Hk & Hbad' & Hpre).
      exists (k0 :: pre), k', post. split; [reflexivity|].
      split; [exact Hk|]. split; [exact Hbad'|]. constructor; assumption.
Qed.

(** C10. When a value of the table that [get_statistic_dict] returned
    does not convert to the key of its field, [plot_statistic_dict] ends
    with the exception of a conversion: that of the first field, in the
    order of [STATISTIC_KEYS], that has such a value.  The figures of the
    fields before that one are drawn; neither its own figure nor the
    figure of any later field is, and among these is the field of the
    value.  Nothing skips the value or warns about it. *)
Theorem unconvertible_value_ends_the_plot (sched : list nat)
    (files : list file) (out0 : list event) (t : table) (k : string)
    (d : dict nat) (item : string * nat) :
  get_statistic_dict sched files = (out0, Returns t) ->
  PyDict.get k t = Some d -> item ∈ d -> sort_lambda k item = None ->
  exists pre k' post figs bad,
    STATISTIC_KEYS = pre ++ k' :: post
    /\ k ∈ k' :: post
    /\ length figs = length pre
    /\ plot_statistic_dict t
       = (charts pre figs, Some (ConversionError k' (fst bad)))
    /\ (exists d' : dict nat,
          PyDict.get k' t = Some d' /\ bad ∈ d' /\ sort_lambda k' bad = None)
    /\ (forall k'', k'' ∈ k' :: post -> Header k'' ∉ charts pre figs).
Proof.
  intros E Hd Hitem Hno.
  destruct (get_statistic_dict_spec sched files) as (t0 & E0 & Hkeys & _).
  pose proof E as E'. rewrite E0 in E'.
  apply wait_files_Returns in E' as [= ->].
  assert (k ∈ STATISTIC_KEYS) as Hk.
  { rewrite <- Hkeys. destruct (decide (k ∈ PyDict.keys t)) as [|Hnin]; [done|].
    apply get_None_keys in Hnin. congruence. }
  destruct (first_unconvertible t STATISTIC_KEYS k Hk)
    as (pre & k' & post & Hsplit & Hin & (d' & bad0 & Hd' & Hbad0 & Hno0) & Hpre).
  { exists d, item. auto. }
  destruct (plot_field_raises t k' d' bad0 Hd' Hbad0 Hno0)
    as (bad & Hplot & Hbad & Hnone).
  assert (Forall (plottable t) pre) as Hplottable.
  { apply Forall_forall. intros k1 Hk1.
    destruct (returned_table_filled sched files out0 t pre k' post k1 d'
                E Hsplit Hk1 Hd') as (d1 & Hd1 & Hne1).
    { intros ->. apply elem_of_nil in Hbad0. exact Hbad0. }
    exists d1. split; [exact Hd1|]. split; [exact Hne1|].
    exact (proj1 (Forall_forall _ _) Hpre k1 Hk1 d1 Hd1). }
  destruct (plot_loop_raises t pre k' post _ Hplottable Hplot)
    as (figs & Hlen & Hloop).
  exists pre, k', post, figs, bad.
  split; [exact Hsplit|]. split; [exact Hin|]. split; [exact Hlen|].
  split; [|split].
  - unfold plot_statistic_dict. rewrite Hkeys, Hsplit. exact Hloop.
  - exists d'. auto.
  - intros k'' Hk'' Hh. apply charts_headers in Hh.
    pose proof STATISTIC_KEYS_NoDup as Hnd. rewrite Hsplit in Hnd.
    apply NoDup_app in Hnd as (_ & Hdisj & _).
    exact (Hdisj k'' Hh Hk'').
Qed.

End Filled.

(** ** The renderer on sample tables *)

Section SamplePlots.

#[local] Existing Instance plain.

Lemma fields_are_plotted_in_order_witness :
  plot_statistic_dict SampleTable.iso
  = ([Header "ISOSpeedRatings"; Figure ["100"; "200"; "1600"] [2; 1; 1]], None)
  /\ exists pre post figs,
       PyDict.keys SampleTable.iso = pre ++ post
       /\ (snd (plot_statistic_dict SampleTable.iso) = None -> post = [])
       /\ fst (plot_statistic_dict SampleTable.iso) = charts pre figs.
Proof.
  split; [reflexivity|].
  destruct (fields_are_plotted_in_order SampleTable.iso)
    as (pre & post & figs & H1 & H2 & H3 & _).
  exists pre, post, figs. auto.
Defined.

(** A lens that reports no aperture: the value is counted as [nan], reads
    as a NaN, and [sorted] leaves 24.0 after 35.0. *)
Lemma nan_leaves_the_rows_unsorted :
  get_statistic_dict [] SampleFigures.apertures
  = ([], Returns SampleFigures.apertures_table)
  /\ cli [] SampleFigures.apertures
     = ([Header "DateTimeOriginal"; Figure ["2023-05-01"] [3];
         Header "Model"; Figure ["X100V"] [3];
         Header "LensModel"; Figure ["23mm F2"] [3];
         Header "FNumber"; Figure ["35.0"; "nan"; "24.0"] [1; 1; 1];
         Header "ExposureTime"; Figure ["1/200"] [3];
         Header "ISOSpeedRatings"; Figure ["100"] [3];
         Header "FocalLength"; Figure ["23.0"] [3]],
        None)
  /\ (exists x y,
        float_of_str "24.0" = Some x /\ float_of_str "35.0" = Some y
        /\ float_lt x y = true)
  /\ ~ StronglySorted by_float [("35.0", 1); ("nan", 1); ("24.0", 1)].
Proof.
  split; [vm_compute; reflexivity|]. split; [vm_compute; reflexivity|].
  split.
  - eexists. eexists. split; [reflexivity|]. split; reflexivity.
  - intros Hs. apply StronglySorted_inv in Hs as [_ Hall].
    apply Forall_cons in Hall as [_ Hall].
    apply Forall_cons in Hall as [(x & y & Hx & Hy & _ & _ & Hlt) _].
    simpl in Hx, Hy. vm_compute in Hx, Hy.
    injection Hx as <-. injection Hy as <-. vm_compute in Hlt. discriminate.
Qed.

Lemma exposure_times_are_plotted_by_value_witness :
  get_statistic_dict [] SampleFigures.exposures
  = ([], Returns SampleFigures.exposures_table)
  /\ Forall (plottable SampleFigures.exposures_table)
            ["DateTimeOriginal"; "Model"; "LensModel"; "FNumber"]
  /\ exists figs rest,
       length figs = 4
       /\ fst (plot_statistic_dict SampleFigures.exposures_table)
          = charts ["DateTimeOriginal"; "Model"; "LensModel"; "FNumber"] figs
            ++ [Header "ExposureTime";
                Figure ["1/1000"; "1/200"; "1/60"] [1; 1; 1]]
            ++ rest.
Proof.
  split; [vm_compute; reflexivity|].
  assert (Forall (plottable SampleFigures.exposures_table)
                 ["DateTimeOriginal"; "Model"; "LensModel"; "FNumber"])
    as Hpre.
  { repeat constructor.
    - exists [("2023-05-01", 3)].
      split; [reflexivity|]. split; [discriminate|].
      repeat constructor; eexists; reflexivity.
    - exists [("X100V", 3)].
      split; [reflexivity|]. split; [discriminate|].
      repeat constructor; eexists; reflexivity.
    - exists [("23mm F2", 3)].
      split; [reflexivity|]. split; [discriminate|].
      repeat constructor; eexists; reflexivity.
    - exists [("2.8", 3)].
      split; [reflexivity|]. split; [discriminate|].
      repeat constructor; eexists; reflexivity. }
  split; [exact Hpre|].
  exact (proj2 exposure_times_are_plotted_by_value
           SampleFigures.exposures_table
           ["DateTimeOriginal"; "Model"; "LensModel"; "FNumber"]
           ["ISOSpeedRatings"; "FocalLength"] 1 1 1
           eq_refl eq_refl eq_refl eq_refl Hpre eq_refl).
Defined.

Lemma rendering_is_gated_on_dates_witness :
  get_statistic_dict [] [File (Sample.complete "1/200" "100") Ready]
  = ([], Returns SampleTable.complete_table)
  /\ exists d : dict nat,
       PyDict.get "DateTimeOriginal" SampleTable.complete_table = Some d
       /\ (d <> [] ->
           cli [] [File (Sample.complete "1/200" "100") Ready]
           = ([] ++ fst (plot_statistic_dict SampleTable.complete_table),
              snd (plot_statistic_dict SampleTable.complete_table))).
Proof.
  assert (get_statistic_dict [] [File (Sample.complete "1/200" "100") Ready]
          = ([], Returns SampleTable.complete_table)) as E
    by (vm_compute; reflexivity).
  split; [exact E|].
  destruct (rendering_is_gated_on_dates _ _ _ _ E) as (d & Hd & _ & Hcli & _).
  exists d. split; [exact Hd|exact Hcli].
Defined.

(** A photograph with the seven fields whose sensitivity does not read as
    an integer: the date has an entry, and five figures are drawn, not
    seven. *)
Lemma rendering_counterexample :
  (exists t (d : dict nat),
      get_statistic_dict [] [File SampleTable.two_isos Ready] = ([], Returns t)
      /\ PyDict.get "DateTimeOriginal" t = Some d
      /\ PyDict.len d = 1)
  /\ cli [] [File SampleTable.two_isos Ready]
     = ([Header "DateTimeOriginal"; Figure ["2023-05-01"] [1];
         Header "Model"; Figure ["X100V"] [1];
         Header "LensModel"; Figure ["23mm F2"] [1];
         Header "FNumber"; Figure ["2.8"] [1];
         Header "ExposureTime"; Figure ["1/200"] [1]],
        Some (ConversionError "ISOSpeedRatings" "(100, 100)")).
Proof.
  split; [|vm_compute; reflexivity].
  eexists. eexists. split; [vm_compute; reflexivity|].
  split; reflexivity.
Qed.

Lemma unconvertible_value_ends_the_plot_witness :
  get_statistic_dict [] [File SampleTable.two_isos Ready]
  = ([], Returns SampleTable.two_isos_table)
  /\ PyDict.get "ISOSpeedRatings" SampleTable.two_isos_table
     = Some [("(100, 100)", 1)]
  /\ sort_lambda "ISOSpeedRatings" ("(100, 100)", 1) = None
  /\ exists pre k' post figs (bad : string * nat),
       STATISTIC_KEYS = pre ++ k' :: post
       /\ "ISOSpeedRatings" ∈ k' :: post
       /\ length figs = length pre
       /\ plot_statistic_dict SampleTable.two_isos_table
          = (charts pre figs, Some (ConversionError k' (fst bad))).
Proof.
  assert (get_statistic_dict [] [File SampleTable.two_isos Ready]
          = ([], Returns SampleTable.two_isos_table)) as E
    by (vm_compute; reflexivity).
  assert (PyDict.get "ISOSpeedRatings" SampleTable.two_isos_table
          = Some [("(100, 100)", 1)]) as Hd by reflexivity.
  assert (sort_lambda "ISOSpeedRatings" ("(100, 100)", 1) = None) as Hno
    by reflexivity.
  split; [exact E|]. split; [exact Hd|]. split; [exact Hno|].
  destruct (unconvertible_value_ends_the_plot _ _ _ _ _ _ ("(100, 100)", 1)
              E Hd ltac:(left) Hno)
    as (pre & k' & post & figs & bad & H1 & H2 & H3 & H4 & _).
  exists pre, k', post, figs, bad. auto.
Defined.

End SamplePlots.

(** * Further properties *)

(** ** The listing of the directory *)

Lemma startswith_spec prefix : forall s,
  startswith prefix s = true <-> exists b, s = (prefix ++ b)%string.
Proof.
  induction prefix as [|c prefix IH]; intros s; simpl.
  - split; [intros _; exists s; reflexivity | reflexivity].
  - destruct s as [|d s]; simpl.
    + split; [discriminate | intros [b [=]]].
    + rewrite andb_true_iff, IH. split.
      * intros [Hc [b ->]]. apply Ascii.eqb_eq in Hc as ->. eauto.
      * intros [b [= -> ->]]. split; [apply Ascii.eqb_refl | eauto].
Qed.

Lemma startswith_contains sub s :
  startswith sub s = true -> contains_str sub s = true.
Proof.
  destruct s as [|c s]; simpl; [auto|]. intros ->. reflexivity.
Qed.

Lemma contains_str_spec sub : forall s,
  contains_str sub s = true <-> exists a b, s = (a ++ sub ++ b)%string.
Proof.
  intros s. split.
  - induction s as [|c s IH]; simpl.
    + intros [b Hb]%startswith_spec. exists EmptyString, b. exact Hb.
    + intros [[b Hb]%startswith_spec | (a & b & ->)%IH]%orb_true_iff.
      * exists EmptyString, b. exact Hb.
      * exists (String c a), b. reflexivity.
  - intros (a & b & ->). induction a as [|c a IH]; simpl.
    + apply startswith_contains, startswith_spec. eauto.
    + rewrite IH. apply orb_true_r.
Qed.

Lemma filter_sublist {A} (f : A -> bool) (l : list A) :
  List.filter f l `sublist_of` l.
Proof.
  induction l as [|x l IH]; simpl; [constructor|].
  destruct (f x); [apply sublist_skip | apply sublist_cons]; exact IH.
Qed.

Section ListingFacts.

Variable lower : string -> string.

Lemma allowed_exts_spec img_exts ext :
  existsb (String.eqb ext) (allowed_exts lower img_exts) = true
  <-> exists e, e ∈ PyStr.split "," img_exts /\ ext = String "." (lower e).
Proof.
  unfold allowed_exts. rewrite existsb_exists. split.
  - intros (x & Hin & Heq). apply String.eqb_eq in Heq as <-.
    apply in_map_iff in Hin as (e & <- & He).
    exists e. split; [apply list_elem_of_In, He | reflexivity].
  - intros (e & He & ->). exists (String "." (lower e)).
    split; [|apply String.eqb_refl].
    apply in_map_iff. exists e. split; [reflexivity|].
    apply list_elem_of_In, He.
Qed.

Lemma list_files_elem (in_dir : directory) (recursive : bool)
    (img_exts dir_filter : string) (f : entry) :
  f ∈ list_files lower in_dir recursive img_exts dir_filter
  <-> f ∈ (if recursive then rglob in_dir else glob in_dir)
      /\ (exists e,
            e ∈ PyStr.split "," img_exts
            /\ lower (suffix f) = String "." (lower e))
      /\ (exists a b, parent f = (a ++ dir_filter ++ b)%string).
Proof.
  unfold list_files. rewrite !list_elem_of_In, !filter_In.
  rewrite allowed_exts_spec, contains_str_spec. tauto.
Qed.

(** X1. The files handed to the pool are the paths of the listing, in the
    order of the listing, whose suffix in lower case is a dot followed by
    one of the comma-separated extensions in lower case, and whose parent
    directory has [dir_filter] somewhere in its name. *)
Theorem list_files_spec (in_dir : directory) (recursive : bool)
    (img_exts dir_filter : string) :
  list_files lower in_dir recursive img_exts dir_filter
    `sublist_of` (if recursive then rglob in_dir else glob in_dir)
  /\ forall f,
       f ∈ list_files lower in_dir recursive img_exts dir_filter
       <-> f ∈ (if recursive then rglob in_dir else glob in_dir)
           /\ (exists e,
                 e ∈ PyStr.split "," img_exts
                 /\ lower (suffix f) = String "." (lower e))
           /\ (exists a b, parent f = (a ++ dir_filter ++ b)%string).
Proof.
  split; [|apply list_files_elem].
  unfold list_files. etransitivity; apply filter_sublist.
Qed.

(** X2. With the default options a path of the listing is handed to the
    pool exactly when its suffix in lower case is [.jpg], [.jpeg], [.png]
    or [.tiff]: the empty [dir_filter] lets every directory pass. *)
Theorem list_files_default (in_dir : directory) (recursive : bool) :
  Forall (fun e => lower e = e) ["jpg"; "jpeg"; "png"; "tiff"] ->
  forall f,
    f ∈ list_files lower in_dir recursive default_img_exts default_dir_filter
    <-> f ∈ (if recursive then rglob in_dir else glob in_dir)
        /\ lower (suffix f) ∈ [".jpg"; ".jpeg"; ".png"; ".tiff"].
Proof.
  intros Hlower f.
  rewrite list_files_elem.
  assert (PyStr.split "," default_img_exts = ["jpg"; "jpeg"; "png"; "tiff"])
    as -> by reflexivity.
  split.
  - intros (Hf & (e & He & Hs) & _). split; [exact Hf|]. rewrite Hs.
    rewrite (proj1 (Forall_forall _ _) Hlower e He).
    rewrite !elem_of_cons, elem_of_nil in He.
    destruct He as [->|[->|[->|[->|[]]]]];
      rewrite !elem_of_cons; auto 6.
  - intros (Hf & Hs). split; [exact Hf|]. split.
    + assert (exists e, e ∈ ["jpg"; "jpeg"; "png"; "tiff"]
                        /\ lower (suffix f) = String "." e)
        as (e & He & Hs').
      { rewrite !elem_of_cons, elem_of_nil in Hs.
        destruct Hs as [Hs|[Hs|[Hs|[Hs|[]]]]]; rewrite Hs;
          [exists "jpg"|exists "jpeg"|exists "png"|exists "tiff"];
          (split; [rewrite !elem_of_cons; auto 6 | reflexivity]). }
      exists e. split; [exact He|].
      rewrite (proj1 (Forall_forall _ _) Hlower e He). exact Hs'.
    + exists EmptyString, (parent f). reflexivity.
Qed.

(** X3. A path without suffix is never handed to the pool, whatever the
    extensions asked for: an allowed extension starts with a dot. *)
Theorem list_files_no_suffix (in_dir : directory) (recursive : bool)
    (img_exts dir_filter : string) (f : entry) :
  lower "" = "" -> suffix f = "" ->
  f ∉ list_files lower in_dir recursive img_exts dir_filter.
Proof.
  intros Hlower Hs Hin.
  apply list_files_elem in Hin as (_ & (e & _ & He) & _).
  rewrite Hs, Hlower in He. discriminate.
Qed.

End ListingFacts.

Lemma list_files_default_witness :
  Forall (fun e => PlainText.lower e = e) ["jpg"; "jpeg"; "png"; "tiff"]
  /\ forall f,
       f ∈ list_files PlainText.lower PlainText.photos true
             default_img_exts default_dir_filter
       <-> f ∈ rglob PlainText.photos
           /\ PlainText.lower (suffix f) ∈ [".jpg"; ".jpeg"; ".png"; ".tiff"].
Proof.
  assert (Forall (fun e => PlainText.lower e = e)
                 ["jpg"; "jpeg"; "png"; "tiff"]) as Hlower
    by (repeat constructor).
  split; [exact Hlower|].
  exact (list_files_default PlainText.lower PlainText.photos true Hlower).
Defined.

Lemma list_files_no_suffix_witness :
  PlainText.lower "" = ""
  /\ Entry "" "/photos" (File Sample.broken Ready)
     ∉ list_files PlainText.lower PlainText.photos false "jpg,," "photos".
Proof.
  split; [reflexivity|].
  apply (list_files_no_suffix PlainText.lower); reflexivity.
Defined.

(** ** The loop over the tasks *)

Lemma timed_out_cons f files :
  timed_out (f :: files)
  = (if decide (waited f = TimedOut) then 1 else 0) + timed_out files.
Proof.
  unfold timed_out. rewrite filter_cons.
  destruct (decide (waited f = TimedOut)); reflexivity.
Qed.

Lemma timed_out_app files files' :
  timed_out (files ++ files') = timed_out files + timed_out files'.
Proof. unfold timed_out. rewrite filter_app, length_app. reflexivity. Qed.

Lemma wait_files_passed files : forall done,
  Forall passes files ->
  wait_files files done = (replicate (timed_out files) TLE, done).
Proof.
  induction files as [|[img wt] files IH]; intros done Hb; [reflexivity|].
  apply Forall_cons in Hb as [[Hni Hr] Hb]. simpl in Hni, Hr.
  rewrite timed_out_cons. simpl. rewrite (IH done Hb).
  destruct wt; simpl.
  - rewrite Hr by reflexivity. reflexivity.
  - reflexivity.
  - congruence.
Qed.

Lemma wait_files_interrupted before : forall f after done,
  Forall passes before -> waited f = Interrupted ->
  wait_files (before ++ f :: after) done
  = (replicate (timed_out before) TLE, Returns1).
Proof.
  induction before as [|[img wt] before IH]; intros f after done Hb Hf.
  - simpl. rewrite Hf. reflexivity.
  - apply Forall_cons in Hb as [[Hni Hr] Hb]. simpl in Hni, Hr.
    rewrite timed_out_cons. simpl. rewrite (IH f after done Hb Hf).
    destruct wt; simpl.
    + rewrite Hr by reflexivity. reflexivity.
    + reflexivity.
    + congruence.
Qed.

Section Tasks.

Context `{PyLib}.

(** X4. When no task is interrupted and no call that ends in time has
    raised, [get_statistic_dict] prints one notice for every task that
    timed out, nothing else, and returns a table with the seven fields in
    the order of [STATISTIC_KEYS], in which the files of the tasks that
    timed out are counted like the others: the counts of a field add up
    to the number of files processed for it. *)
Theorem timed_out_files_are_counted (sched : list nat) (files : list file) :
  Forall passes files ->
  exists t,
    get_statistic_dict sched files
    = (replicate (timed_out files) TLE, Returns t)
    /\ PyDict.keys t = STATISTIC_KEYS
    /\ forall k,
         total k t
         = length (filter (fun img => processed_for k img = true)
                          (map content files)).
Proof.
  intros Hb.
  destruct (get_statistic_dict_spec sched files) as (t & E & Hk & _ & _ & Ht).
  exists t. split; [|split; [exact Hk|exact Ht]].
  rewrite E. apply wait_files_passed, Hb.
Qed.

(** X5. A keyboard interrupt during the wait for a task makes
    [get_statistic_dict] return the number 1 where its caller expects a
    table; [cli] then indexes that number and ends with a [TypeError],
    whatever was counted so far, and no figure is drawn. *)
Theorem interrupt_ends_with_TypeError (sched : list nat)
    (before after : list file) (f : file) :
  Forall passes before -> waited f = Interrupted ->
  get_statistic_dict sched (before ++ f :: after)
  = (replicate (timed_out before) TLE, Returns1)
  /\ cli sched (before ++ f :: after)
     = (replicate (timed_out before) TLE, Some TypeError).
Proof.
  intros Hb Hf.
  destruct (get_statistic_dict_spec sched (before ++ f :: after))
    as (t & E & _).
  rewrite (wait_files_interrupted before f after _ Hb Hf) in E.
  split; [exact E|]. unfold cli. rewrite E. reflexivity.
Qed.

End Tasks.

Section SampleTasks.

#[local] Existing Instance plain.

Lemma timed_out_files_are_counted_witness :
  Forall passes [File (Sample.complete "1/200" "100") TimedOut;
                 File Sample.broken TimedOut;
                 File Sample.no_lens Ready]
  /\ exists t,
       get_statistic_dict [2; 0]
         [File (Sample.complete "1/200" "100") TimedOut;
          File Sample.broken TimedOut;
          File Sample.no_lens Ready]
       = ([TLE; TLE], Returns t)
       /\ total "Model" t = 2 /\ total "LensModel" t = 1.
Proof.
  assert (Forall passes [File (Sample.complete "1/200" "100") TimedOut;
                         File Sample.broken TimedOut;
                         File Sample.no_lens Ready]) as Hb.
  { repeat constructor; simpl; congruence. }
  split; [exact Hb|].
  destruct (timed_out_files_are_counted [2; 0] _ Hb) as (t & E & _ & Ht).
  exists t. split; [exact E|]. rewrite !Ht. split; reflexivity.
Defined.

Lemma interrupt_ends_with_TypeError_witness :
  Forall passes [File (Sample.complete "1/200" "100") TimedOut]
  /\ cli [0; 0]
       ([File (Sample.complete "1/200" "100") TimedOut]
        ++ File Sample.no_lens Interrupted :: [File Sample.broken Ready])
     = ([TLE], Some TypeError).
Proof.
  assert (Forall passes [File (Sample.complete "1/200" "100") TimedOut])
    as Hb by (repeat constructor; simpl; congruence).
  split; [exact Hb|].
  exact (proj2 (interrupt_ends_with_TypeError [0; 0] _
                  [File Sample.broken Ready]
                  (File Sample.no_lens Interrupted) Hb eq_refl)).
Defined.

End SampleTasks.

(** ** The calls of the pool *)

Section Calls.

Context `{PyLib}.

(** What a call counts, field by field: the keys of [keys] up to the first
    one the metadata lacks, each with the value [field_value] makes of its
    tag. *)
Lemma statistic_loop_prefix er keys :
  exists n,
    map fst (blocks (statistic_loop er keys)) = take n keys
    /\ Forall (fun k => is_Some (er !! inl k)) (take n keys)
    /\ (forall k, keys !! n = Some k -> er !! inl k = None)
    /\ Forall (fun b => exists raw,
                 er !! inl (fst b) = Some raw
                 /\ snd b = field_value (fst b) raw)
              (blocks (statistic_loop er keys)).
Proof.
  induction keys as [|k keys (n & Hn & Hall & Hstop & Hval)]; simpl.
  - exists 0. split; [reflexivity|]. split; [constructor|].
    split; [discriminate|constructor].
  - destruct (er !! inl k) as [raw|] eqn:Hraw.
    + exists (S n). simpl. split; [f_equal; exact Hn|].
      split; [constructor; [rewrite Hraw; eauto|exact Hall]|].
      split; [exact Hstop|].
      constructor; [|exact Hval]. exists raw. split; [exact Hraw|reflexivity].
    + exists 0. simpl. split; [reflexivity|]. split; [constructor|].
      split; [|constructor]. intros k' [= <-]. exact Hraw.
Qed.

Lemma carries_is_Some exif k :
  carries exif k = true <-> is_Some (exif_result_of exif !! inl k).
Proof. unfold carries. apply bool_decide_eq_true. Qed.

(** X7. A call on a file with metadata counts the tracked fields up to
    the first one the metadata lacks, in the order of [STATISTIC_KEYS],
    and none after it, even when the metadata carries them; the value
    counted for a field is the one [field_value] makes of its tag. *)
Theorem counted_fields_are_a_prefix (exif : list (Z * string)) :
  exists n,
    map fst (blocks (make_statistic (Exif exif))) = take n STATISTIC_KEYS
    /\ Forall (fun k => carries exif k = true) (take n STATISTIC_KEYS)
    /\ (forall k, STATISTIC_KEYS !! n = Some k -> carries exif k = false)
    /\ Forall (fun b => exists raw,
                 exif_result_of exif !! inl (fst b) = Some raw
                 /\ snd b = field_value (fst b) raw)
              (blocks (make_statistic (Exif exif))).
Proof.
  destruct (statistic_loop_prefix (exif_result_of exif) STATISTIC_KEYS)
    as (n & Hn & Hall & Hstop & Hval).
  exists n. split; [exact Hn|]. split; [|split; [|exact Hval]].
  - eapply Forall_impl; [exact Hall|]. intros k. apply carries_is_Some.
  - intros k Hk. apply not_true_is_false. rewrite carries_is_Some.
    rewrite (Hstop k Hk). intros [? [=]].
Qed.

(** X6. In every state a run of the pool can reach, the block a call is
    about to run under the lock succeeds: the field it writes to is in
    the table, so that no call ever ends with a [KeyError], and a call
    raises only what opening its file raises. *)
Theorem locked_block_never_raises (files : list image) (s : state) :
  rtc step (start files) s ->
  map ends (pool s) = map raised_by files
  /\ forall i key value rest,
       pool s !! i = Some (Locked key value rest) ->
       exists t',
         increment key value (shared_dict s) = Ok t'
         /\ step s (State t' (<[i := rest]> (pool s))).
Proof.
  intros Hsteps. split.
  - rewrite (rtc_ends _ _ _ (invariant_start files) Hsteps). simpl.
    rewrite map_map. apply map_ext, make_statistic_ends.
  - intros i key value rest Hi.
    destruct (invariant_rtc _ _ _ (invariant_start files) Hsteps)
      as [Hk Hf _ _ _].
    destruct (pending_insert (pool s) i _ rest Hi) as (b & a & E & _).
    simpl in E. rewrite E in Hf.
    rewrite Forall_app, Forall_cons in Hf. simpl in Hf.
    destruct (increment_tracked key value (shared_dict s) Hk) as [t' Ht'];
      [tauto|].
    exists t'. split; [exact Ht'|].
    destruct s as [t ws]. simpl in *. eapply step_count; eauto.
Qed.

End Calls.

Section SampleCalls.

#[local] Existing Instance plain.

Lemma locked_block_never_raises_witness :
  rtc step (start Sample.two_files) (run [1; 0] (start Sample.two_files))
  /\ map ends (pool (run [1; 0] (start Sample.two_files)))
     = map raised_by Sample.two_files.
Proof.
  pose proof (run_rtc [1; 0] (start Sample.two_files)) as Hsteps.
  split; [exact Hsteps|].
  exact (proj1 (locked_block_never_raises Sample.two_files _ Hsteps)).
Defined.

End SampleCalls.

(** ** The table of a run *)

Lemma setitem_NoDup {V} k (v : V) (d : dict V) :
  NoDup (PyDict.keys d) -> NoDup (PyDict.keys (PyDict.setitem k v d)).
Proof.
  intros Hnd. destruct (PyDict.get k d) as [v0|] eqn:Hg.
  - rewrite keys_setitem_present by eauto. exact Hnd.
  - rewrite keys_setitem_absent by exact Hg.
    apply NoDup_app. split; [exact Hnd|]. split; [|apply NoDup_singleton].
    intros k' Hk' ->%list_elem_of_singleton.
    apply get_None_keys in Hg. contradiction.
Qed.

Lemma increment_well_keyed key value t t' :
  increment key value t = Ok t' -> well_keyed t -> well_keyed t'.
Proof.
  intros (d & Hd & ->)%increment_inv Hwk k d'. rewrite get_setitem.
  destruct (String.eqb_spec k key) as [->|Hne]; [|apply Hwk].
  intros [= <-]. apply setitem_NoDup, (Hwk key), Hd.
Qed.

Lemma init_table_well_keyed : well_keyed init_table.
Proof.
  intros k d. unfold init_table, STATISTIC_KEYS. simpl.
  repeat case_match; intros [= <-]; constructor.
Qed.

Lemma step_well_keyed s s' :
  step s s' -> well_keyed (shared_dict s) -> well_keyed (shared_dict s').
Proof.
  intros [i key value rest t t' ws Hi Hinc|i key value rest t e ws Hi Hinc];
    simpl; [|auto].
  eapply increment_well_keyed, Hinc.
Qed.

Lemma rtc_well_keyed s s' :
  rtc step s s' -> well_keyed (shared_dict s) -> well_keyed (shared_dict s').
Proof. induction 1; eauto using step_well_keyed. Qed.

(** An entry of a dictionary is what a lookup of its key returns. *)
Lemma elem_get_NoDup {V} k (v : V) (d : dict V) :
  NoDup (PyDict.keys d) -> (k, v) ∈ d -> PyDict.get k d = Some v.
Proof.
  unfold PyDict.keys. induction d as [|[k0 v0] d IH]; simpl.
  - intros _ []%elem_of_nil.
  - intros [Hnin Hnd]%NoDup_cons [[= -> ->]|Hin]%elem_of_cons.
    + rewrite String.eqb_refl. reflexivity.
    + destruct (String.eqb_spec k k0) as [->|Hne]; [|auto].
      exfalso. apply Hnin. apply list_elem_of_fmap. exists (k0, v). auto.
Qed.

Section Joined.

Context `{PyLib}.

(** The pool once it is joined: every call has ended, the way its file
    decides, and the state is one a run can reach. *)
Lemma joined_pool sched files :
  exists ws t,
    join (pool (run sched (start (map content files))))
         (shared_dict (run sched (start (map content files)))) = (ws, t)
    /\ Forall (fun w => blocks w = []) ws
    /\ map ends ws = map raised_by (map content files)
    /\ rtc step (start (map content files)) (State t ws).
Proof.
  pose proof (run_rtc sched (start (map content files))) as Hrun.
  destruct (run sched (start (map content files))) as [t0 ws0]; simpl.
  destruct (join ws0 t0) as [ws t] eqn:Ej.
  pose proof (join_rtc ws0 t0 ws t [] Ej) as Hjoin. simpl in Hjoin.
  assert (rtc step (start (map content files)) (State t ws)) as Hsteps
    by (etransitivity; eauto).
  exists ws, t. split; [reflexivity|].
  split; [exact (join_pending _ _ _ _ Ej)|]. split; [|exact Hsteps].
  pose proof (rtc_ends _ _ _ (invariant_start _) Hsteps) as Hends.
  simpl in Hends. rewrite Hends, map_map.
  apply map_ext, make_statistic_ends.
Qed.

Lemma returned_table sched files out (t : table) :
  get_statistic_dict sched files = (out, Returns t) ->
  Forall passes files
  /\ out = replicate (timed_out files) TLE
  /\ PyDict.keys t = STATISTIC_KEYS
  /\ well_keyed t
  /\ (forall k v n, lookup2 k v t = Some n -> 1 <= n)
  /\ (forall k v,
        count k v t
        = issued k v (pending (map make_statistic (map content files))))
  /\ (forall k,
        total k t
        = length (filter (fun img => processed_for k img = true)
                         (map content files))).
Proof.
  intros E.
  destruct (get_statistic_dict_spec sched files)
    as (t0 & E0 & Hk & Hpos & Hc & Ht).
  pose proof E as E'. rewrite E0 in E'.
  pose proof (wait_files_Returns _ _ _ _ E') as [= ->].
  assert (Forall passes files) as Hb.
  { destruct (wait_files_cases _ _ _ _ E')
      as [[_ Hb]|[[[=] _]|(e & f & [=] & _)]]. exact Hb. }
  split; [exact Hb|].
  split; [rewrite (wait_files_passed files _ Hb) in E'; congruence|].
  split; [exact Hk|]. split; [|auto].
  unfold get_statistic_dict in E.
  destruct (joined_pool sched files) as (ws & t1 & Ej & Hfin & Hends & Hsteps).
  rewrite Ej in E.
  rewrite (wait_tasks_files files ws _ Hfin Hends) in E.
  apply wait_files_Returns in E as [= ->].
  exact (rtc_well_keyed _ _ Hsteps init_table_well_keyed).
Qed.

(** A call counts a value of a field at most once. *)
Lemma issued_once k v img :
  issued k v (blocks (make_statistic img))
  = if decide (counts k v img) then 1 else 0.
Proof.
  unfold counts.
  assert (issued k v (blocks (make_statistic img))
          <= issued_field k (blocks (make_statistic img))) as Hle.
  { unfold issued, issued_field.
    generalize (blocks (make_statistic img)). intros bs.
    induction bs as [|b bs IH]; [reflexivity|].
    rewrite !filter_cons.
    destruct (decide (b = (k, v))) as [->|Hne]; simpl.
    - rewrite decide_True by reflexivity. simpl. lia.
    - destruct (decide (fst b = k)); simpl; lia. }
  rewrite make_statistic_issued in Hle.
  assert (issued k v (blocks (make_statistic img)) <= 1) as Hle1
    by (destruct (processed_for k img); lia).
  assert (0 < issued k v (blocks (make_statistic img))
          <-> (k, v) ∈ blocks (make_statistic img)) as Hpos.
  { unfold issued. generalize (blocks (make_statistic img)). intros bs.
    induction bs as [|b bs IH].
    - simpl. split; [lia|intros []%elem_of_nil].
    - rewrite filter_cons, elem_of_cons.
      destruct (decide (b = (k, v))) as [->|Hne]; simpl.
      + split; [auto|lia].
      + rewrite IH. split; [auto|]. intros [E|Hin]; [congruence|exact Hin]. }
  destruct (decide ((k, v) ∈ blocks (make_statistic img))) as [Hin|Hnin].
  - apply Hpos in Hin. lia.
  - destruct (issued k v (blocks (make_statistic img))) as [|n] eqn:E;
      [reflexivity|].
    exfalso. apply Hnin, Hpos. lia.
Qed.

Lemma pool_issued k v imgs :
  issued k v (pending (map make_statistic imgs))
  = length (filter (counts k v) imgs).
Proof.
  induction imgs as [|img imgs IH]; simpl; [reflexivity|].
  rewrite pending_cons, issued_app, issued_once, IH, filter_cons.
  destruct (decide (counts k v img)); reflexivity.
Qed.

(** X8. The table [get_statistic_dict] returns is the frequency table of
    the files: a value has an entry in a field exactly when the call of
    some file counts it, and its count is the number of files whose call
    counts it, under every schedule. *)
Theorem table_counts_files (sched : list nat) (files : list file)
    (out : list event) (t : table) (k v : string) :
  get_statistic_dict sched files = (out, Returns t) ->
  count k v t = length (filter (counts k v) (map content files))
  /\ (is_Some (lookup2 k v t)
      <-> exists f, f ∈ files /\ counts k v (content f)).
Proof.
  intros E.
  destruct (returned_table _ _ _ _ E) as (_ & _ & _ & _ & Hpos & Hc & _).
  rewrite <- pool_issued, <- Hc. split; [reflexivity|].
  rewrite (lookup2_count k v t (Hpos k v)), Hc, pool_issued.
  destruct (decide _) as [E0|E0]; split.
  - intros [? [=]].
  - intros (f & Hf & Hcf). exfalso.
    assert (content f ∈ filter (counts k v) (map content files)) as Hin.
    { apply list_elem_of_filter. split; [exact Hcf|].
      apply list_elem_of_fmap. eauto. }
    destruct (filter (counts k v) (map content files));
      [apply elem_of_nil in Hin; exact Hin|discriminate].
  - intros _.
    destruct (filter (counts k v) (map content files)) as [|img l] eqn:Ef;
      [contradiction|].
    assert (img ∈ filter (counts k v) (map content files)) as Hin
      by (rewrite Ef; left).
    apply list_elem_of_filter in Hin as [Hcf Hin].
    apply list_elem_of_fmap in Hin as (f & -> & Hf). eauto.
  - eauto.
Qed.

End Joined.

Lemma filter_length_le {A} (P Q : A -> Prop) `{forall x, Decision (P x)}
    `{forall x, Decision (Q x)} (l : list A) :
  (forall x, P x -> Q x) -> length (filter P l) <= length (filter Q l).
Proof.
  intros HPQ. induction l as [|x l IH]; [reflexivity|].
  rewrite !filter_cons.
  destruct (decide (P x)) as [HP|HP].
  - rewrite decide_True by auto. simpl. lia.
  - destruct (decide (Q x)); simpl; lia.
Qed.

Lemma filter_length_0 {A} (P : A -> Prop) `{forall x, Decision (P x)}
    (l : list A) :
  length (filter P l) = 0 <-> Forall (fun x => ~ P x) l.
Proof.
  induction l as [|x l IH]; [split; [constructor|reflexivity]|].
  rewrite filter_cons, Forall_cons.
  destruct (decide (P x)) as [HP|HP]; simpl.
  - split; [discriminate|]. intros [Hn _]. contradiction.
  - rewrite IH. tauto.
Qed.

Lemma sum_list_Permutation (l l' : list nat) :
  l ≡ₚ l' -> sum_list l = sum_list l'.
Proof. induction 1; simpl; lia. Qed.

Lemma string_leb_antisym a b :
  String.leb a b = true -> String.leb b a = true -> a = b.
Proof.
  unfold String.leb. rewrite (String.compare_antisym b a).
  destruct (a ?= b)%string eqn:E; simpl; try discriminate.
  intros _ _. apply String.compare_eq_iff, E.
Qed.

Section Returned.

Context `{PyLib}.

(** X9. In the table [get_statistic_dict] returns, the counts of a field
    add up to at most the sum of any field listed before it in
    [STATISTIC_KEYS], and to at most the number of files: a file counted
    for a field is counted for every earlier one. *)
Theorem totals_decrease_along_the_fields (sched : list nat)
    (files : list file) (out : list event) (t : table)
    (pre : list string) (k1 : string) (mid : list string) (k2 : string)
    (post : list string) :
  get_statistic_dict sched files = (out, Returns t) ->
  STATISTIC_KEYS = pre ++ k1 :: mid ++ k2 :: post ->
  total k2 t <= total k1 t /\ total k1 t <= length files.
Proof.
  intros E Hkeys.
  destruct (returned_table _ _ _ _ E) as (_ & _ & _ & _ & _ & _ & Ht).
  rewrite !Ht. split.
  - apply filter_length_le. intros img.
    apply (processed_for_before (pre ++ k1 :: mid) k2 post k1).
    + rewrite Hkeys, <- app_assoc. reflexivity.
    + apply elem_of_app. right. left.
  - rewrite <- (length_map content files). apply length_filter.
Qed.

Lemma row_positive (t : table) k (d : dict nat) row :
  well_keyed t ->
  (forall k v n, lookup2 k v t = Some n -> 1 <= n) ->
  PyDict.get k t = Some d -> row ∈ d -> 1 <= snd row.
Proof.
  intros Hwk Hpos Hd Hrow. apply (Hpos k (fst row)).
  unfold lookup2. rewrite Hd. apply elem_get_NoDup; [exact (Hwk k d Hd)|].
  destruct row. exact Hrow.
Qed.

(** X10. A figure drawn for a field of the table [get_statistic_dict]
    returned has one bar for every entry of the field, each of length at
    least 1, and the lengths of its bars add up to the number of files
    processed for the field.  Except for the exposure times, whose labels
    are rewritten, no label occurs twice. *)
Theorem figure_counts_the_files (sched : list nat) (files : list file)
    (out : list event) (t : table) (k : string) (out' : list event) :
  get_statistic_dict sched files = (out, Returns t) ->
  plot_field t k = (out', None) ->
  exists labels values,
    out' = [Header k; Figure labels values]
    /\ length labels = length values
    /\ Forall (fun n => 1 <= n) values
    /\ sum_list values
       = length (filter (fun img => processed_for k img = true)
                        (map content files))
    /\ (k <> "ExposureTime" -> NoDup labels).
Proof.
  intros E Hplot.
  destruct (returned_table _ _ _ _ E) as (_ & _ & _ & Hwk & Hpos & _ & Ht).
  destruct (plot_field_None t k out' Hplot)
    as (d & rows & labels & Hd & _ & Hrows & -> & Hl & Hl').
  destruct (sorted_Ok _ _ _ Hrows) as (Hp & _ & _).
  exists labels, (map snd rows). split; [reflexivity|].
  split; [|split; [|split]].
  - destruct (decide (k = "ExposureTime")) as [Hk|Hk].
    + rewrite <- (Forall2_length _ _ _ (Hl' Hk)), !length_map. reflexivity.
    + rewrite (Hl Hk), !length_map. reflexivity.
  - apply Forall_forall. intros n Hn.
    apply list_elem_of_fmap in Hn as (row & -> & Hrow).
    rewrite Hp in Hrow. exact (row_positive t k d row Hwk Hpos Hd Hrow).
  - rewrite <- Ht. unfold total. rewrite Hd. unfold PyDict.values.
    apply sum_list_Permutation, Permutation_map, Hp.
  - intros Hk. rewrite (Hl Hk).
    assert (map fst rows ≡ₚ PyDict.keys d) as Hpk
      by (apply Permutation_map, Hp).
    rewrite Hpk. exact (Hwk k d Hd).
Qed.

(** Two runs on the same files leave the same entries in a field. *)
Lemma returned_fields_Permutation sched1 sched2 files out1 out2
    (t1 t2 : table) k :
  get_statistic_dict sched1 files = (out1, Returns t1) ->
  get_statistic_dict sched2 files = (out2, Returns t2) ->
  k ∈ STATISTIC_KEYS ->
  exists d1 d2 : dict nat,
    PyDict.get k t1 = Some d1 /\ PyDict.get k t2 = Some d2
    /\ NoDup (PyDict.keys d1) /\ d1 ≡ₚ d2.
Proof.
  intros E1 E2 Hk.
  destruct (returned_table _ _ _ _ E1) as (_ & _ & Hk1 & Hwk1 & Hpos1 & Hc1 & _).
  destruct (returned_table _ _ _ _ E2) as (_ & _ & Hk2 & Hwk2 & Hpos2 & Hc2 & _).
  assert (is_Some (PyDict.get k t1)) as [d1 Hd1]
    by (apply elem_keys_get; rewrite Hk1; exact Hk).
  assert (is_Some (PyDict.get k t2)) as [d2 Hd2]
    by (apply elem_keys_get; rewrite Hk2; exact Hk).
  exists d1, d2. split; [exact Hd1|]. split; [exact Hd2|].
  split; [exact (Hwk1 k d1 Hd1)|].
  assert (forall v, PyDict.get v d1 = PyDict.get v d2) as Hsame.
  { intros v.
    pose proof (lookup2_count k v t1 (Hpos1 k v)) as L1.
    pose proof (lookup2_count k v t2 (Hpos2 k v)) as L2.
    rewrite Hc1 in L1. rewrite Hc2 in L2. unfold lookup2 in L1, L2.
    rewrite Hd1 in L1. rewrite Hd2 in L2. congruence. }
  apply NoDup_Permutation.
  - eapply NoDup_fmap_1. exact (Hwk1 k d1 Hd1).
  - eapply NoDup_fmap_1. exact (Hwk2 k d2 Hd2).
  - intros [v n]. split; intros Hin.
    + apply get_Some_elem. rewrite <- Hsame.
      apply elem_get_NoDup; [exact (Hwk1 k d1 Hd1)|exact Hin].
    + apply get_Some_elem. rewrite Hsame.
      apply elem_get_NoDup; [exact (Hwk2 k d2 Hd2)|exact Hin].
Qed.

(** X11. The figures of the camera models and of the lens models do not
    depend on the schedule of the pool: two runs on the same files may
    insert the entries of a field in different orders, and the sort by
    name brings them into the same one. *)
Theorem model_figures_do_not_depend_on_the_schedule (sched1 sched2 : list nat)
    (files : list file) (out1 out2 : list event) (t1 t2 : table)
    (k : string) :
  k = "Model" \/ k = "LensModel" ->
  get_statistic_dict sched1 files = (out1, Returns t1) ->
  get_statistic_dict sched2 files = (out2, Returns t2) ->
  plot_field t1 k = plot_field t2 k.
Proof.
  intros Hk E1 E2.
  destruct (returned_fields_Permutation _ _ _ _ _ _ _ k E1 E2)
    as (d1 & d2 & Hd1 & Hd2 & Hnd & Hp).
  { destruct Hk as [-> | ->]; unfold STATISTIC_KEYS; set_solver. }
  assert (forall d : dict nat,
            Forall (fun item => is_Some (sort_lambda k item)) d) as Hok.
  { intros d. apply Forall_forall. intros item _.
    destruct Hk as [-> | ->]; simpl; eauto. }
  destruct (decorate_total k d1 (Hok d1)) as [dec1 Hdec1].
  destruct (decorate_total k d2 (Hok d2)) as [dec2 Hdec2].
  assert (exists rows, sorted k d1 = Ok rows) as [rows1 Hrows1]
    by (unfold sorted; rewrite Hdec1; simpl; eauto).
  assert (exists rows, sorted k d2 = Ok rows) as [rows2 Hrows2]
    by (unfold sorted; rewrite Hdec2; simpl; eauto).
  destruct (sorted_Ok _ _ _ Hrows1) as (Hp1 & _ & _).
  destruct (sorted_Ok _ _ _ Hrows2) as (Hp2 & _ & _).
  assert (k <> "FNumber" /\ k <> "FocalLength") as [Hk1 Hk2]
    by (destruct Hk as [-> | ->]; split; discriminate).
  pose proof (sorted_in_order_other k d1 rows1 Hk1 Hk2 Hrows1) as Hs1.
  pose proof (sorted_in_order_other k d2 rows2 Hk1 Hk2 Hrows2) as Hs2.
  assert (rows1 = rows2) as Hrows.
  { apply (StronglySorted_unique_strong (in_order k)); [|exact Hs1|exact Hs2|].
    - intros x1 x2 Hx1 Hx2 H12 H21.
      apply (in_order_str k _ _ Hk) in H12, H21.
      pose proof (string_leb_antisym _ _ H12 H21) as Hfst.
      rewrite Hp1 in Hx1. rewrite Hp2, <- Hp in Hx2.
      destruct x1 as [v1 n1], x2 as [v2 n2]. simpl in Hfst. subst v2.
      pose proof (elem_get_NoDup _ _ _ Hnd Hx1) as G1.
      pose proof (elem_get_NoDup _ _ _ Hnd Hx2) as G2.
      congruence.
    - rewrite Hp1, Hp2. exact Hp. }
  unfold plot_field, getitem, PyDict.items.
  rewrite Hd1, Hd2, Hrows1, Hrows2, Hrows. reflexivity.
Qed.

End Returned.

(** ** The ways the plot can end *)

Section Ends.

Context `{PyLib}.

Lemma plot_field_plottable (t : table) k out :
  plot_field t k = (out, None) ->
  plottable t k /\ exists fig, out = chart k fig.
Proof.
  intros E.
  destruct (plot_field_None t k out E)
    as (d & rows & labels & Hd & Hne & Hrows & -> & _).
  destruct (sorted_Ok _ _ _ Hrows) as (_ & Hok & _).
  split; [exists d; auto|]. exists (labels, map snd rows). reflexivity.
Qed.

Lemma plot_loop_cases (t : table) ks :
  exists pre post figs,
    ks = pre ++ post
    /\ length figs = length pre
    /\ Forall (plottable t) pre
    /\ fst (plot_loop t ks) = charts pre figs
    /\ match snd (plot_loop t ks) with
       | None => post = []
       | Some e =>
           exists k post', post = k :: post' /\ plot_field t k = ([], Some e)
       end.
Proof.
  induction ks as [|k ks (pre & post & figs & -> & Hlen & Hpre & Hout & Hend)].
  - exists [], [], []. simpl. auto.
  - simpl. destruct (plot_field t k) as [out [e|]] eqn:Hplot.
    + destruct (plot_field_Some t k out e Hplot) as [-> _].
      exists [], (k :: pre ++ post), []. simpl.
      split; [reflexivity|]. split; [reflexivity|]. split; [constructor|].
      split; [reflexivity|]. eauto.
    + destruct (plot_field_plottable t k out Hplot) as (Hk & fig & ->).
      destruct (plot_loop t (pre ++ post)) as [out' r]. simpl in Hout, Hend.
      exists (k :: pre), post, (fig :: figs). simpl.
      split; [reflexivity|]. split; [lia|]. split; [constructor; assumption|].
      split; [rewrite Hout; reflexivity|exact Hend].
Qed.

(** X12. On any table, [plot_statistic_dict] draws the figures of the
    fields in the order of the table up to the first field that has no
    entry or holds a value that does not convert, and ends there with the
    exception of that field: [not enough values to unpack] for a field
    without entry, the conversion error otherwise.  A header is never
    printed without its figure, and no field is looked up that the table
    lacks. *)
Theorem plot_statistic_dict_stops_at_the_first_bad_field (t : table) :
  exists pre post figs,
    PyDict.keys t = pre ++ post
    /\ length figs = length pre
    /\ Forall (plottable t) pre
    /\ fst (plot_statistic_dict t) = charts pre figs
    /\ match snd (plot_statistic_dict t) with
       | None => post = []
       | Some e =>
           exists k post',
             post = k :: post'
             /\ ((e = UnpackError
                  /\ PyDict.get k t = Some (PyDict.empty : dict nat))
                 \/ (exists (d : dict nat) bad,
                       e = ConversionError k (fst bad)
                       /\ PyDict.get k t = Some d /\ bad ∈ d
                       /\ sort_lambda k bad = None))
       end.
Proof.
  unfold plot_statistic_dict.
  destruct (plot_loop_cases t (PyDict.keys t))
    as (pre & post & figs & Hkeys & Hlen & Hpre & Hout & Hend).
  exists pre, post, figs. split; [exact Hkeys|]. split; [exact Hlen|].
  split; [exact Hpre|]. split; [exact Hout|].
  destruct (snd (plot_loop t (PyDict.keys t))) as [e|]; [|exact Hend].
  destruct Hend as (k & post' & -> & Hplot). exists k, post'.
  split; [reflexivity|].
  destruct (plot_field_Some t k _ e Hplot) as (_ & [[_ Hnone]|[Hu|Hc]]);
    [|left; exact Hu|right; exact Hc].
  exfalso. apply get_None_keys in Hnone. apply Hnone.
  rewrite Hkeys. apply elem_of_app. right. left.
Qed.

Lemma no_file_empty_field sched files out (t : table) k :
  get_statistic_dict sched files = (out, Returns t) ->
  k ∈ STATISTIC_KEYS ->
  Forall (fun f => processed_for k (content f) = false) files
  <-> PyDict.get k t = Some (PyDict.empty : dict nat).
Proof.
  intros E Hk.
  destruct (returned_table _ _ _ _ E) as (_ & _ & Hkeys & _ & Hpos & _ & Ht).
  assert (is_Some (PyDict.get k t)) as [d Hd]
    by (apply elem_keys_get; rewrite Hkeys; exact Hk).
  pose proof (nonempty_total t k d (Hpos k) Hd) as Hne.
  rewrite Ht in Hne.
  assert (Forall (fun f => processed_for k (content f) = false) files
          <-> length (filter (fun img => processed_for k img = true)
                             (map content files)) = 0) as ->.
  { rewrite filter_length_0, Forall_fmap. apply Forall_proper; [|reflexivity].
    intros f. simpl. destruct (processed_for k (content f)); split; congruence. }
  rewrite Hd. split.
  - intros H0. destruct d; [reflexivity|].
    assert (p :: d <> []) as Hd' by discriminate. apply Hne in Hd'. lia.
  - intros [= ->].
    destruct (length (filter (fun img => processed_for k img = true)
                             (map content files))); [reflexivity|].
    exfalso. apply (proj2 Hne); [lia|reflexivity].
Qed.

(** X13. When the files leave a field without entry while the fields
    before it can be plotted, [cli] draws the figures of these fields and
    ends with [not enough values to unpack]: nothing checks the later
    fields before the plot starts. *)
Theorem missing_field_ends_the_plot (sched : list nat) (files : list file)
    (out : list event) (t : table) (pre : list string) (k : string)
    (post : list string) :
  get_statistic_dict sched files = (out, Returns t) ->
  STATISTIC_KEYS = pre ++ k :: post -> pre <> [] ->
  Forall (plottable t) pre ->
  Forall (fun f => processed_for k (content f) = false) files ->
  exists figs,
    length figs = length pre
    /\ cli sched files = (out ++ charts pre figs, Some UnpackError).
Proof.
  intros E Hkeys Hne Hpre Hno.
  destruct (returned_table _ _ _ _ E) as (_ & _ & Hk & _).
  assert (k ∈ STATISTIC_KEYS) as Hin
    by (rewrite Hkeys; apply elem_of_app; right; left).
  apply (no_file_empty_field _ _ _ _ _ E Hin) in Hno.
  destruct (plot_loop_raises t pre k post _ Hpre (plot_field_empty _ _ Hno))
    as (figs & Hlen & Hloop).
  exists figs. split; [exact Hlen|].
  destruct pre as [|k0 pre]; [contradiction|].
  assert (k0 = "DateTimeOriginal") as -> by (injection Hkeys; auto).
  apply Forall_cons in Hpre as [(d & Hd & Hdne & _) _].
  unfold cli. rewrite E. unfold getitem. rewrite Hd.
  destruct d as [|item d]; [contradiction|]. simpl.
  unfold plot_statistic_dict. rewrite Hk, Hkeys, Hloop. reflexivity.
Qed.

(** X14. When no file carries a date and every task passes, in
    particular when no file is listed at all, [cli] draws nothing and ends
    normally; its output is the notices of the tasks that timed out. *)
Theorem no_dated_file_no_figure (sched : list nat) (files : list file) :
  Forall passes files ->
  Forall (fun f => processed_for "DateTimeOriginal" (content f) = false)
         files ->
  cli sched files = (replicate (timed_out files) TLE, None).
Proof.
  intros Hb Hno.
  destruct (get_statistic_dict_spec sched files) as (t & E & _).
  rewrite (wait_files_passed files _ Hb) in E.
  apply (no_file_empty_field _ _ _ _ _ E) in Hno;
    [|unfold STATISTIC_KEYS; left].
  unfold cli. rewrite E. unfold getitem. rewrite Hno. reflexivity.
Qed.

(** X15. The exceptions [cli] can end with: the [TypeError] that follows
    an interrupt, the exception of a file that could not be opened and
    whose task ended in time, [not enough values to unpack] when some file
    has a date and some tracked field has no file processed for it, or the
    conversion error of a value that the call of some file counted.  The
    script never fails with a [KeyError] of its own. *)
Theorem cli_ends_with (sched : list nat) (files : list file)
    (out : list event) (e : exn) :
  cli sched files = (out, Some e) ->
  (e = TypeError /\ exists f, f ∈ files /\ waited f = Interrupted)
  \/ (exists f, f ∈ files /\ waited f = Ready /\ content f = Unreadable e)
  \/ (e = UnpackError
      /\ (exists f, f ∈ files
                    /\ processed_for "DateTimeOriginal" (content f) = true)
      /\ exists k,
           k ∈ STATISTIC_KEYS
           /\ Forall (fun f => processed_for k (content f) = false) files)
  \/ (exists k v n f,
        e = ConversionError k v /\ sort_lambda k (v, n) = None
        /\ f ∈ files /\ counts k v (content f)).
Proof.
  unfold cli. destruct (get_statistic_dict sched files) as [out0 r] eqn:E.
  destruct (get_statistic_dict_spec sched files) as (t0 & E0 & _).
  pose proof E as E'. rewrite E0 in E'.
  destruct (wait_files_cases _ _ _ _ E')
    as [[-> _]|[[-> Hint]|(e' & f & -> & Hf & Hw & Hc)]].
  - destruct (returned_table _ _ _ _ E)
      as (_ & _ & Hkeys & _ & Hpos & Hcount & _).
    assert ("DateTimeOriginal" ∈ STATISTIC_KEYS) as Hdate
      by (unfold STATISTIC_KEYS; left).
    assert (is_Some (PyDict.get "DateTimeOriginal" t0)) as [d Hd]
      by (apply elem_keys_get; rewrite Hkeys; exact Hdate).
    unfold getitem. rewrite Hd.
    destruct d as [|item d]; [discriminate|]. simpl.
    destruct (plot_loop_cases t0 (PyDict.keys t0))
      as (pre & post & figs & Hsplit & _ & _ & _ & Hend).
    unfold plot_statistic_dict.
    destruct (plot_loop t0 (PyDict.keys t0)) as [out' r']. simpl in Hend.
    intros [= _ ->].
    destruct Hend as (k & post' & -> & Hplot).
    assert (k ∈ STATISTIC_KEYS) as Hk
      by (rewrite <- Hkeys, Hsplit; apply elem_of_app; right; left).
    destruct (plot_field_Some t0 k _ e Hplot)
      as (_ & [[_ Hnone]|[[-> Hempty]|(dk & bad & -> & Hdk & Hbad & Hno)]]).
    + exfalso. apply get_None_keys in Hnone. apply Hnone.
      rewrite Hkeys. exact Hk.
    + right. right. left. split; [reflexivity|]. split.
      * destruct (decide (Forall (fun f => processed_for "DateTimeOriginal"
                                             (content f) = false) files))
          as [Hall|Hsome].
        -- apply (no_file_empty_field _ _ _ _ _ E Hdate) in Hall.
           rewrite Hd in Hall. discriminate.
        -- apply not_Forall_Exists in Hsome; [|intros x; apply _].
           apply Exists_exists in Hsome as (f & Hf & Hp).
           exists f. split; [exact Hf|].
           apply not_false_iff_true, Hp.
      * exists k. split; [exact Hk|].
        apply (no_file_empty_field _ _ _ _ _ E Hk). exact Hempty.
    + right. right. right.
      assert (is_Some (PyDict.get (fst bad) dk)) as [n Hn].
      { apply elem_keys_get. apply list_elem_of_fmap. eauto. }
      assert (lookup2 k (fst bad) t0 = Some n) as Hl
        by (unfold lookup2; rewrite Hdk; exact Hn).
      pose proof (Hpos _ _ _ Hl) as Hn1.
      assert (count k (fst bad) t0 = n) as Hcn
        by (unfold count; rewrite Hl; reflexivity).
      rewrite Hcount, pool_issued in Hcn.
      destruct (filter (counts k (fst bad)) (map content files))
        as [|img l] eqn:Ef; [simpl in Hcn; lia|].
      assert (img ∈ filter (counts k (fst bad)) (map content files)) as Hin
        by (rewrite Ef; left).
      apply list_elem_of_filter in Hin as [Hcf Hin].
      apply list_elem_of_fmap in Hin as (f & -> & Hf).
      exists k, (fst bad), (snd bad), f. split; [reflexivity|].
      split; [destruct bad; exact Hno|]. auto.
  - intros [= _ <-]. left. auto.
  - intros [= _ <-]. right. left. exists f. auto.
Qed.

End Ends.

(** ** The progress bar *)

Lemma callbacks_count ws : forall pbar,
  callbacks ws pbar
  = Tqdm (pbar_total pbar)
         (pbar_n pbar + length (filter (fun w => w = Return) ws)).
Proof.
  unfold callbacks.
  induction ws as [|w ws IH]; intros [total n]; simpl.
  - f_equal. lia.
  - rewrite filter_cons. destruct w as [|e|key value rest]; simpl.
    + rewrite IH. simpl. f_equal. lia.
    + rewrite IH. reflexivity.
    + rewrite IH. reflexivity.
Qed.

Lemma returned_calls files : forall ws,
  Forall (fun w => blocks w = []) ws ->
  map ends ws = map raised_by (map content files) ->
  length (filter (fun w => w = Return) ws) + unreadable files = length files.
Proof.
  unfold unreadable.
  induction files as [|f files IH]; intros [|w ws] Hfin Hends;
    try discriminate; [reflexivity|].
  apply Forall_cons in Hfin as [Hw Hfin]. injection Hends as Hend Hends.
  specialize (IH ws Hfin Hends). rewrite !filter_cons. simpl.
  destruct w as [|e|key value rest]; [| |discriminate]; simpl in Hend.
  - rewrite (decide_True (P := Return = Return)) by reflexivity.
    rewrite (decide_False (P := is_Some (raised_by (content f))))
      by (rewrite <- Hend; intros [? [=]]).
    simpl. lia.
  - rewrite (decide_False (P := Raised e = Return)) by discriminate.
    rewrite (decide_True (P := is_Some (raised_by (content f))))
      by (rewrite <- Hend; eauto).
    simpl. lia.
Qed.

Section ProgressFacts.

Context `{PyLib}.

(** X16. When no task is interrupted and no call that ends in time has
    raised, [get_statistic_dict] reaches [pbar.close()] with a bar whose
    total is the number of files and that has advanced once for every call
    that returned, with or without metadata: it falls short of its total
    by the number of files that could not be opened, whose calls have no
    callback.  Otherwise the bar is never closed. *)
Theorem progress_bar_misses_the_failed_calls (sched : list nat)
    (files : list file) :
  (Forall passes files ->
   exists pbar,
     progress sched files = Some pbar
     /\ pbar_total pbar = length files
     /\ pbar_n pbar + unreadable files = length files)
  /\ (~ Forall passes files -> progress sched files = None).
Proof.
  unfold progress.
  destruct (joined_pool sched files) as (ws & t & Ej & Hfin & Hends & _).
  rewrite Ej, (wait_tasks_files files ws _ Hfin Hends). split.
  - intros Hb. rewrite (wait_files_passed files _ Hb). simpl.
    eexists. split; [reflexivity|]. rewrite callbacks_count. simpl.
    split; [reflexivity|]. apply returned_calls; assumption.
  - intros Hnb.
    destruct (wait_files files (Returns t)) as [out r] eqn:E. simpl.
    destruct (wait_files_cases _ _ _ _ E)
      as [[_ Hall]|[[-> _]|(e & f & -> & _)]];
      [contradiction|reflexivity|reflexivity].
Qed.

End ProgressFacts.

Section SampleProgress.

#[local] Existing Instance plain.

Lemma progress_bar_misses_the_failed_calls_witness :
  Forall passes [File (Sample.complete "1/200" "100") Ready;
                 File Sample.broken TimedOut;
                 File NoExif Ready]
  /\ exists pbar,
       progress [0] [File (Sample.complete "1/200" "100") Ready;
                     File Sample.broken TimedOut;
                     File NoExif Ready] = Some pbar
       /\ pbar_total pbar = 3 /\ pbar_n pbar + 1 = 3.
Proof.
  assert (Forall passes [File (Sample.complete "1/200" "100") Ready;
                         File Sample.broken TimedOut;
                         File NoExif Ready]) as Hb
    by (repeat constructor; simpl; congruence).
  split; [exact Hb|].
  exact (proj1 (progress_bar_misses_the_failed_calls [0] _) Hb).
Defined.

End SampleProgress.

(** ** The values that are counted, once more *)

Lemma lstrip_id chars s :
  starts_in chars s = false -> PyStr.lstrip chars s = s.
Proof. destruct s as [|c s]; simpl; [reflexivity|]. intros ->. reflexivity. Qed.

Lemma rstrip_id chars s :
  ends_in chars s = false -> PyStr.rstrip chars s = s.
Proof.
  induction s as [|c s IH]; [reflexivity|].
  destruct s as [|d s].
  - simpl. intros ->. reflexivity.
  - intros Hend. change (ends_in chars (String d s) = false) in Hend.
    change (match PyStr.rstrip chars (String d s) with
            | EmptyString =>
                if PyStr.char_in c chars then EmptyString
                else String c EmptyString
            | r => String c r
            end = String c (String d s)).
    rewrite (IH Hend). reflexivity.
Qed.

(** X17. For a field other than the date, a tag that neither starts nor
    ends with NUL is counted as it is, and the value counted is such a
    tag: normalising it again changes nothing. *)
Theorem field_value_keeps_clean_tags (key raw : string) :
  key <> "DateTimeOriginal" ->
  (starts_in NULs raw = false -> ends_in NULs raw = false ->
   field_value key raw = raw)
  /\ field_value key (field_value key raw) = field_value key raw.
Proof.
  intros Hkey.
  assert (forall s, starts_in NULs s = false -> ends_in NULs s = false ->
                    field_value key s = s) as Hid.
  { intros s Hst Hend. unfold field_value.
    destruct (String.eqb_spec key "DateTimeOriginal") as [|_];
      [contradiction|].
    fold NULs. unfold PyStr.strip.
    rewrite (lstrip_id _ _ Hst). apply rstrip_id, Hend. }
  split; [apply Hid|].
  unfold field_value at 2 3.
  destruct (String.eqb_spec key "DateTimeOriginal") as [|_]; [contradiction|].
  fold NULs. unfold PyStr.strip.
  destruct (lstrip_spec NULs raw) as (pre & _ & _ & Hst).
  destruct (rstrip_spec NULs (PyStr.lstrip NULs raw))
    as (post & _ & _ & Hend & Hst').
  apply Hid; [|exact Hend]. rewrite Hst', Hst. reflexivity.
Qed.

Lemma field_value_keeps_clean_tags_witness :
  "LensModel" <> "DateTimeOriginal"
  /\ field_value "LensModel"
       (field_value "LensModel" (String PyStr.NUL ("23mm F2" ++ NULs)))
     = field_value "LensModel" (String PyStr.NUL ("23mm F2" ++ NULs)).
Proof.
  assert ("LensModel" <> "DateTimeOriginal") as Hne by discriminate.
  split; [exact Hne|].
  exact (proj2 (field_value_keeps_clean_tags "LensModel" _ Hne)).
Defined.

(** ** get_statistic_dict on a directory *)

Section Whole.

Variable lower : string -> string.

Context `{PyLib}.

(** X18. [get_statistic_dict] opens the files that pass the two filters
    and no other: when the tasks of these files pass, it returns a table,
    whatever the other paths of the directory are, and the counts of a
    field add up to the number of the files kept that are processed for
    it. *)
Theorem only_listed_files_are_opened (sched : list nat) (in_dir : directory)
    (recursive : bool) (img_exts dir_filter : string) :
  Forall (fun e => passes (task e))
         (list_files lower in_dir recursive img_exts dir_filter) ->
  exists out t,
    get_statistic_dict_in_dir lower sched in_dir recursive img_exts dir_filter
    = (out, Returns t)
    /\ forall k,
         total k t
         = length (filter (fun e => processed_for k (content (task e)) = true)
                          (list_files lower in_dir recursive img_exts
                                      dir_filter)).
Proof.
  intros Hb. unfold get_statistic_dict_in_dir.
  set (kept := list_files lower in_dir recursive img_exts dir_filter) in *.
  destruct (get_statistic_dict_spec sched (map task kept))
    as (t & E & _ & _ & _ & Ht).
  rewrite (wait_files_passed (map task kept)) in E
    by (apply Forall_fmap; exact Hb).
  exists (replicate (timed_out (map task kept)) TLE), t.
  split; [exact E|]. intros k. rewrite Ht. clear.
  induction kept as [|e kept IH]; [reflexivity|].
  simpl. rewrite !filter_cons. simpl.
  destruct (decide (processed_for k (content (task e)) = true));
    simpl; rewrite IH; reflexivity.
Qed.

End Whole.

Section SampleWhole.

#[local] Existing Instance plain.

Lemma only_listed_files_are_opened_witness :
  Forall (fun e => passes (task e))
         (list_files PlainText.lower PlainText.photos true "JPG,png" "photos")
  /\ exists out t,
       get_statistic_dict_in_dir PlainText.lower [] PlainText.photos true
         "JPG,png" "photos"
       = (out, Returns t)
       /\ total "Model" t = 2 /\ total "LensModel" t = 1.
Proof.
  assert (Forall (fun e => passes (task e))
            (list_files PlainText.lower PlainText.photos true "JPG,png"
                        "photos")) as Hb.
  { repeat constructor; simpl; congruence. }
  split; [exact Hb|].
  destruct (only_listed_files_are_opened PlainText.lower [] _ _ _ _ Hb)
    as (out & t & E & Ht).
  exists out, t. split; [exact E|]. rewrite !Ht. split; reflexivity.
Defined.

End SampleWhole.

(** ** Sample runs, once more *)

Section SampleReturned.

#[local] Existing Instance plain.

Lemma table_counts_files_witness :
  get_statistic_dict [1; 1] SampleRun.files
  = ([TLE], Returns SampleRun.in_turns)
  /\ count "Model" "X100V" SampleRun.in_turns
     = length (filter (counts "Model" "X100V")
                      (map content SampleRun.files)).
Proof.
  assert (get_statistic_dict [1; 1] SampleRun.files
          = ([TLE], Returns SampleRun.in_turns)) as E
    by (vm_compute; reflexivity).
  split; [exact E|].
  exact (proj1 (table_counts_files _ _ _ _ "Model" "X100V" E)).
Defined.

Lemma totals_decrease_along_the_fields_witness :
  get_statistic_dict [1; 1] SampleRun.files
  = ([TLE], Returns SampleRun.in_turns)
  /\ STATISTIC_KEYS
     = ["DateTimeOriginal"] ++ "Model" :: [] ++ "LensModel"
         :: ["FNumber"; "ExposureTime"; "ISOSpeedRatings"; "FocalLength"]
  /\ total "LensModel" SampleRun.in_turns <= total "Model" SampleRun.in_turns
  /\ total "Model" SampleRun.in_turns <= length SampleRun.files.
Proof.
  assert (get_statistic_dict [1; 1] SampleRun.files
          = ([TLE], Returns SampleRun.in_turns)) as E
    by (vm_compute; reflexivity).
  split; [exact E|]. split; [reflexivity|].
  exact (totals_decrease_along_the_fields _ _ _ _ ["DateTimeOriginal"]
           "Model" [] "LensModel" _ E eq_refl).
Defined.

Lemma figure_counts_the_files_witness :
  get_statistic_dict [1; 1] SampleRun.files
  = ([TLE], Returns SampleRun.in_turns)
  /\ plot_field SampleRun.in_turns "Model"
     = ([Header "Model"; Figure ["GR III"; "X100V"] [1; 1]], None)
  /\ exists labels values,
       [Header "Model"; Figure ["GR III"; "X100V"] [1; 1]]
       = [Header "Model"; Figure labels values]
       /\ length labels = length values
       /\ Forall (fun n => 1 <= n) values
       /\ sum_list values
          = length (filter (fun img => processed_for "Model" img = true)
                           (map content SampleRun.files)).
Proof.
  assert (get_statistic_dict [1; 1] SampleRun.files
          = ([TLE], Returns SampleRun.in_turns)) as E
    by (vm_compute; reflexivity).
  assert (plot_field SampleRun.in_turns "Model"
          = ([Header "Model"; Figure ["GR III"; "X100V"] [1; 1]], None))
    as Hplot by reflexivity.
  split; [exact E|]. split; [exact Hplot|].
  destruct (figure_counts_the_files _ _ _ _ _ _ E Hplot)
    as (labels & values & H1 & H2 & H3 & H4 & _).
  exists labels, values. auto.
Defined.

Lemma model_figures_do_not_depend_on_the_schedule_witness :
  get_statistic_dict [] SampleRun.files
  = ([TLE], Returns SampleRun.in_order)
  /\ get_statistic_dict [1; 1] SampleRun.files
     = ([TLE], Returns SampleRun.in_turns)
  /\ plot_field SampleRun.in_order "Model"
     = plot_field SampleRun.in_turns "Model".
Proof.
  assert (get_statistic_dict [] SampleRun.files
          = ([TLE], Returns SampleRun.in_order)) as E1
    by (vm_compute; reflexivity).
  assert (get_statistic_dict [1; 1] SampleRun.files
          = ([TLE], Returns SampleRun.in_turns)) as E2
    by (vm_compute; reflexivity).
  split; [exact E1|]. split; [exact E2|].
  exact (model_figures_do_not_depend_on_the_schedule _ _ _ _ _ _ _ "Model"
           (or_introl eq_refl) E1 E2).
Defined.

Lemma missing_field_ends_the_plot_witness :
  get_statistic_dict [1; 1] SampleRun.files
  = ([TLE], Returns SampleRun.in_turns)
  /\ Forall (plottable SampleRun.in_turns) ["DateTimeOriginal"; "Model"]
  /\ Forall (fun f => processed_for "LensModel" (content f) = false)
            SampleRun.files
  /\ exists figs,
       length figs = 2
       /\ cli [1; 1] SampleRun.files
          = ([TLE] ++ charts ["DateTimeOriginal"; "Model"] figs,
             Some UnpackError).
Proof.
  assert (get_statistic_dict [1; 1] SampleRun.files
          = ([TLE], Returns SampleRun.in_turns)) as E
    by (vm_compute; reflexivity).
  assert (Forall (plottable SampleRun.in_turns) ["DateTimeOriginal"; "Model"])
    as Hpre.
  { repeat constructor.
    - exists [("2022-11-20", 1); ("2023-05-01", 1)].
      split; [reflexivity|]. split; [discriminate|].
      repeat constructor; eexists; reflexivity.
    - exists [("GR III", 1); ("X100V", 1)].
      split; [reflexivity|]. split; [discriminate|].
      repeat constructor; eexists; reflexivity. }
  assert (Forall (fun f => processed_for "LensModel" (content f) = false)
                 SampleRun.files) as Hno
    by (repeat constructor).
  split; [exact E|]. split; [exact Hpre|]. split; [exact Hno|].
  exact (missing_field_ends_the_plot _ _ _ _ ["DateTimeOriginal"; "Model"]
           "LensModel" _ E eq_refl ltac:(discriminate) Hpre Hno).
Defined.

Lemma no_dated_file_no_figure_witness :
  Forall passes [File Sample.broken TimedOut; File NoExif Ready]
  /\ cli [0] [File Sample.broken TimedOut; File NoExif Ready] = ([TLE], None).
Proof.
  assert (Forall passes [File Sample.broken TimedOut; File NoExif Ready])
    as Hb by (repeat constructor; simpl; congruence).
  split; [exact Hb|].
  apply (no_dated_file_no_figure [0] _ Hb). repeat constructor.
Defined.

Lemma cli_ends_with_witness :
  cli [] [File SampleTable.two_isos Ready]
  = ([Header "DateTimeOriginal"; Figure ["2023-05-01"] [1];
      Header "Model"; Figure ["X100V"] [1];
      Header "LensModel"; Figure ["23mm F2"] [1];
      Header "FNumber"; Figure ["2.8"] [1];
      Header "ExposureTime"; Figure ["1/200"] [1]],
     Some (ConversionError "ISOSpeedRatings" "(100, 100)"))
  /\ exists k v n f,
       ConversionError "ISOSpeedRatings" "(100, 100)" = ConversionError k v
       /\ sort_lambda k (v, n) = None
       /\ f ∈ [File SampleTable.two_isos Ready]
       /\ counts k v (content f).
Proof.
  assert (cli [] [File SampleTable.two_isos Ready]
          = ([Header "DateTimeOriginal"; Figure ["2023-05-01"] [1];
              Header "Model"; Figure ["X100V"] [1];
              Header "LensModel"; Figure ["23mm F2"] [1];
              Header "FNumber"; Figure ["2.8"] [1];
              Header "ExposureTime"; Figure ["1/200"] [1]],
             Some (ConversionError "ISOSpeedRatings" "(100, 100)"))) as E
    by (vm_compute; reflexivity).
  split; [exact E|].
  destruct (cli_ends_with _ _ _ _ E)
    as [[Ht _]|[(f & Hf & _ & Hu)|[[Hu _]|Hc]]].
  - discriminate Ht.
  - apply list_elem_of_singleton in Hf. subst f. discriminate Hu.
  - discriminate Hu.
  - exact Hc.
Defined.

End SampleReturned.

(** ** The tags behind the values *)

Section Tags.

Context `{PyLib}.

(** The key of [exif_result] a tag is stored under. *)
Lemma exif_result_of_lookup exif k : forall (m : gmap (string + Z) string) raw,
  foldl (fun exif_result '(tag, value) =>
           let key := match TAGS tag with
                      | Some name => inl name
                      | None => inr tag
                      end in
           <[key := value]> exif_result) m exif !! inl k = Some raw ->
  m !! inl k = Some raw
  \/ exists tag, (tag, raw) ∈ exif /\ TAGS tag = Some k.
Proof.
  induction exif as [|[tag value] exif IH]; intros m raw; simpl; [auto|].
  intros [Hm|(tag' & Hin & Htag)]%IH.
  - destruct (TAGS tag) as [name|] eqn:Htag.
    + destruct (decide (name = k)) as [->|Hne].
      * rewrite lookup_insert_eq in Hm. injection Hm as ->.
        right. exists tag. split; [left|exact Htag].
      * rewrite lookup_insert_ne in Hm by congruence. auto.
    + rewrite lookup_insert_ne in Hm by discriminate. auto.
  - right. exists tag'. split; [right; exact Hin|exact Htag].
Qed.

Lemma exif_result_of_carried exif k : forall (m : gmap (string + Z) string),
  is_Some (m !! inl k)
  \/ (exists tag value, (tag, value) ∈ exif /\ TAGS tag = Some k) ->
  is_Some (foldl (fun exif_result '(tag, value) =>
                    let key := match TAGS tag with
                               | Some name => inl name
                               | None => inr tag
                               end in
                    <[key := value]> exif_result) m exif !! inl k).
Proof.
  induction exif as [|[tag value] exif IH]; intros m; simpl.
  - intros [Hm|(tag & value & []%elem_of_nil & _)]. exact Hm.
  - intros Hor. apply IH.
    destruct Hor as [Hm|(tag' & value' & [[= -> ->]|Hin]%elem_of_cons & Htag)].
    + left. destruct (TAGS tag) as [name|].
      * destruct (decide (name = k)) as [->|Hne].
        -- rewrite lookup_insert_eq. eauto.
        -- rewrite lookup_insert_ne by congruence. exact Hm.
      * rewrite lookup_insert_ne by discriminate. exact Hm.
    + left. rewrite Htag, lookup_insert_eq. eauto.
    + right. eauto.
Qed.

(** X19. The metadata carries a field exactly when [TAGS] gives the name
    of the field to one of its tags, and a value a call counts for a
    tracked field is what [field_value] makes of the value of such a tag:
    a tag without name, or with another name, is never counted. *)
Theorem counted_values_come_from_tags (exif : list (Z * string))
    (k v : string) :
  (carries exif k = true
   <-> exists tag value, (tag, value) ∈ exif /\ TAGS tag = Some k)
  /\ (counts k v (Exif exif) ->
      k ∈ STATISTIC_KEYS
      /\ exists tag raw,
           (tag, raw) ∈ exif /\ TAGS tag = Some k /\ v = field_value k raw).
Proof.
  split.
  - rewrite carries_is_Some. unfold exif_result_of. split.
    + intros [raw Hraw].
      apply exif_result_of_lookup in Hraw as [Hm|(tag & Hin & Htag)].
      * rewrite lookup_empty in Hm. discriminate.
      * eauto.
    + intros Hex. apply exif_result_of_carried. right. exact Hex.
  - unfold counts. intros Hin.
    pose proof (make_statistic_fields (Exif exif)) as Hf.
    pose proof (proj1 (Forall_forall _ _) Hf _ Hin) as Hk. simpl in Hk.
    split; [exact Hk|].
    destruct (statistic_loop_prefix (exif_result_of exif) STATISTIC_KEYS)
      as (_ & _ & _ & _ & Hval).
    destruct (proj1 (Forall_forall _ _) Hval _ Hin) as (raw & Hraw & Hv).
    simpl in Hraw, Hv. unfold exif_result_of in Hraw.
    apply exif_result_of_lookup in Hraw as [Hm|(tag & Htag & Hname)].
    + rewrite lookup_empty in Hm. discriminate.
    + exists tag, raw. auto.
Qed.

End Tags.

Section SampleTags.

#[local] Existing Instance plain.

Lemma counted_values_come_from_tags_witness :
  counts "Model" "X100V" Sample.no_lens
  /\ "Model" ∈ STATISTIC_KEYS
  /\ exists tag raw,
       (tag, raw) ∈ [ (36867%Z, "2023:05:01 12:30:00"); (272%Z, "X100V") ]
       /\ TAGS tag = Some "Model" /\ "X100V" = field_value "Model" raw.
Proof.
  assert (counts "Model" "X100V" Sample.no_lens) as Hc
    by (apply (bool_decide_unpack _); vm_compute; exact I).
  split; [exact Hc|].
  exact (proj2 (counted_values_come_from_tags _ "Model" "X100V") Hc).
Defined.

End SampleTags.
